(** * The file-browsing and upload state machine of the storage web client

    A shallow embedding of the richest [FileManager] component of the
    repository (the variant with the folder tree, chunked upload, download
    tokens and existence polling) together with the role resolver shared by
    every variant.

    Conventions of the embedding.
    - A JavaScript string is a [string]; only equality, concatenation,
      splitting, searching and trimming are used by the component.  Text
      (names typed by the user, text that went through
      [decodeURIComponent]) is kept in its UTF-8 form, a character outside
      ASCII being its two to four bytes.
    - The React state of the component is the record [State]; every
      [useState] setter is a state update, functional setters
      ([setTreeCache (prev => ...)]) read the latest state, and a handler
      reads the variables of its closure from the render it was created in
      ([render]).
    - Everything outside the component is the [World]: the token provider,
      the gateway answering axios, the build-time configuration and the
      browser built-ins used by [decodeToken].
    - An [async] function is a computation in the monad [M]: it threads the
      machine state [Run], may throw, and records what it does to the
      outside world in [log] (requests, alerts, console warnings and
      errors; [console.log] is left out).  A call that is not awaited runs
      up to its first [await] and leaves its continuation in [pending]. *)

From Stdlib Require Import ZArith NArith String Ascii List Bool Lia.
From stdpp Require Import gmap strings list fin_maps.

Local Set Warnings "-register-all".

Open Scope string_scope.
Open Scope Z_scope.

(** ** Data model *)

(** A browser [File] picked in the upload input. *)
Module File.
Record t := mk { name : string; size : Z; type : string }.
End File.

(** An entry of [response.data.files]. *)
Module Entry.
Record t := mk { name : string; fullPath : option string; size : Z }.
End Entry.

(** An entry of [response.data.folders]; [handleCreateFolder] builds one
    with [type: 'folder'] and [children: 0]. *)
Module Folder.
Record t := mk { name : string; path : string; type : option string; children : Z }.
End Folder.

(** The value of [uploadProgress] while a chunked upload is shown. *)
Module Progress.
Record t := mk { current : Z; total : Z; filename : string; committing : bool }.
End Progress.

(** [response.data] of the gateway: a JSON object of which the component
    reads these properties; an absent property is [None] (and [false] for
    the flag [exists]). *)
Module Resp.
Record t := mk {
  currentPath : option string;
  files : option (list Entry.t);
  folders : option (list Folder.t);
  exists_ : bool;
  path : option string }.
End Resp.

Record Roles := mkRoles { isReader : bool; isUploader : bool; isAdmin : bool }.

(** The [useState] cells of the component that the modelled handlers touch. *)
Record State := mkState {
  files : list Entry.t;
  folders : list Folder.t;
  currentPath : string;
  loading : bool;
  error : option string;
  selectedFile : option File.t;
  uploadProgress : option Progress.t;
  showCreateFolder : bool;
  newFolderName : string;
  treeCache : gmap string (list Folder.t);
  expandedPaths : gset string;
  userRoles : Roles }.

(** The state of the first render, as the [useState] initialisers give it. *)
Definition initialState : State :=
  {| files := []; folders := []; currentPath := "/"; loading := false;
     error := None; selectedFile := None; uploadProgress := None;
     showCreateFolder := false; newFolderName := "";
     treeCache := ∅; expandedPaths := {["/"]};
     userRoles := mkRoles false false false |}.

(** ** The outside world *)

(** The HTTP calls the component makes through axios.  [bearer] is what is
    put after [Bearer] in the [Authorization] header. *)
Inductive Request :=
| GET_files (bearer : string) (folder : option string)
| POST_files (bearer : string) (folder : option string) (file : File.t)
| POST_chunked (bearer filename : string) (chunkIndex totalChunks : Z)
    (folder : string) (start stop : Z)
| POST_commit (bearer filename : string) (totalChunks : Z)
    (contentType folder : string)
| GET_exists (bearer path : string)
| POST_folders_create (bearer folderPath : string).

(** Values of the JSON payload of a token. A number is kept as
    [mantissa * 10 ^ exponent]. *)
Inductive json :=
| JNull
| JBool (b : bool)
| JNum (mantissa exponent : Z)
| JStr (s : string)
| JArr (items : list json)
| JObj (members : list (string * json)).

Inductive exn :=
| TypeError | SyntaxError | URIError | InvalidCharacterError
| AxiosError | AuthError.

Record World := mkWorld {
  (** [instance.acquireTokenSilent]: the k-th call gives a token or fails. *)
  acquireTokenSilent : nat -> option string;
  (** the gateway: [axios n r] is the answer to the n-th request of the
      session when that request is [r], [None] for a rejected promise. *)
  axios : nat -> Request -> option Resp.t;
  (** how many further ticks of a running interval timer fire before the
      promise of the n-th request settles. *)
  latency : nat -> nat;
  (** browser built-ins used by [decodeToken]; [None] is a throw. *)
  atob : string -> option string;
  decodeURIComponent : string -> option string;
  JSON_parse : string -> option json;
  (** [process.env.REACT_APP_*_GROUP_ID]; [None] when not configured. *)
  READER_GROUP_ID : option string;
  UPLOADER_GROUP_ID : option string;
  ADMIN_GROUP_ID : option string }.

(** What the component does to the outside, in order. *)
Inductive Event :=
| Sent (n : nat) (r : Request)
| Settled (n : nat) (ok : bool)
| TimerFired (ms : Z)
| Alert (msg : string)
| ConsoleWarn (msg : string)
| ConsoleError (msg : string).

(** The continuation of a call that was started and not awaited. *)
Inductive Pending :=
| FetchFilesPending (token : string) (n : nat) (r : Request)
| IntervalPending (token startedPath closurePath : string).

Record Run := mkRun {
  ui : State;
  log : list Event;
  nreq : nat;
  ntok : nat;
  pending : list Pending;
  (** the [attempts] variable and the liveness of the interval timer of the
      polling loop *)
  attempts : Z;
  intervalActive : bool }.

Definition freshRun (s : State) : Run :=
  {| ui := s; log := []; nreq := 0; ntok := 0; pending := [];
     attempts := 0; intervalActive := false |}.

(** ** The monad of handlers *)

Inductive completion (A : Type) :=
| Normal (a : A)
| Throw (e : exn).
Arguments Normal {A} a.
Arguments Throw {A} e.

Definition M (A : Type) : Type := World -> Run -> completion A * Run.

Definition ret {A} (a : A) : M A := fun _ s => (Normal a, s).

Definition bind {A B} (m : M A) (k : A -> M B) : M B :=
  fun w s =>
    match m w s with
    | (Normal a, s') => k a w s'
    | (Throw e, s') => (Throw e, s')
    end.

Definition throw {A} (e : exn) : M A := fun _ s => (Throw e, s).

(** [try { body } catch (e) { handler }] *)
Definition try_catch {A} (body : M A) (handler : exn -> M A) : M A :=
  fun w s =>
    match body w s with
    | (Normal a, s') => (Normal a, s')
    | (Throw e, s') => handler e w s'
    end.

(** [try { body } finally { fin }] *)
Definition try_finally {A} (body : M A) (fin : M unit) : M A :=
  fun w s =>
    match body w s with
    | (c, s') =>
        match fin w s' with
        | (Normal _, s'') => (c, s'')
        | (Throw e, s'') => (Throw e, s'')
        end
    end.

Declare Scope js_scope.
Delimit Scope js_scope with js.
Notation "x <- m ;; k" := (bind m (fun x => k))
  (at level 100, m at next level, k at level 200, right associativity) : js_scope.
Notation "m ;; k" := (bind m (fun _ => k))
  (at level 100, k at level 200, right associativity) : js_scope.
Open Scope js_scope.

Definition world : M World := fun w s => (Normal w, s).
Definition get : M Run := fun _ s => (Normal s, s).
Definition modify (f : Run -> Run) : M unit := fun _ s => (Normal tt, f s).

(** Record updates: [with_f v s] is [s] with field [f] set to [v]. *)

Definition with_ui (v : State) (s : Run) : Run :=
  {| ui := v; log := log s; nreq := nreq s; ntok := ntok s;
     pending := pending s; attempts := attempts s;
     intervalActive := intervalActive s |}.

Definition with_log (v : list Event) (s : Run) : Run :=
  {| ui := ui s; log := v; nreq := nreq s; ntok := ntok s;
     pending := pending s; attempts := attempts s;
     intervalActive := intervalActive s |}.

Definition with_nreq (v : nat) (s : Run) : Run :=
  {| ui := ui s; log := log s; nreq := v; ntok := ntok s;
     pending := pending s; attempts := attempts s;
     intervalActive := intervalActive s |}.

Definition with_ntok (v : nat) (s : Run) : Run :=
  {| ui := ui s; log := log s; nreq := nreq s; ntok := v;
     pending := pending s; attempts := attempts s;
     intervalActive := intervalActive s |}.

Definition with_pending (v : list Pending) (s : Run) : Run :=
  {| ui := ui s; log := log s; nreq := nreq s; ntok := ntok s; pending := v;
     attempts := attempts s; intervalActive := intervalActive s |}.

Definition with_attempts (v : Z) (s : Run) : Run :=
  {| ui := ui s; log := log s; nreq := nreq s; ntok := ntok s;
     pending := pending s; attempts := v;
     intervalActive := intervalActive s |}.

Definition with_intervalActive (v : bool) (s : Run) : Run :=
  {| ui := ui s; log := log s; nreq := nreq s; ntok := ntok s;
     pending := pending s; attempts := attempts s; intervalActive := v |}.

Definition with_files (v : list Entry.t) (s : State) : State :=
  {| files := v; folders := folders s; currentPath := currentPath s;
     loading := loading s; error := error s; selectedFile := selectedFile s;
     uploadProgress := uploadProgress s;
     showCreateFolder := showCreateFolder s;
     newFolderName := newFolderName s; treeCache := treeCache s;
     expandedPaths := expandedPaths s; userRoles := userRoles s |}.

Definition with_folders (v : list Folder.t) (s : State) : State :=
  {| files := files s; folders := v; currentPath := currentPath s;
     loading := loading s; error := error s; selectedFile := selectedFile s;
     uploadProgress := uploadProgress s;
     showCreateFolder := showCreateFolder s;
     newFolderName := newFolderName s; treeCache := treeCache s;
     expandedPaths := expandedPaths s; userRoles := userRoles s |}.

Definition with_currentPath (v : string) (s : State) : State :=
  {| files := files s; folders := folders s; currentPath := v;
     loading := loading s; error := error s; selectedFile := selectedFile s;
     uploadProgress := uploadProgress s;
     showCreateFolder := showCreateFolder s;
     newFolderName := newFolderName s; treeCache := treeCache s;
     expandedPaths := expandedPaths s; userRoles := userRoles s |}.

Definition with_loading (v : bool) (s : State) : State :=
  {| files := files s; folders := folders s; currentPath := currentPath s;
     loading := v; error := error s; selectedFile := selectedFile s;
     uploadProgress := uploadProgress s;
     showCreateFolder := showCreateFolder s;
     newFolderName := newFolderName s; treeCache := treeCache s;
     expandedPaths := expandedPaths s; userRoles := userRoles s |}.

Definition with_error (v : option string) (s : State) : State :=
  {| files := files s; folders := folders s; currentPath := currentPath s;
     loading := loading s; error := v; selectedFile := selectedFile s;
     uploadProgress := uploadProgress s;
     showCreateFolder := showCreateFolder s;
     newFolderName := newFolderName s; treeCache := treeCache s;
     expandedPaths := expandedPaths s; userRoles := userRoles s |}.

Definition with_selectedFile (v : option File.t) (s : State) : State :=
  {| files := files s; folders := folders s; currentPath := currentPath s;
     loading := loading s; error := error s; selectedFile := v;
     uploadProgress := uploadProgress s;
     showCreateFolder := showCreateFolder s;
     newFolderName := newFolderName s; treeCache := treeCache s;
     expandedPaths := expandedPaths s; userRoles := userRoles s |}.

Definition with_uploadProgress (v : option Progress.t) (s : State) : State :=
  {| files := files s; folders := folders s; currentPath := currentPath s;
     loading := loading s; error := error s; selectedFile := selectedFile s;
     uploadProgress := v; showCreateFolder := showCreateFolder s;
     newFolderName := newFolderName s; treeCache := treeCache s;
     expandedPaths := expandedPaths s; userRoles := userRoles s |}.

Definition with_showCreateFolder (v : bool) (s : State) : State :=
  {| files := files s; folders := folders s; currentPath := currentPath s;
     loading := loading s; error := error s; selectedFile := selectedFile s;
     uploadProgress := uploadProgress s; showCreateFolder := v;
     newFolderName := newFolderName s; treeCache := treeCache s;
     expandedPaths := expandedPaths s; userRoles := userRoles s |}.

Definition with_newFolderName (v : string) (s : State) : State :=
  {| files := files s; folders := folders s; currentPath := currentPath s;
     loading := loading s; error := error s; selectedFile := selectedFile s;
     uploadProgress := uploadProgress s;
     showCreateFolder := showCreateFolder s; newFolderName := v;
     treeCache := treeCache s; expandedPaths := expandedPaths s;
     userRoles := userRoles s |}.

Definition with_treeCache (v : gmap string (list Folder.t)) (s : State) : State :=
  {| files := files s; folders := folders s; currentPath := currentPath s;
     loading := loading s; error := error s; selectedFile := selectedFile s;
     uploadProgress := uploadProgress s;
     showCreateFolder := showCreateFolder s;
     newFolderName := newFolderName s; treeCache := v;
     expandedPaths := expandedPaths s; userRoles := userRoles s |}.

Definition with_expandedPaths (v : gset string) (s : State) : State :=
  {| files := files s; folders := folders s; currentPath := currentPath s;
     loading := loading s; error := error s; selectedFile := selectedFile s;
     uploadProgress := uploadProgress s;
     showCreateFolder := showCreateFolder s;
     newFolderName := newFolderName s; treeCache := treeCache s;
     expandedPaths := v; userRoles := userRoles s |}.

Definition with_userRoles (v : Roles) (s : State) : State :=
  {| files := files s; folders := folders s; currentPath := currentPath s;
     loading := loading s; error := error s; selectedFile := selectedFile s;
     uploadProgress := uploadProgress s;
     showCreateFolder := showCreateFolder s;
     newFolderName := newFolderName s; treeCache := treeCache s;
     expandedPaths := expandedPaths s; userRoles := v |}.

Definition emit (e : Event) : M unit :=
  modify (fun s => with_log (log s ++ [e]) s).

Definition defer (p : Pending) : M unit :=
  modify (fun s => with_pending (pending s ++ [p]) s).

(** The variables a handler closes over: the state of the render that
    created it, which is the current one when the handler is invoked. *)
Definition render : M State := fun _ s => (Normal (ui s), s).

(** *** State setters *)

(** [setX(v)] *)
Definition setState (upd : State -> State) : M unit :=
  modify (fun s => with_ui (upd (ui s)) s).

Definition setFiles (v : list Entry.t) : M unit := setState (with_files v).
Definition setFolders (v : list Folder.t) : M unit := setState (with_folders v).
Definition setCurrentPath (v : string) : M unit := setState (with_currentPath v).
Definition setLoading (v : bool) : M unit := setState (with_loading v).
Definition setError (v : option string) : M unit := setState (with_error v).
Definition setSelectedFile (v : option File.t) : M unit := setState (with_selectedFile v).
Definition setUploadProgress (v : option Progress.t) : M unit :=
  setState (with_uploadProgress v).
Definition setShowCreateFolder (v : bool) : M unit := setState (with_showCreateFolder v).
Definition setNewFolderName (v : string) : M unit := setState (with_newFolderName v).
Definition setExpandedPaths (v : gset string) : M unit := setState (with_expandedPaths v).
Definition setUserRoles (v : Roles) : M unit := setState (with_userRoles v).

(** [setX(prev => f(prev))]: the update reads the latest state. *)
Definition updFolders (f : list Folder.t -> list Folder.t) : M unit :=
  setState (fun s => with_folders (f (folders s)) s).
Definition updTreeCache
    (f : gmap string (list Folder.t) -> gmap string (list Folder.t)) : M unit :=
  setState (fun s => with_treeCache (f (treeCache s)) s).
Definition updExpandedPaths (f : gset string -> gset string) : M unit :=
  setState (fun s => with_expandedPaths (f (expandedPaths s)) s).

(** *** Talking to the world *)

(** [getAccessToken]: logs and rethrows what [acquireTokenSilent] throws. *)
Definition getAccessToken : M string :=
  fun w s =>
    let s' := with_ntok (S (ntok s)) s in
    match acquireTokenSilent w (ntok s) with
    | Some token => (Normal token, s')
    | None => bind (emit (ConsoleError "Error acquiring token:"))
                   (fun _ => throw AuthError) w s'
    end.

(** Calling axios sends the request at once and gives a promise ... *)
Definition axios_send (r : Request) : M nat :=
  fun _ s =>
    (Normal (nreq s),
     with_nreq (S (nreq s)) (with_log (log s ++ [Sent (nreq s) r]) s)).

(** ... and [await] resumes when the promise settles, with the response
    or by throwing. *)
Definition axios_settle (n : nat) (r : Request) : M Resp.t :=
  fun w s =>
    match axios w n r with
    | Some resp => bind (emit (Settled n true)) (fun _ => ret resp) w s
    | None => bind (emit (Settled n false)) (fun _ => throw AxiosError) w s
    end.

Definition axios_await (r : Request) : M Resp.t :=
  n <- axios_send r ;; axios_settle n r.

(** Whether a promise was resolved with a response saying that the blob
    exists ([existsResp?.data?.exists]). *)
Definition reports (o : option Resp.t) : bool :=
  match o with Some resp => Resp.exists_ resp | None => false end.

(** Whether a promise was resolved with a response. *)
Definition answered (o : option Resp.t) : bool :=
  match o with Some _ => true | None => false end.

(** [s || d] on an optional string: [undefined] and [''] are falsy. *)
Definition str_or (o : option string) (d : string) : string :=
  match o with
  | Some s => if String.eqb s "" then d else s
  | None => d
  end.

(** [xs || []] on an optional array: every array is truthy. *)
Definition arr_or {A} (o : option (list A)) : list A :=
  match o with Some xs => xs | None => [] end.

(** ** File Listing Client: [fetchFiles] *)

(** The query string of a listing: [folderPath && folderPath !== '/']. *)
Definition folderQuery (folderPath : string) : option string :=
  if String.eqb folderPath "" then None
  else if String.eqb folderPath "/" then None
  else Some folderPath.

(** [fetchFiles] up to its first [await]. *)
Definition fetchFiles_begin (token folderPath : string) : M (nat * Request) :=
  setLoading true ;;
  setError None ;;
  let r := GET_files token (folderQuery folderPath) in
  n <- axios_send r ;;
  ret (n, r).

(** [fetchFiles] from the point where the promise of its listing request
    settles. *)
Definition fetchFiles_resume (token : string) (p : nat * Request) : M unit :=
  try_finally
    (try_catch
      (response <- axios_settle (fst p) (snd p) ;;
       let cp := str_or (Resp.currentPath response) "/" in
       setCurrentPath cp ;;
       setFiles (arr_or (Resp.files response)) ;;
       setFolders (arr_or (Resp.folders response)) ;;
       updTreeCache (fun prev => <[cp := arr_or (Resp.folders response)]> prev) ;;
       (if String.eqb cp "/" then ret tt
        else
          try_catch
            (rootResp <- axios_await (GET_files token None) ;;
             updTreeCache (fun prev =>
               <[str_or (Resp.currentPath rootResp) "/" :=
                   arr_or (Resp.folders rootResp)]> prev))
            (fun _ => emit (ConsoleWarn "Failed to refresh root tree:"))) ;;
       updExpandedPaths (fun prev => prev ∪ {[cp]}))
      (fun _ =>
         emit (ConsoleError "Error fetching files:") ;;
         setError (Some "Failed to fetch files.")))
    (setLoading false).

(** [await fetchFiles(token, folderPath)] *)
Definition fetchFiles (token folderPath : string) : M unit :=
  p <- fetchFiles_begin token folderPath ;;
  fetchFiles_resume token p.

(** [fetchFiles(token, folderPath)] without [await]: the caller goes on
    while the request is in flight. *)
Definition fetchFiles_detached (token folderPath : string) : M unit :=
  p <- fetchFiles_begin token folderPath ;;
  defer (FetchFilesPending token (fst p) (snd p)).

(** ** Role Resolver: [decodeToken] and [initializeComponent] *)

(** [s.split(sep)] for a one-character separator. *)
Fixpoint split_on (sep : ascii) (s : string) : list string :=
  match s with
  | EmptyString => [EmptyString]
  | String c s' =>
      if Ascii.eqb c sep then EmptyString :: split_on sep s'
      else match split_on sep s' with
           | seg :: rest => String c seg :: rest
           | [] => [String c EmptyString]
           end
  end.

(** [s.replace(/a/g, b)] for single characters. *)
Fixpoint replace_char (a b : ascii) (s : string) : string :=
  match s with
  | EmptyString => EmptyString
  | String c s' => String (if Ascii.eqb c a then b else c) (replace_char a b s')
  end.

Definition hex_digit (n : N) : ascii :=
  ascii_of_N (if (n <? 10)%N then 48 + n else 87 + n)%N.

(** [.split('').map(c => '%' + ('00' + c.charCodeAt(0).toString(16)).slice(-2)).join('')]
    on the binary string that [atob] returns (every code is below 256). *)
Fixpoint percent_escape (s : string) : string :=
  match s with
  | EmptyString => EmptyString
  | String c s' =>
      let n := N_of_ascii c in
      String "%" (String (hex_digit (n / 16)) (String (hex_digit (n mod 16))
        (percent_escape s')))
  end.

Definition decodeToken (w : World) (token : string) : completion json :=
  match split_on "." token !! 1%nat with
  | None => Throw TypeError
  | Some base64Url =>
      let base64 := replace_char "_" "/" (replace_char "-" "+" base64Url) in
      match atob w base64 with
      | None => Throw InvalidCharacterError
      | Some binary =>
          match decodeURIComponent w (percent_escape binary) with
          | None => Throw URIError
          | Some jsonPayload =>
              match JSON_parse w jsonPayload with
              | None => Throw SyntaxError
              | Some decoded => Normal decoded
              end
          end
      end
  end.

(** A JSON number converts to the double [0] exactly when it is zero or
    its magnitude is at most [2 ^ -1075]. *)
Definition number_is_zero (m e : Z) : bool :=
  (m =? 0) || ((e <? 0) && (Z.abs m * 2 ^ 1075 <=? 10 ^ (- e))).

Definition truthy (v : json) : bool :=
  match v with
  | JNull => false
  | JBool b => b
  | JNum m e => negb (number_is_zero m e)
  | JStr s => negb (String.eqb s "")
  | JArr _ | JObj _ => true
  end.

(** The value of an own property of a parsed object: the last member with
    that key wins. *)
Fixpoint member (key : string) (members : list (string * json)) : option json :=
  match members with
  | [] => None
  | (k, v) :: rest =>
      match member key rest with
      | Some v' => Some v'
      | None => if String.eqb k key then Some v else None
      end
  end.

(** [decoded['groups'] || []] *)
Definition decoded_groups (decoded : json) : completion json :=
  match decoded with
  | JNull => Throw TypeError
  | JObj members =>
      match member "groups" members with
      | Some v => Normal (if truthy v then v else JArr [])
      | None => Normal (JArr [])
      end
  | _ => Normal (JArr [])
  end.

Fixpoint contains (needle hay : string) : bool :=
  String.prefix needle hay ||
  match hay with
  | EmptyString => false
  | String _ hay' => contains needle hay'
  end.

(** [groups.includes(id)]: strict equality on the elements of an array, a
    substring search on a string, and no such method on anything else. *)
Definition includes (groups : json) (id : option string) : completion bool :=
  match groups with
  | JArr items =>
      Normal (existsb (fun x =>
                match x, id with
                | JStr s, Some i => String.eqb s i
                | _, _ => false
                end) items)
  | JStr s => Normal (contains (default "undefined" id) s)
  | _ => Throw TypeError
  end.

Definition lift {A} (c : completion A) : M A := fun _ s => (c, s).

Definition initializeComponent : M unit :=
  try_catch
    (token <- getAccessToken ;;
     w <- world ;;
     decoded <- lift (decodeToken w token) ;;
     groups <- lift (decoded_groups decoded) ;;
     (* console.log('Is in Reader group:', groups.includes(...)) *)
     _ <- lift (includes groups (READER_GROUP_ID w)) ;;
     isReader <- lift (includes groups (READER_GROUP_ID w)) ;;
     isUploader <- lift (includes groups (UPLOADER_GROUP_ID w)) ;;
     isAdmin <- lift (includes groups (ADMIN_GROUP_ID w)) ;;
     setUserRoles (mkRoles isReader isUploader isAdmin) ;;
     if isReader || isUploader || isAdmin then fetchFiles_detached token ""
     else setError (Some "You do not have permission to access files."))
    (fun _ =>
       emit (ConsoleError "Initialization error:") ;;
       setError (Some "Failed to initialize. Please log in again.")).

(** ** Upload Controller *)

Definition CHUNK_SIZE : Z := 50 * 1024 * 1024.
Definition USE_CHUNKED_THRESHOLD : Z := 100 * 1024 * 1024.
Definition pollIntervalMs : Z := 3000.
Definition maxAttempts : Z := 100.

(** [Math.ceil(a / b)] on integers; the division of the source is exact on
    doubles for every size below [2 ^ 53]. *)
Definition Math_ceil_div (a b : Z) : Z := - ((- a) / b).

(** [currentPath === '/' ? '' : currentPath] *)
Definition folderOf (cp : string) : string :=
  if String.eqb cp "/" then "" else cp.

(** The request of chunk [chunkIndex]: the slice [start, stop) of the file
    with [{filename, chunkIndex, totalChunks, folder}]. *)
Definition chunkRequest (r : State) (file : File.t) (token : string)
    (totalChunks chunkIndex : Z) : Request :=
  let start := chunkIndex * CHUNK_SIZE in
  let stop := Z.min (start + CHUNK_SIZE) (File.size file) in
  POST_chunked token (File.name file) chunkIndex totalChunks
    (folderOf (currentPath r)) start stop.

(** The commit request [{filename, totalChunks, contentType, folder}]. *)
Definition commitRequest (r : State) (file : File.t) (token : string)
    (totalChunks : Z) : Request :=
  POST_commit token (File.name file) totalChunks
    (if String.eqb (File.type file) "" then "application/octet-stream"
     else File.type file)
    (folderOf (currentPath r)).

(** The [for] loop of [handleChunkedUpload], from [chunkIndex] on; [fuel]
    bounds the iterations left. *)
Fixpoint uploadChunks (fuel : nat) (r : State) (file : File.t) (token : string)
    (totalChunks chunkIndex : Z) : M unit :=
  match fuel with
  | O => ret tt
  | S fuel' =>
      if chunkIndex <? totalChunks then
        _ <- axios_await (chunkRequest r file token totalChunks chunkIndex) ;;
        setUploadProgress
          (Some (Progress.mk (chunkIndex + 1) totalChunks (File.name file) false)) ;;
        uploadChunks fuel' r file token totalChunks (chunkIndex + 1)
      else ret tt
  end.

Definition handleChunkedUpload (r : State) (file : File.t) (token : string) : M unit :=
  let totalChunks := Math_ceil_div (File.size file) CHUNK_SIZE in
  setUploadProgress (Some (Progress.mk 0 totalChunks (File.name file) false)) ;;
  uploadChunks (Z.to_nat totalChunks) r file token totalChunks 0 ;;
  setUploadProgress
    (Some (Progress.mk totalChunks totalChunks (File.name file) true)) ;;
  _ <- axios_await (commitRequest r file token totalChunks) ;;
  setUploadProgress None.

Definition setAttempts (a : Z) : M unit := modify (with_attempts a).
Definition setIntervalActive (b : bool) : M unit := modify (with_intervalActive b).

(** The single request of the standard upload: the whole file to the
    listing endpoint of the target folder. *)
Definition uploadRequest (r : State) (file : File.t) (token : string) : Request :=
  let targetFolder := folderOf (currentPath r) in
  POST_files token
    (if String.eqb targetFolder "" then None else Some targetFolder) file.

(** [let attempts = 0; const intervalId = setInterval(..., pollIntervalMs)] *)
Definition setInterval (token startedPath closurePath : string) : M unit :=
  setAttempts 0 ;;
  setIntervalActive true ;;
  defer (IntervalPending token startedPath closurePath).

Definition clearInterval : M unit := setIntervalActive false.

Definition handleUpload : M unit :=
  r <- render ;;
  match selectedFile r with
  | None => setError (Some "Please select a file.")
  | Some file =>
      try_finally
        (try_catch
          (setLoading true ;;
           token <- getAccessToken ;;
           if USE_CHUNKED_THRESHOLD <? File.size file then
             handleChunkedUpload r file token ;;
             setSelectedFile None ;;
             setError None ;;
             fetchFiles_detached token (folderOf (currentPath r))
           else
             let targetFolder := folderOf (currentPath r) in
             response <- axios_await (uploadRequest r file token) ;;
             let startedPath :=
               str_or (Resp.path response)
                 (if String.eqb targetFolder "" then File.name file
                  else targetFolder ++ "/" ++ File.name file) in
             setSelectedFile None ;;
             setError None ;;
             setInterval token startedPath (currentPath r))
          (fun _ =>
             emit (ConsoleError "Upload error:") ;;
             setError (Some "Failed to upload file.")))
        (setLoading false)
  end.

(** *** The existence-polling loop *)

(** The timer callback up to its [await]. *)
Definition poll_begin (token startedPath : string) : M (nat * Request) :=
  s <- get ;;
  setAttempts (attempts s + 1) ;;
  let r := GET_exists token startedPath in
  n <- axios_send r ;;
  ret (n, r).

(** The timer callback from the point where its request settles; it reads
    [attempts] as it is by then. *)
Definition poll_resume (token closurePath : string) (p : nat * Request) : M unit :=
  try_catch
    (existsResp <- axios_settle (fst p) (snd p) ;;
     if Resp.exists_ existsResp then
       clearInterval ;;
       fetchFiles_detached token (folderOf closurePath)
     else
       s <- get ;;
       if maxAttempts <=? attempts s then
         clearInterval ;;
         emit (ConsoleWarn "Polling timed out for")
       else ret tt)
    (fun _ =>
       emit (ConsoleWarn "Exists check failed:") ;;
       s <- get ;;
       if maxAttempts <=? attempts s then clearInterval else ret tt).

Fixpoint forEach {A} (f : A -> M unit) (l : list A) : M unit :=
  match l with
  | [] => ret tt
  | x :: l' => f x ;; forEach f l'
  end.

(** The event loop of the polling timer.  Tick number [tick] fires
    [tick * pollIntervalMs] after [setInterval] when the timer is still
    registered; the callbacks whose request has settled by then resume,
    in the order they were sent, before the next tick.  The result says
    whether the loop came to rest (timer cleared, nothing in flight)
    within [fuel] ticks. *)
Fixpoint runInterval (fuel : nat) (token startedPath closurePath : string)
    (tick : nat) (inflight : list (nat * (nat * Request))) : M bool :=
  match fuel with
  | O => ret false
  | S fuel' =>
      s <- get ;;
      inflight1 <-
        (if intervalActive s then
           emit (TimerFired (Z.of_nat tick * pollIntervalMs)) ;;
           p <- poll_begin token startedPath ;;
           w <- world ;;
           ret (inflight ++ [((tick + latency w (fst p))%nat, p)])%list
         else ret inflight) ;;
      let settled := List.filter (fun x => (fst x <=? tick)%nat) inflight1 in
      let later := List.filter (fun x => negb (fst x <=? tick)%nat) inflight1 in
      forEach (fun x => poll_resume token closurePath (snd x)) settled ;;
      s' <- get ;;
      if negb (intervalActive s') && (length later =? 0)%nat then ret true
      else runInterval fuel' token startedPath closurePath (S tick) later
  end.

(** ** Folder Tree Cache *)

(** Properties every object literal inherits; [treeCache[path]] finds them
    when [path] is not a key of the cache. *)
Definition Object_prototype_keys : list string :=
  ["constructor"; "__proto__"; "hasOwnProperty"; "isPrototypeOf";
   "propertyIsEnumerable"; "toLocaleString"; "toString"; "valueOf";
   "__defineGetter__"; "__defineSetter__"; "__lookupGetter__";
   "__lookupSetter__"].

(** The test [treeCache[path]] of [toggleExpand]: cache entries are
    objects and inherited properties are functions or objects, all truthy. *)
Definition cacheHit (cache : gmap string (list Folder.t)) (path : string) : bool :=
  bool_decide (is_Some (cache !! path)) ||
  bool_decide (path ∈ Object_prototype_keys).

(** [(treeCache[path] && treeCache[path].folders) || []] *)
Definition cacheFolders (cache : gmap string (list Folder.t)) (path : string)
  : list Folder.t :=
  default [] (cache !! path).

Definition toggleExpand (path : string) : M unit :=
  r <- render ;;
  if bool_decide (path ∈ expandedPaths r) then
    setExpandedPaths (expandedPaths r ∖ {[path]})
  else
    let next := expandedPaths r ∪ {[path]} in
    (if negb (cacheHit (treeCache r) path) then
       try_catch
         (token <- getAccessToken ;;
          let qPath := folderOf path in
          resp <- axios_await (GET_files token (folderQuery qPath)) ;;
          updTreeCache (fun prev =>
            <[str_or (Resp.currentPath resp) "/" :=
                arr_or (Resp.folders resp)]> prev))
         (fun _ => emit (ConsoleWarn "Failed to load tree node:"))
     else ret tt) ;;
    setExpandedPaths next.

(** What [TreeNode] renders: the node and, while it is expanded, one node
    per child folder. *)
Inductive TreeView :=
| TreeNodeView (path name : string) (expanded : bool) (children : list TreeView).

(** The recursive [TreeNode] component, rendered [depth] levels deep. *)
Fixpoint TreeNode (depth : nat) (path name : string) (expanded : bool)
    (childrenFolders : list Folder.t) (expandedPaths : gset string)
    (treeCache : gmap string (list Folder.t)) : TreeView :=
  TreeNodeView path name expanded
    (match depth with
     | O => []
     | S depth' =>
         if expanded && (0 <? length childrenFolders)%nat then
           map (fun f =>
                  TreeNode depth' (Folder.path f) (Folder.name f)
                    (bool_decide (Folder.path f ∈ expandedPaths))
                    (cacheFolders treeCache (Folder.path f))
                    expandedPaths treeCache)
               childrenFolders
         else []
     end).

(** The tree of the sidebar: the root node ['/'] with
    [treeCache['/']?.folders || []] as its children. *)
Definition sidebarTree (depth : nat) (s : State) : TreeView :=
  TreeNode depth "/" "/" (bool_decide ("/" ∈ expandedPaths s))
    (cacheFolders (treeCache s) "/") (expandedPaths s) (treeCache s).

(** ** Item Operations Controller: [handleCreateFolder] *)

(** The double quote character, as a string. *)
Definition quote : string := String (ascii_of_N 34) EmptyString.

Definition is_space (c : ascii) : bool :=
  let n := N_of_ascii c in
  ((9 <=? n) && (n <=? 13) || (n =? 32))%N.

(** The white space and line terminators of ECMAScript outside ASCII, in
    UTF-8: U+00A0 is [C2 A0]; ... *)
Definition is_space2 (a b : ascii) : bool :=
  ((N_of_ascii a =? 194) && (N_of_ascii b =? 160))%N.

(** ... U+1680 is [E1 9A 80]; U+2000 to U+200A, U+2028, U+2029 and U+202F
    are [E2 80] followed by [80] to [8A], [A8], [A9] and [AF]; U+205F is
    [E2 81 9F]; U+3000 is [E3 80 80]; U+FEFF is [EF BB BF]. *)
Definition is_space3 (a b c : ascii) : bool :=
  let x := N_of_ascii a in
  let y := N_of_ascii b in
  let z := N_of_ascii c in
  ((x =? 225) && (y =? 154) && (z =? 128)
   || (x =? 226) && (y =? 128)
      && ((128 <=? z) && (z <=? 138) || (z =? 168) || (z =? 169) || (z =? 175))
   || (x =? 226) && (y =? 129) && (z =? 159)
   || (x =? 227) && (y =? 128) && (z =? 128)
   || (x =? 239) && (y =? 187) && (z =? 191))%N.

(** [!s.trim()]: [trim] strips every white space character and line
    terminator of ECMAScript, so the test holds exactly of the texts made
    of such characters only. *)
Fixpoint blank (s : string) : bool :=
  match s with
  | EmptyString => true
  | String a s1 =>
      if is_space a then blank s1
      else
        match s1 with
        | EmptyString => false
        | String b s2 =>
            if is_space2 a b then blank s2
            else
              match s2 with
              | EmptyString => false
              | String c s3 => is_space3 a b c && blank s3
              end
        end
  end.

Definition handleCreateFolder : M unit :=
  r <- render ;;
  if blank (newFolderName r) then setError (Some "Folder name cannot be empty.")
  else
    try_finally
      (try_catch
        (setLoading true ;;
         token <- getAccessToken ;;
         let folderPath :=
           if String.eqb (currentPath r) "/" then newFolderName r
           else currentPath r ++ "/" ++ newFolderName r in
         _ <- axios_await (POST_folders_create token folderPath) ;;
         let newFolder := Folder.mk (newFolderName r) folderPath (Some "folder") 0 in
         let same (f : Folder.t) := String.eqb (Folder.path f) folderPath in
         updFolders (fun prev =>
           if existsb same prev then prev else (prev ++ [newFolder])%list) ;;
         updTreeCache (fun prev =>
           let key := currentPath r in
           let existing := cacheFolders prev key in
           let nextFolders :=
             if existsb same existing then existing
             else (existing ++ [newFolder])%list in
           <[key := nextFolders]> prev) ;;
         updExpandedPaths (fun prev => prev ∪ {[currentPath r]}) ;;
         setNewFolderName "" ;;
         setShowCreateFolder false ;;
         setError None ;;
         emit (Alert ("Folder " ++ quote ++ newFolderName r ++ quote
                      ++ " created successfully!")) ;;
         (* await fetchFiles(currentPath) *)
         fetchFiles (currentPath r) "")
        (fun _ =>
           emit (ConsoleError "Create folder error:") ;;
           setError (Some "Failed to create folder.")))
      (setLoading false).

(** ** Resuming what was left pending *)

Definition resume (p : Pending) (fuel : nat) : M unit :=
  match p with
  | FetchFilesPending token n r => fetchFiles_resume token (n, r)
  | IntervalPending token startedPath closurePath =>
      _ <- runInterval fuel token startedPath closurePath 1 [] ;; ret tt
  end.

(** ** The browser built-ins behind [decodeToken]

    The standard behaviour of [atob], [decodeURIComponent] and
    [JSON.parse], on character codes; [World] takes them as parameters and
    [Browser.world] supplies these. *)
Module Browser.

Open Scope N_scope.

Definition codes (s : string) : list N := map N_of_ascii (list_ascii_of_string s).
Definition text (l : list N) : string := string_of_list_ascii (map ascii_of_N l).

Definition between (lo n hi : N) : bool := (lo <=? n) && (n <=? hi).

(** *** [atob]: forgiving base-64 decoding *)

Definition ascii_whitespace (n : N) : bool :=
  (n =? 9) || (n =? 10) || (n =? 12) || (n =? 13) || (n =? 32).

Definition sextet (n : N) : option N :=
  if between 65 n 90 then Some (n - 65)
  else if between 97 n 122 then Some (n - 71)
  else if between 48 n 57 then Some (n + 4)
  else if n =? 43 then Some 62
  else if n =? 47 then Some 63
  else None.

Fixpoint sextets (l : list N) : option (list N) :=
  match l with
  | [] => Some []
  | c :: l' =>
      match sextet c, sextets l' with
      | Some v, Some vs => Some (v :: vs)
      | _, _ => None
      end
  end.

Definition strip_padding (l : list N) : list N :=
  if (N.of_nat (length l) mod 4 =? 0) then
    match rev l with
    | a :: b :: r =>
        if (a =? 61) && (b =? 61) then rev r
        else if a =? 61 then rev (b :: r) else l
    | _ => l
    end
  else l.

Fixpoint octets (v : list N) : list N :=
  match v with
  | a :: b :: c :: d :: rest =>
      (a * 4 + b / 16) :: ((b mod 16) * 16 + c / 4) :: ((c mod 4) * 64 + d)
      :: octets rest
  | [a; b; c] => [a * 4 + b / 16; (b mod 16) * 16 + c / 4]
  | [a; b] => [a * 4 + b / 16]
  | _ => []
  end.

Definition atob (s : string) : option string :=
  let data := strip_padding (List.filter (fun c => negb (ascii_whitespace c)) (codes s)) in
  if (N.of_nat (length data) mod 4 =? 1) then None
  else
    match sextets data with
    | Some v => Some (text (octets v))
    | None => None
    end.

(** *** [decodeURIComponent]: percent escapes that spell UTF-8 *)

Definition hex_value (n : N) : option N :=
  if between 48 n 57 then Some (n - 48)
  else if between 97 n 102 then Some (n - 87)
  else if between 65 n 70 then Some (n - 55)
  else None.

(** [%XX] at the head of the input. *)
Definition escaped_octet (s : list N) : option (N * list N) :=
  match s with
  | p :: h :: l :: rest =>
      if p =? 37 then
        match hex_value h, hex_value l with
        | Some a, Some b => Some (16 * a + b, rest)
        | _, _ => None
        end
      else None
  | _ => None
  end.

(** [k] escaped continuation octets [10xxxxxx]; gives their payload
    bits appended to [acc]. *)
Fixpoint continuation (k : nat) (acc : N) (s : list N)
  : option (N * list N * list N) :=
  match k with
  | O => Some (acc, [], s)
  | S k' =>
      match escaped_octet s with
      | Some (b, rest) =>
          if between 128 b 191 then
            match continuation k' (acc * 64 + (b - 128)) rest with
            | Some (v, bs, rest') => Some (v, b :: bs, rest')
            | None => None
            end
          else None
      | None => None
      end
  end.

Definition scalar_value (width : nat) (v : N) : bool :=
  match width with
  | 2%nat => between 128 v 2047
  | 3%nat => between 2048 v 65535 && negb (between 55296 v 57343)
  | 4%nat => between 65536 v 1114111
  | _ => false
  end.

Fixpoint decode_escapes (fuel : nat) (s : list N) : option (list N) :=
  match fuel with
  | O => match s with [] => Some [] | _ => None end
  | S fuel' =>
      match s with
      | [] => Some []
      | c :: rest =>
          if c =? 37 then
            match escaped_octet s with
            | None => None
            | Some (b, rest1) =>
                if b <? 128 then
                  match decode_escapes fuel' rest1 with
                  | Some out => Some (b :: out)
                  | None => None
                  end
                else
                  let width :=
                    if between 192 b 223 then 2%nat
                    else if between 224 b 239 then 3%nat
                    else if between 240 b 247 then 4%nat
                    else 0%nat in
                  let lead :=
                    match width with
                    | 2%nat => b - 192
                    | 3%nat => b - 224
                    | _ => b - 240
                    end in
                  match width with
                  | O => None
                  | S k =>
                      match continuation k lead rest1 with
                      | Some (v, bs, rest2) =>
                          if scalar_value width v then
                            match decode_escapes fuel' rest2 with
                            | Some out => Some (b :: bs ++ out)%list
                            | None => None
                            end
                          else None
                      | None => None
                      end
                  end
            end
          else
            match decode_escapes fuel' rest with
            | Some out => Some (c :: out)
            | None => None
            end
      end
  end.

Definition decodeURIComponent (s : string) : option string :=
  match decode_escapes (length (codes s)) (codes s) with
  | Some out => Some (text out)
  | None => None
  end.

(** *** [JSON.parse] *)

Definition json_whitespace (n : N) : bool :=
  (n =? 32) || (n =? 9) || (n =? 10) || (n =? 13).

Fixpoint skip_ws (s : list N) : list N :=
  match s with
  | c :: rest => if json_whitespace c then skip_ws rest else s
  | [] => []
  end.

Definition utf8 (v : N) : list N :=
  if v <? 128 then [v]
  else if v <? 2048 then [192 + v / 64; 128 + v mod 64]
  else if v <? 65536 then [224 + v / 4096; 128 + (v / 64) mod 64; 128 + v mod 64]
  else [240 + v / 262144; 128 + (v / 4096) mod 64; 128 + (v / 64) mod 64;
        128 + v mod 64].

Definition hex4 (a b c d : N) : option N :=
  match hex_value a, hex_value b, hex_value c, hex_value d with
  | Some x, Some y, Some z, Some t => Some (((x * 16 + y) * 16 + z) * 16 + t)
  | _, _, _, _ => None
  end.

(** [\uXXXX] at the head of the input. *)
Definition unicode_escape (s : list N) : option (N * list N) :=
  match s with
  | bs :: u :: a :: b :: c :: d :: rest =>
      if (bs =? 92) && (u =? 117) then
        match hex4 a b c d with
        | Some v => Some (v, rest)
        | None => None
        end
      else None
  | _ => None
  end.

Definition simple_escape (e : N) : option N :=
  if e =? 34 then Some 34
  else if e =? 92 then Some 92
  else if e =? 47 then Some 47
  else if e =? 98 then Some 8
  else if e =? 102 then Some 12
  else if e =? 110 then Some 10
  else if e =? 114 then Some 13
  else if e =? 116 then Some 9
  else None.

(** A string literal after its opening quote: the value and what
    follows the closing quote. *)
Fixpoint string_body (fuel : nat) (s : list N) : option (list N * list N) :=
  match fuel with
  | O => None
  | S fuel' =>
      match s with
      | [] => None
      | c :: rest =>
          if c =? 34 then Some ([], rest)
          else if c <? 32 then None
          else if c =? 92 then
            match rest with
            | [] => None
            | e :: rest1 =>
                if e =? 117 then
                  match unicode_escape s with
                  | None => None
                  | Some (hi, rest2) =>
                      let paired :=
                        if between 55296 hi 56319 then
                          match unicode_escape rest2 with
                          | Some (lo, rest3) =>
                              if between 56320 lo 57343 then
                                Some (65536 + (hi - 55296) * 1024 + (lo - 56320), rest3)
                              else None
                          | None => None
                          end
                        else None in
                      let '(v, rest') := default (hi, rest2) paired in
                      match string_body fuel' rest' with
                      | Some (out, r) => Some ((utf8 v ++ out)%list, r)
                      | None => None
                      end
                  end
                else
                  match simple_escape e, string_body fuel' rest1 with
                  | Some v, Some (out, r) => Some (v :: out, r)
                  | _, _ => None
                  end
            end
          else
            match string_body fuel' rest with
            | Some (out, r) => Some (c :: out, r)
            | None => None
            end
      end
  end.

Definition is_digit (n : N) : bool := between 48 n 57.

Fixpoint span_digits (s : list N) : list N * list N :=
  match s with
  | c :: rest =>
      if is_digit c then let '(ds, r) := span_digits rest in (c :: ds, r)
      else ([], s)
  | [] => ([], [])
  end.

Definition digits_value (ds : list N) : Z :=
  fold_left (fun acc d => (acc * 10 + Z.of_N (d - 48))%Z) ds 0%Z.

(** A number: an optional minus sign, then a single zero or digits that
    do not start with zero, then an optional fraction (a dot and digits)
    and an optional exponent (e or E, an optional sign, digits). *)
Definition number (s : list N) : option (json * list N) :=
  let '(negative, s1) :=
    match s with
    | c :: r => if c =? 45 then (true, r) else (false, s)
    | [] => (false, s)
    end in
  let '(int, s2) :=
    match s1 with
    | c :: r => if c =? 48 then ([c], r) else span_digits s1
    | [] => ([], s1)
    end in
  match int with
  | [] => None
  | _ =>
      let frac :=
        match s2 with
        | c :: r =>
            if c =? 46 then
              match span_digits r with
              | ([], _) => None
              | (ds, r') => Some (ds, r')
              end
            else Some ([], s2)
        | [] => Some ([], s2)
        end in
      match frac with
      | None => None
      | Some (fr, s3) =>
          let expo :=
            match s3 with
            | c :: r =>
                if (c =? 101) || (c =? 69) then
                  let '(minus, r1) :=
                    match r with
                    | g :: r' =>
                        if g =? 45 then (true, r')
                        else if g =? 43 then (false, r') else (false, r)
                    | [] => (false, r)
                    end in
                  match span_digits r1 with
                  | ([], _) => None
                  | (ds, r2) =>
                      Some ((if minus then - digits_value ds else digits_value ds)%Z, r2)
                  end
                else Some (0%Z, s3)
            | [] => Some (0%Z, s3)
            end in
          match expo with
          | None => None
          | Some (ex, s4) =>
              let m := digits_value (int ++ fr) in
              Some (JNum (if negative then - m else m)%Z
                         (ex - Z.of_nat (length fr))%Z, s4)
          end
      end
  end.

Fixpoint strip_prefix (p s : list N) : option (list N) :=
  match p, s with
  | [], _ => Some s
  | a :: p', b :: s' => if a =? b then strip_prefix p' s' else None
  | _ :: _, [] => None
  end.

Fixpoint value (fuel : nat) (s : list N) : option (json * list N) :=
  match fuel with
  | O => None
  | S fuel' =>
      match skip_ws s with
      | [] => None
      | c :: rest =>
          if c =? 123 then
            match skip_ws rest with
            | d :: rest' =>
                if d =? 125 then Some (JObj [], rest')
                else
                  match members fuel' rest with
                  | Some (ms, r) => Some (JObj ms, r)
                  | None => None
                  end
            | [] => None
            end
          else if c =? 91 then
            match skip_ws rest with
            | d :: rest' =>
                if d =? 93 then Some (JArr [], rest')
                else
                  match elements fuel' rest with
                  | Some (vs, r) => Some (JArr vs, r)
                  | None => None
                  end
            | [] => None
            end
          else if c =? 34 then
            match string_body (S (length rest)) rest with
            | Some (out, r) => Some (JStr (text out), r)
            | None => None
            end
          else if c =? 116 then
            match strip_prefix [114; 117; 101] rest with
            | Some r => Some (JBool true, r)
            | None => None
            end
          else if c =? 102 then
            match strip_prefix [97; 108; 115; 101] rest with
            | Some r => Some (JBool false, r)
            | None => None
            end
          else if c =? 110 then
            match strip_prefix [117; 108; 108] rest with
            | Some r => Some (JNull, r)
            | None => None
            end
          else number (c :: rest)
      end
  end
with elements (fuel : nat) (s : list N) : option (list json * list N) :=
  match fuel with
  | O => None
  | S fuel' =>
      match value fuel' s with
      | None => None
      | Some (v, rest) =>
          match skip_ws rest with
          | c :: rest' =>
              if c =? 44 then
                match elements fuel' rest' with
                | Some (vs, r) => Some (v :: vs, r)
                | None => None
                end
              else if c =? 93 then Some ([v], rest')
              else None
          | [] => None
          end
      end
  end
with members (fuel : nat) (s : list N) : option (list (string * json) * list N) :=
  match fuel with
  | O => None
  | S fuel' =>
      match skip_ws s with
      | q :: rest =>
          if q =? 34 then
            match string_body (S (length rest)) rest with
            | None => None
            | Some (k, rest1) =>
                match skip_ws rest1 with
                | colon :: rest2 =>
                    if colon =? 58 then
                      match value fuel' rest2 with
                      | None => None
                      | Some (v, rest3) =>
                          match skip_ws rest3 with
                          | c :: rest4 =>
                              if c =? 44 then
                                match members fuel' rest4 with
                                | Some (ms, r) => Some ((text k, v) :: ms, r)
                                | None => None
                                end
                              else if c =? 125 then Some ([(text k, v)], rest4)
                              else None
                          | [] => None
                          end
                      end
                    else None
                | [] => None
                end
            end
          else None
      | [] => None
      end
  end.

Definition JSON_parse (s : string) : option json :=
  let input := codes s in
  match value (2 * length input + 2) input with
  | Some (v, rest) =>
      match skip_ws rest with
      | [] => Some v
      | _ => None
      end
  | None => None
  end.

(** The world of a standard browser, given the collaborators and the
    configuration. *)
Definition world (tokens : nat -> option string)
    (gateway : nat -> Request -> option Resp.t) (lat : nat -> nat)
    (reader uploader admin : option string) : World :=
  mkWorld tokens gateway lat atob decodeURIComponent JSON_parse
    reader uploader admin.

End Browser.


(** ** Reading the log *)

(** The requests sent, in order. *)
Fixpoint sent (l : list Event) : list Request :=
  match l with
  | [] => []
  | Sent _ r :: l' => r :: sent l'
  | _ :: l' => sent l'
  end.

(** The times, in milliseconds after [setInterval], at which the timer fired. *)
Fixpoint timers (l : list Event) : list Z :=
  match l with
  | [] => []
  | TimerFired ms :: l' => ms :: timers l'
  | _ :: l' => timers l'
  end.

Definition is_poll (r : Request) : bool :=
  match r with GET_exists _ _ => true | _ => false end.

(** The existence checks sent. *)
Definition polls (l : list Event) : list Request := List.filter is_poll (sent l).

(** The events of [k] chunk uploads that succeed one after the other,
    from request number [n] and chunk index [i]: each chunk is sent and
    settled before the next one is sent. *)
Fixpoint chunkEvents (r : State) (file : File.t) (token : string) (total : Z)
    (k : nat) (n : nat) (i : Z) : list Event :=
  match k with
  | O => []
  | S k' =>
      Sent n (chunkRequest r file token total i) :: Settled n true
      :: chunkEvents r file token total k' (S n) (i + 1)
  end.

(** ** Sample sessions

    Concrete collaborators on which the handlers are evaluated. *)
Module Sample.

(** A token provider that renews the token on every call. *)
Definition tokens (k : nat) : option string :=
  Some (match k with O => "T0" | 1%nat => "T1" | _ => "T2" end).

Definition issued (bearer : string) : bool :=
  String.eqb bearer "T0" || String.eqb bearer "T1" || String.eqb bearer "T2".

Definition bearer_of (r : Request) : string :=
  match r with
  | GET_files b _ | POST_files b _ _ | POST_chunked b _ _ _ _ _ _
  | POST_commit b _ _ _ _ | GET_exists b _ | POST_folders_create b _ => b
  end.

Definition listing (cp : option string) (fs : list Folder.t) : Resp.t :=
  Resp.mk cp (Some []) (Some fs) false None.

Definition done : Resp.t := Resp.mk None None None false None.

(** A gateway that rejects a bearer that is not [valid], lists every
    folder as empty, and never reports an uploaded blob. *)
Definition gateway_for (valid : string -> bool) (n : nat) (r : Request)
  : option Resp.t :=
  if valid (bearer_of r) then
    match r with
    | GET_files _ folder => Some (listing (Some (default "/" folder)) [])
    | _ => Some done
    end
  else None.

Definition gateway : nat -> Request -> option Resp.t := gateway_for issued.

(** The same gateway, except that request number [k] fails. *)
Definition failing (k : nat) (n : nat) (r : Request) : option Resp.t :=
  if (n =? k)%nat then None else gateway n r.

Definition offline (n : nat) (r : Request) : option Resp.t := None.

Definition child : Folder.t := Folder.mk "2024" "docs/2024" None 3.

(** A gateway of the simpler kind, whose listings carry no
    [currentPath]. *)
Definition pathless (n : nat) (r : Request) : option Resp.t :=
  Some (Resp.mk None (Some []) (Some [child]) false None).

Definition prompt (n : nat) : nat := O.

(** Every answer comes within the polling interval, except that of
    request number 99, which takes a little longer. *)
Definition slow_once (n : nat) : nat := if (n =? 99)%nat then 1%nat else O.

Definition world (gw : nat -> Request -> option Resp.t) : World :=
  Browser.world tokens gw prompt (Some "reader-id") (Some "uploader-id")
    (Some "admin-id").

Definition sluggish : World :=
  Browser.world tokens gateway slow_once (Some "reader-id")
    (Some "uploader-id") (Some "admin-id").

(** 100 MiB and one byte: three chunks. *)
Definition bigFile : File.t := File.mk "big.bin" 104857601 "".
Definition smallFile : File.t := File.mk "notes.txt" 2048 "text/plain".

Definition start : Run := freshRun initialState.
Definition withFile (f : File.t) : Run :=
  freshRun (with_selectedFile (Some f) initialState).

(** The user is in [/docs] and typed [reports] as the new folder name. *)
Definition inDocs : Run :=
  freshRun (with_newFolderName "reports" (with_currentPath "/docs" initialState)).

(** The polling loop right after [setInterval]. *)
Definition polling : Run := with_intervalActive true start.

(** A token of two segments whose second segment is the base-64 form
    of a payload with the groups claim [reader-id]. *)
Definition twoSegments : string := "h.eyJncm91cHMiOlsicmVhZGVyLWlkIl19".

(** A well-formed token with the same payload. *)
Definition readerToken : string := "h.eyJncm91cHMiOlsicmVhZGVyLWlkIl19.s".

(** A session in which the provider hands out [token]. *)
Definition login (token : string) : World :=
  Browser.world (fun _ => Some token) (gateway_for (String.eqb token)) prompt
    (Some "reader-id") (Some "uploader-id") (Some "admin-id").

End Sample.

(** ** Navigation *)

(** [navigateToPath]: the Go button and the names of the tree. *)
Definition navigateToPath (path : string) : M unit :=
  try_catch
    (token <- getAccessToken ;;
     fetchFiles token (folderOf path))
    (fun _ =>
       emit (ConsoleError "Navigate path error:") ;;
       setError (Some "Failed to navigate to path.")).

(** [handleNavigateFolder]: a click on a folder of the listing; the
    listing call is not awaited. *)
Definition handleNavigateFolder (folderPath : string) : M unit :=
  try_catch
    (token <- getAccessToken ;;
     fetchFiles_detached token folderPath)
    (fun _ =>
       emit (ConsoleError "Navigation error:") ;;
       setError (Some "Failed to navigate folder.")).

(** [s.lastIndexOf(c)], [-1] when [c] does not occur. *)
Fixpoint lastIndexOf (c : ascii) (s : string) : Z :=
  match s with
  | EmptyString => -1
  | String a s' =>
      let i := lastIndexOf c s' in
      if 0 <=? i then i + 1
      else if Ascii.eqb a c then 0 else -1
  end.

(** [s.substring(0, stop)]: a negative [stop] counts as 0. *)
Definition substring0 (stop : Z) (s : string) : string :=
  String.substring 0 (Z.to_nat stop) s.

(** [currentPath.substring(0, currentPath.lastIndexOf('/')) || '/'] *)
Definition parentPath (cp : string) : string :=
  str_or (Some (substring0 (lastIndexOf "/" cp) cp)) "/".

Definition navigateUp : M unit :=
  r <- render ;;
  if String.eqb (currentPath r) "/" then ret tt
  else handleNavigateFolder (folderOf (parentPath (currentPath r))).

(** The effect that loads the children of the root into the tree cache
    when the component is mounted. *)
Definition preloadRoot : M unit :=
  try_catch
    (token <- getAccessToken ;;
     rootResp <- axios_await (GET_files token None) ;;
     updTreeCache (fun prev =>
       <[str_or (Resp.currentPath rootResp) "/" :=
           arr_or (Resp.folders rootResp)]> prev))
    (fun _ => emit (ConsoleWarn "Failed to preload root tree:")).

(** The byte range [start, stop) that a chunk request carries. *)
Definition slice (r : Request) : option (Z * Z) :=
  match r with
  | POST_chunked _ _ _ _ _ start stop => Some (start, stop)
  | _ => None
  end.

(** What the user and the component life cycle can make the modelled
    part of the component do. *)
Inductive Action :=
| Mount
| PreloadRoot
| Navigate (path : string)
| OpenFolder (folderPath : string)
| Up
| Toggle (path : string)
| Upload
| CreateFolder.

Definition perform (a : Action) : M unit :=
  match a with
  | Mount => initializeComponent
  | PreloadRoot => preloadRoot
  | Navigate path => navigateToPath path
  | OpenFolder folderPath => handleNavigateFolder folderPath
  | Up => navigateUp
  | Toggle path => toggleExpand path
  | Upload => handleUpload
  | CreateFolder => handleCreateFolder
  end.

(** What was left pending runs, oldest first: a listing call settles, a
    polling timer is followed for at most [fuel] ticks. *)
Definition drain (fuel : nat) : M unit :=
  s <- get ;;
  modify (with_pending []) ;;
  forEach (fun p => resume p fuel) (pending s).

(** The second pass settles the listing calls that the timers started. *)
Definition settle (fuel : nat) : M unit := drain fuel ;; drain fuel.

(** A session: the actions one after the other, what each leaves pending
    running before the next. *)
Fixpoint session (fuel : nat) (l : list Action) (w : World) (s : Run) : Run :=
  match l with
  | [] => s
  | a :: l' => session fuel l' w ((settle fuel w (perform a w s).2).2)
  end.

(** ** Paths typed by the user *)

(** [p.replace(/^\/+/, '')] *)
Fixpoint dropLeadingSlashes (s : string) : string :=
  match s with
  | EmptyString => EmptyString
  | String c s' => if Ascii.eqb c "/" then dropLeadingSlashes s' else s
  end.

(** [p.replace(/\/+$/, '')] *)
Fixpoint dropTrailingSlashes (s : string) : string :=
  match s with
  | EmptyString => EmptyString
  | String c s' =>
      let t := dropTrailingSlashes s' in
      if Ascii.eqb c "/" && String.eqb t "" then EmptyString else String c t
  end.

Definition normalizePathForClient (p : string) : string :=
  if String.eqb p "" then ""
  else dropTrailingSlashes (dropLeadingSlashes p).

(** A run of [n] slashes. *)
Fixpoint slashes (n : nat) : string :=
  match n with
  | O => EmptyString
  | S n' => String "/" (slashes n')
  end.

(** The bearer a request carries and the token a pending call closes
    over. *)
Definition bearerOf (r : Request) : string :=
  match r with
  | GET_files b _ | POST_files b _ _ | POST_chunked b _ _ _ _ _ _
  | POST_commit b _ _ _ _ | GET_exists b _ | POST_folders_create b _ => b
  end.

Definition tokenOf (p : Pending) : string :=
  match p with
  | FetchFilesPending token _ _ => token
  | IntervalPending token _ _ => token
  end.

(** A token that the provider hands out at some call. *)
Definition handedOut (w : World) (token : string) : Prop :=
  exists k, acquireTokenSilent w k = Some token.

Definition isMount (a : Action) : bool :=
  match a with Mount => true | _ => false end.

Definition isCreateFolder (a : Action) : bool :=
  match a with CreateFolder => true | _ => false end.

(** A computation maintains [I] when it takes states that satisfy [I] to
    states that satisfy [I], whether it returns or throws. *)
Definition maintains (I : World -> Run -> Prop) {A} (w : World) (m : M A) : Prop :=
  forall s, I w s -> I w (m w s).2.

(** * Item operations

    [handleDownload], [handleDelete], [handleRenameItem], [handleMoveFile]
    and [handleDeleteFolder] use endpoints, dialog cells and browser
    services of their own.  Their machine is the one above with these
    added; what is defined above runs in it unchanged, through [liftM]. *)
Module Items.

(** The row that a dialog is about ([renameTarget], [moveTarget]): a file
    of the listing, or a folder, which has a [path] and no [fullPath]. *)
Record Target := mkTarget { name : string; fullPath : option string }.

Definition ofFile (file : Entry.t) : Target :=
  mkTarget (Entry.name file) (Entry.fullPath file).

Definition ofFolder (folder : Folder.t) : Target :=
  mkTarget (Folder.name folder) None.

(** The HTTP calls of the item handlers.  [DELETE_files] puts [filename]
    in the URL as it is, [DELETE_folders] puts
    [encodeURIComponent(folderPath)] there. *)
Inductive Call :=
| POST_download_token (bearer path : string)
| DELETE_files (bearer filename : string)
| POST_rename (bearer oldPath newName : string)
| POST_move (bearer sourcePath destinationPath : string)
| DELETE_folders (bearer folderPath : string).

(** The anchor that [handleDownload] clicks; its [href] is
    [API_URL/api/files/] followed by [encodeURIComponent(path)], [?dt=]
    and [encodeURIComponent(dt)]. *)
Record Link := mkLink { path : string; dt : string; download : string }.

(** The promise of a call resolves, with [data.token] where the answer
    has one, or is rejected, with [response.data.error] where the error
    has a response that carries one. *)
Inductive Answer :=
| Resolved (token : option string)
| Rejected (error : option string).

Record Desk := mkDesk {
  base : World;
  (** [window.confirm] *)
  window_confirm : string -> bool;
  (** the answer to the n-th call of the item handlers when it is [c] *)
  gateway : nat -> Call -> Answer }.

(** The [useState] cells of the rename and the move dialog. *)
Record Dialogs := mkDialogs {
  showRenameDialog : bool;
  renameTarget : option Target;
  renameName : string;
  showMoveDialog : bool;
  moveTarget : option Target;
  moveDestination : string }.

Definition noDialogs : Dialogs := mkDialogs false None "" false None "".

Record Bench := mkBench {
  run : Run;
  dialogs : Dialogs;
  (** the calls made, in order *)
  calls : list Call;
  (** the anchors clicked, in order *)
  clicks : list Link }.

Definition freshBench (r : Run) : Bench := mkBench r noDialogs [] [].

(** What a handler can throw: what the code above throws, the rejection
    of a call, or an [Error] of its own. *)
Inductive Failure :=
| Inner (e : exn)
| Rejection (error : option string)
| Error (message : string).

Inductive outcome (A : Type) :=
| Done (a : A)
| Failed (f : Failure).
Arguments Done {A} a.
Arguments Failed {A} f.

Definition H (A : Type) : Type := Desk -> Bench -> outcome A * Bench.

Definition ret {A} (a : A) : H A := fun _ b => (Done a, b).

Definition bind {A B} (m : H A) (k : A -> H B) : H B :=
  fun d b =>
    match m d b with
    | (Done a, b') => k a d b'
    | (Failed f, b') => (Failed f, b')
    end.

Definition throw {A} (f : Failure) : H A := fun _ b => (Failed f, b).

Definition try_catch {A} (body : H A) (handler : Failure -> H A) : H A :=
  fun d b =>
    match body d b with
    | (Done a, b') => (Done a, b')
    | (Failed f, b') => handler f d b'
    end.

Definition try_finally {A} (body : H A) (fin : H unit) : H A :=
  fun d b =>
    match body d b with
    | (c, b') =>
        match fin d b' with
        | (Done _, b'') => (c, b'')
        | (Failed f, b'') => (Failed f, b'')
        end
    end.

Declare Scope item_scope.
Delimit Scope item_scope with item.
Notation "x <- m ;; k" := (bind m (fun x => k))
  (at level 100, m at next level, k at level 200, right associativity) : item_scope.
Notation "m ;; k" := (bind m (fun _ => k))
  (at level 100, k at level 200, right associativity) : item_scope.
Local Open Scope item_scope.

Definition with_run (v : Run) (b : Bench) : Bench :=
  mkBench v (dialogs b) (calls b) (clicks b).
Definition with_dialogs (v : Dialogs) (b : Bench) : Bench :=
  mkBench (run b) v (calls b) (clicks b).
Definition with_calls (v : list Call) (b : Bench) : Bench :=
  mkBench (run b) (dialogs b) v (clicks b).
Definition with_clicks (v : list Link) (b : Bench) : Bench :=
  mkBench (run b) (dialogs b) (calls b) v.

(** A computation of the machine above, in this one. *)
Definition liftM {A} (m : M A) : H A :=
  fun d b =>
    match m (base d) (run b) with
    | (Normal a, r) => (Done a, with_run r b)
    | (Throw e, r) => (Failed (Inner e), with_run r b)
    end.

Definition lift {A} (c : outcome A) : H A := fun _ b => (c, b).

Definition desk : H Desk := fun d b => (Done d, b).

(** The dialog cells of the render that created the handler. *)
Definition dialog : H Dialogs := fun _ b => (Done (dialogs b), b).

Definition setDialogs (upd : Dialogs -> Dialogs) : H unit :=
  fun _ b => (Done tt, with_dialogs (upd (dialogs b)) b).

Definition setShowRenameDialog (v : bool) : H unit :=
  setDialogs (fun x => mkDialogs v (renameTarget x) (renameName x)
                         (showMoveDialog x) (moveTarget x) (moveDestination x)).
Definition setRenameTarget (v : option Target) : H unit :=
  setDialogs (fun x => mkDialogs (showRenameDialog x) v (renameName x)
                         (showMoveDialog x) (moveTarget x) (moveDestination x)).
Definition setRenameName (v : string) : H unit :=
  setDialogs (fun x => mkDialogs (showRenameDialog x) (renameTarget x) v
                         (showMoveDialog x) (moveTarget x) (moveDestination x)).
Definition setShowMoveDialog (v : bool) : H unit :=
  setDialogs (fun x => mkDialogs (showRenameDialog x) (renameTarget x)
                         (renameName x) v (moveTarget x) (moveDestination x)).
Definition setMoveTarget (v : option Target) : H unit :=
  setDialogs (fun x => mkDialogs (showRenameDialog x) (renameTarget x)
                         (renameName x) (showMoveDialog x) v (moveDestination x)).
Definition setMoveDestination (v : string) : H unit :=
  setDialogs (fun x => mkDialogs (showRenameDialog x) (renameTarget x)
                         (renameName x) (showMoveDialog x) (moveTarget x) v).

(** [await axios.post(...)], [await axios.delete(...)]: the call goes out
    and its promise settles. *)
Definition call (c : Call) : H (option string) :=
  fun d b =>
    let b' := with_calls (calls b ++ [c]) b in
    match gateway d (length (calls b)) c with
    | Resolved token => (Done token, b')
    | Rejected error => (Failed (Rejection error), b')
    end.

(** [document.body.appendChild(link); link.click(); link.remove()] *)
Definition click (l : Link) : H unit :=
  fun _ b => (Done tt, with_clicks (clicks b ++ [l]) b).

(** [s.split('/').pop()] *)
Definition lastSegment (s : string) : string := List.last (split_on "/" s) "".

Definition handleDownload (filename : string) : H unit :=
  r <- liftM render ;;
  try_finally
    (try_catch
       (liftM (setLoading true) ;;
        let path :=
          if contains "/" filename then filename
          else if String.eqb (currentPath r) "/" then filename
               else currentPath r ++ "/" ++ filename in
        bearer <- liftM getAccessToken ;;
        tokenResp <- call (POST_download_token bearer path) ;;
        let downloadToken := str_or tokenResp "" in
        if String.eqb downloadToken "" then throw (Error "No download token returned")
        else
          click (mkLink path downloadToken (str_or (Some (lastSegment path)) filename)) ;;
          liftM (setError None))
       (fun _ =>
          liftM (emit (ConsoleError "Download error:")) ;;
          liftM (setError (Some "Failed to download file."))))
    (liftM (setLoading false)).

Definition handleDelete (filename : string) : H unit :=
  r <- liftM render ;;
  d <- desk ;;
  if negb (window_confirm d ("Delete " ++ filename ++ "?")) then ret tt
  else
    try_finally
      (try_catch
         (liftM (setLoading true) ;;
          token <- liftM getAccessToken ;;
          call (DELETE_files token filename) ;;
          liftM (fetchFiles_detached token (folderOf (currentPath r))) ;;
          liftM (setError None))
         (fun _ =>
            liftM (emit (ConsoleError "Delete error:")) ;;
            liftM (setError (Some "Failed to delete file."))))
      (liftM (setLoading false)).

(** [t.fullPath || t.name], a [TypeError] when the cell holds [null]. *)
Definition pathOf (t : option Target) : outcome string :=
  match t with
  | Some t => Done (str_or (fullPath t) (name t))
  | None => Failed (Inner TypeError)
  end.

(** [t.name || t.fullPath.split('/').pop()] *)
Definition nameOf (t : option Target) : outcome string :=
  match t with
  | Some t =>
      if String.eqb (name t) "" then
        match fullPath t with
        | Some p => Done (lastSegment p)
        | None => Failed (Inner TypeError)
        end
      else Done (name t)
  | None => Failed (Inner TypeError)
  end.

Definition handleRenameItem : H unit :=
  r <- liftM render ;;
  x <- dialog ;;
  if blank (renameName x) then liftM (setError (Some "Name cannot be empty."))
  else
    try_finally
      (try_catch
         (liftM (setLoading true) ;;
          token <- liftM getAccessToken ;;
          oldPath <- lift (pathOf (renameTarget x)) ;;
          call (POST_rename token oldPath (renameName x)) ;;
          setShowRenameDialog false ;;
          setRenameTarget None ;;
          setRenameName "" ;;
          liftM (setError None) ;;
          liftM (fetchFiles_detached token (folderOf (currentPath r))))
         (fun _ =>
            liftM (emit (ConsoleError "Rename error:")) ;;
            liftM (setError (Some "Failed to rename item."))))
      (liftM (setLoading false)).

Definition handleMoveFile : H unit :=
  r <- liftM render ;;
  x <- dialog ;;
  if blank (moveDestination x) then
    liftM (setError (Some "Destination folder cannot be empty."))
  else
    try_finally
      (try_catch
         (liftM (setLoading true) ;;
          token <- liftM getAccessToken ;;
          leaf <- lift (nameOf (moveTarget x)) ;;
          let destPath := normalizePathForClient (moveDestination x) ++ "/" ++ leaf in
          sourcePath <- lift (pathOf (moveTarget x)) ;;
          call (POST_move token sourcePath destPath) ;;
          setShowMoveDialog false ;;
          setMoveTarget None ;;
          setMoveDestination "" ;;
          liftM (setError None) ;;
          liftM (fetchFiles_detached token (folderOf (currentPath r))))
         (fun _ =>
            liftM (emit (ConsoleError "Move error:")) ;;
            liftM (setError (Some "Failed to move file."))))
      (liftM (setLoading false)).

Definition handleDeleteFolder (folderPath : string) : H unit :=
  r <- liftM render ;;
  d <- desk ;;
  if negb (window_confirm d "Delete empty folder? (Folder must not contain any files)")
  then ret tt
  else
    try_finally
      (try_catch
         (liftM (setLoading true) ;;
          token <- liftM getAccessToken ;;
          call (DELETE_folders token folderPath) ;;
          liftM (fetchFiles_detached token (folderOf (currentPath r))) ;;
          liftM (setError None))
         (fun error =>
            liftM (emit (ConsoleError "Delete folder error:")) ;;
            let msg :=
              match error with
              | Rejection data_error => str_or data_error "Failed to delete folder."
              | _ => "Failed to delete folder."
              end in
            liftM (setError (Some msg))))
      (liftM (setLoading false)).

(** The buttons of a row and of the dialogs. *)

Definition onRenameClick (row : Target) : H unit :=
  setRenameTarget (Some row) ;;
  setRenameName (name row) ;;
  setShowRenameDialog true.

Definition onRenameCancel : H unit :=
  setShowRenameDialog false ;;
  setRenameTarget None ;;
  setRenameName "".

Definition onMoveClick (file : Entry.t) : H unit :=
  r <- liftM render ;;
  setMoveTarget (Some (ofFile file)) ;;
  setMoveDestination (folderOf (currentPath r)) ;;
  setShowMoveDialog true.

Definition onMoveCancel : H unit :=
  setShowMoveDialog false ;;
  setMoveTarget None ;;
  setMoveDestination "".

(** What the user can do, the actions above included. *)
Inductive Gesture :=
| Plain (a : Action)
| Download (filename : string)
| Delete (filename : string)
| DeleteFolder (folderPath : string)
| RenameClick (row : Target)
| RenameType (value : string)
| Rename
| RenameCancel
| MoveClick (file : Entry.t)
| MoveType (value : string)
| Move
| MoveCancel.

Definition perform (g : Gesture) : H unit :=
  match g with
  | Plain a => liftM (perform a)
  | Download filename => handleDownload filename
  | Delete filename => handleDelete filename
  | DeleteFolder folderPath => handleDeleteFolder folderPath
  | RenameClick row => onRenameClick row
  | RenameType value => setRenameName value
  | Rename => handleRenameItem
  | RenameCancel => onRenameCancel
  | MoveClick file => onMoveClick file
  | MoveType value => setMoveDestination value
  | Move => handleMoveFile
  | MoveCancel => onMoveCancel
  end.

(** A session: the gestures one after the other, what each leaves pending
    running before the next. *)
Fixpoint session (fuel : nat) (l : list Gesture) (d : Desk) (b : Bench) : Bench :=
  match l with
  | [] => b
  | g :: l' => session fuel l' d ((liftM (settle fuel) d (perform g d b).2).2)
  end.

Definition bearerOf (c : Call) : string :=
  match c with
  | POST_download_token t _ | DELETE_files t _ | POST_rename t _ _
  | POST_move t _ _ | DELETE_folders t _ => t
  end.

Definition usesMount (g : Gesture) : bool :=
  match g with Plain a => isMount a | _ => false end.

Definition usesCreateFolder (g : Gesture) : bool :=
  match g with Plain a => isCreateFolder a | _ => false end.

(** [I] holds of the machine above and every call carries a bearer that
    [okTok] accepts. *)
Definition kept (I : World -> Run -> Prop) (okTok : World -> string -> Prop)
    (d : Desk) (b : Bench) : Prop :=
  I (base d) (run b) /\ forall c, In c (calls b) -> okTok (base d) (bearerOf c).

Definition maintains (I : World -> Run -> Prop) (okTok : World -> string -> Prop)
    {A} (d : Desk) (h : H A) : Prop :=
  forall b, kept I okTok d b -> kept I okTok d (h d b).2.

End Items.

(** ** Rendering the sidebar *)

(** The sidebar of a state can be rendered when the tree that [TreeNode]
    unfolds is finite: from some depth on, the depth given to
    [sidebarTree] plays no part.  A cache in which an expanded folder is
    among its own descendants has no such depth; there the recursion of
    the source does not end. *)
Definition renders (s : State) : Prop :=
  exists depth, forall d, (depth <= d)%nat -> sidebarTree d s = sidebarTree depth s.

(** ** More sample sessions *)
Module Scenario.


(** The token provider fails. *)
Definition signedOut : World :=
  Browser.world (fun _ => None) Sample.gateway Sample.prompt
    (Some "reader-id") (Some "uploader-id") (Some "admin-id").


(** The payload of [Sample.readerToken]. *)
Definition payload : string :=
  default "" (Browser.atob "eyJncm91cHMiOlsicmVhZGVyLWlkIl19").

Definition desk (confirm : bool) (gateway : nat -> Items.Call -> Items.Answer)
  : Items.Desk :=
  Items.mkDesk (Sample.world Sample.gateway) (fun _ => confirm) gateway.

Definition accepting (n : nat) (c : Items.Call) : Items.Answer :=
  Items.Resolved None.

Definition granting (n : nat) (c : Items.Call) : Items.Answer :=
  Items.Resolved (Some "dt-1").

Definition refusing (error : option string) (n : nat) (c : Items.Call)
  : Items.Answer :=
  Items.Rejected error.

Definition inDocs : Items.Bench := Items.freshBench Sample.inDocs.

Definition report : Items.Target := Items.mkTarget "a.txt" (Some "docs/a.txt").

(** The rename dialog is open on [report] with [b.txt] typed. *)
Definition renaming : Items.Bench :=
  Items.with_dialogs
    (Items.mkDialogs true (Some report) "b.txt" false None "") inDocs.

(** The move dialog is open on [report] with [/archive/] typed. *)
Definition moving : Items.Bench :=
  Items.with_dialogs
    (Items.mkDialogs false None "" true (Some report) "/archive/") inDocs.

(** [/docs] is current and [f] is selected. *)
Definition docsWith (f : File.t) : Run :=
  freshRun (with_selectedFile (Some f) (with_currentPath "/docs" initialState)).

(** 100 MiB and one byte, with a content type. *)
Definition video : File.t := File.mk "clip.mp4" 104857601 "video/mp4".

Definition song : Folder.t := Folder.mk "music" "music" None 7.
Definition draft : Entry.t := Entry.mk "draft.txt" (Some "docs/draft.txt") 512.

(** A gateway that lists [draft] and [Sample.child] in every folder. *)
Definition stocked (n : nat) (r : Request) : option Resp.t :=
  match r with
  | GET_files _ folder =>
      Some (Resp.mk (Some (default "/" folder)) (Some [draft])
              (Some [Sample.child]) false None)
  | _ => Some Sample.done
  end.

(** The root and [music] have cache entries. *)
Definition cachedRoot : Run :=
  freshRun (with_treeCache (<["/" := [song]]> (<["music" := [song]]> ∅))
              initialState).

(** The listing of [docs] is shown. *)
Definition listed : Run :=
  freshRun (with_files [draft] (with_folders [Sample.child]
              (with_currentPath "docs" initialState))).

(** A well-formed token whose payload is an object with the groups claim
    [[]]. *)
Definition noGroupsToken : string := "h.eyJncm91cHMiOltdfQ.s".

(** Tokens whose payload is the JSON text [5] and the JSON text [[]]. *)
Definition numberToken : string := "h.NQ.s".
Definition arrayToken : string := "h.W10.s".

(** The user of [noGroupsToken] at the [stocked] gateway. *)
Definition roleless : World :=
  Browser.world (fun _ => Some noGroupsToken) stocked Sample.prompt
    (Some "reader-id") (Some "uploader-id") (Some "admin-id").

(** The gateway never reports the blob, and the answer to request number
    100, the 100th existence check after an upload, takes longer than one
    polling interval. *)
Definition lateAnswer : World :=
  Browser.world Sample.tokens Sample.gateway
    (fun n => if (n =? 100)%nat then 1%nat else O)
    (Some "reader-id") (Some "uploader-id") (Some "admin-id").

(** A no-break space, a line separator, a byte order mark and a
    zero-width space (which is not white space), in UTF-8. *)
Definition noBreakSpace : string := String "194" (String "160" "").
Definition lineSeparator : string := String "226" (String "128" (String "168" "")).
Definition byteOrderMark : string := String "239" (String "187" (String "191" "")).
Definition zeroWidthSpace : string := String "226" (String "128" (String "139" "")).

(** The root is current and the name typed is a slash. *)
Definition slashAtRoot : Run :=
  freshRun (with_newFolderName "/" initialState).

End Scenario.

(** * Properties *)

(** ** Running a handler step by step *)

(** Unfolds the monad and the primitive effects, so that what is left is
    the case analysis on what the world answers. *)
Ltac run :=
  unfold axios_await, axios_send, axios_settle, getAccessToken,
    setFiles, setFolders, setCurrentPath, setLoading, setError,
    setSelectedFile, setUploadProgress, setShowCreateFolder,
    setNewFolderName, setExpandedPaths, setUserRoles, updFolders,
    updTreeCache, updExpandedPaths, setAttempts, setIntervalActive,
    clearInterval, setState, emit, defer, modify, render, get, world, lift,
    ret, throw, try_catch, try_finally, bind;
  cbn.

#[local] Arguments handleChunkedUpload : simpl never.
#[local] Arguments uploadChunks : simpl never.
#[local] Arguments chunkRequest : simpl never.
#[local] Arguments commitRequest : simpl never.
#[local] Arguments uploadRequest : simpl never.
#[local] Arguments decodeToken : simpl never.
#[local] Arguments decoded_groups : simpl never.
#[local] Arguments includes : simpl never.

Lemma Run_ext (a b : Run) :
  ui a = ui b -> log a = log b -> nreq a = nreq b -> ntok a = ntok b ->
  pending a = pending b -> attempts a = attempts b ->
  intervalActive a = intervalActive b -> a = b.
Proof. destruct a, b; cbn; intros; subst; reflexivity. Qed.

(** Reads the fields of a state written as a chain of updates. *)
Ltac fields :=
  cbn [ui log nreq ntok pending attempts intervalActive
       with_ui with_log with_nreq with_ntok with_pending with_attempts
       with_intervalActive].

(** Two final states are equal when their fields are, the logs up to the
    bracketing of the appends. *)
Ltac same_run :=
  apply Run_ext; fields;
  try reflexivity;
  try (rewrite <- ?app_assoc; cbn [app]; reflexivity).

Lemma sent_app (l1 l2 : list Event) : sent (l1 ++ l2) = (sent l1 ++ sent l2)%list.
Proof.
  induction l1 as [|e l1 IH]; [reflexivity|].
  destruct e; simpl; rewrite IH; reflexivity.
Qed.

Lemma timers_app (l1 l2 : list Event) :
  timers (l1 ++ l2) = (timers l1 ++ timers l2)%list.
Proof.
  induction l1 as [|e l1 IH]; [reflexivity|].
  destruct e; simpl; rewrite IH; reflexivity.
Qed.

Lemma polls_app (l1 l2 : list Event) : polls (l1 ++ l2) = (polls l1 ++ polls l2)%list.
Proof. unfold polls. rewrite sent_app. apply List.filter_app. Qed.

(** ** File Listing Client *)

(** C7. A listing call whose request fails leaves [files] and [folders]
    (and the rest of the listing state) as they were before the call and
    sets the error message 'Failed to fetch files.'. *)
Theorem fetchFiles_failure_keeps_listing
    (w : World) (s : Run) (token folderPath : string) :
  axios w (nreq s) (GET_files token (folderQuery folderPath)) = None ->
  let result := fetchFiles token folderPath w s in
  result.1 = Normal tt /\
  files (ui result.2) = files (ui s) /\
  folders (ui result.2) = folders (ui s) /\
  currentPath (ui result.2) = currentPath (ui s) /\
  treeCache (ui result.2) = treeCache (ui s) /\
  expandedPaths (ui result.2) = expandedPaths (ui s) /\
  error (ui result.2) = Some "Failed to fetch files." /\
  loading (ui result.2) = false.
Proof.
  intros Hfail result. subst result.
  unfold fetchFiles, fetchFiles_begin, fetchFiles_resume.
  unfold bind, try_finally, try_catch, axios_settle, axios_send; cbn.
  rewrite Hfail. cbn. repeat split; reflexivity.
Qed.

(** ** Upload Controller *)

Lemma ceil_div_bounds (a b : Z) :
  0 < b -> b * (Math_ceil_div a b - 1) < a <= b * Math_ceil_div a b.
Proof.
  intros Hb. unfold Math_ceil_div.
  pose proof (Z.div_mod (- a) b ltac:(lia)) as Hdm.
  pose proof (Z.mod_pos_bound (- a) b Hb) as Hm.
  nia.
Qed.

Lemma ceil_div_unique (a b n : Z) :
  0 < b -> b * (n - 1) < a <= b * n -> Math_ceil_div a b = n.
Proof.
  intros Hb Hn. pose proof (ceil_div_bounds a b Hb) as Hc. nia.
Qed.

Lemma uploadChunks_ok (r : State) (file : File.t) (token : string) (total : Z)
    (w : World) (fuel : nat) :
  forall (i : Z) (s : Run),
    Z.of_nat fuel = total - i ->
    (forall j, (j < fuel)%nat ->
       axios w (nreq s + j)%nat
         (chunkRequest r file token total (i + Z.of_nat j)) <> None) ->
    uploadChunks fuel r file token total i w s =
      (Normal tt,
       with_nreq (nreq s + fuel)%nat
         (with_log (log s ++ chunkEvents r file token total fuel (nreq s) i)
            (with_ui
               (match fuel with
                | O => ui s
                | S _ =>
                    with_uploadProgress
                      (Some (Progress.mk total total (File.name file) false)) (ui s)
                end) s))).
Proof.
  induction fuel as [|fuel IH]; intros i s Hfuel Hok.
  - cbn. destruct s; cbn. rewrite Nat.add_0_r, app_nil_r. reflexivity.
  - unfold uploadChunks; fold uploadChunks.
    assert (Hlt : (i <? total) = true) by (apply Z.ltb_lt; lia).
    rewrite Hlt.
    pose proof (Hok O ltac:(lia)) as H0.
    rewrite Nat.add_0_r, Z.add_0_r in H0.
    destruct (axios w (nreq s) (chunkRequest r file token total i)) as [resp|] eqn:Hax;
      [clear H0|congruence].
    run. rewrite Hax. cbn.
    rewrite IH.
    + f_equal. same_run; [|lia].
      destruct fuel; [|reflexivity].
      replace (i + 1) with total by lia. reflexivity.
    + lia.
    + intros j Hj. cbn [nreq with_nreq with_log with_ui].
      replace (S (nreq s) + j)%nat with (nreq s + S j)%nat by lia.
      replace (i + 1 + Z.of_nat j) with (i + Z.of_nat (S j)) by lia.
      apply (Hok (S j)). lia.
Qed.

Lemma handleChunkedUpload_run (r : State) (file : File.t) (token : string)
    (w : World) (s : Run) :
  let total := Math_ceil_div (File.size file) CHUNK_SIZE in
  let k := Z.to_nat total in
  let commit := commitRequest r file token total in
  0 <= total ->
  (forall j, (j < k)%nat ->
     axios w (nreq s + j)%nat (chunkRequest r file token total (Z.of_nat j)) <> None) ->
  handleChunkedUpload r file token w s =
    let sent_all :=
      (log s ++ chunkEvents r file token total k (nreq s) 0
         ++ [Sent (nreq s + k)%nat commit])%list in
    match axios w (nreq s + k)%nat commit with
    | Some _ =>
        (Normal tt,
         with_ui (with_uploadProgress None (ui s))
           (with_log (sent_all ++ [Settled (nreq s + k)%nat true])
              (with_nreq (S (nreq s + k)) s)))
    | None =>
        (Throw AxiosError,
         with_ui
           (with_uploadProgress
              (Some (Progress.mk total total (File.name file) true)) (ui s))
           (with_log (sent_all ++ [Settled (nreq s + k)%nat false])
              (with_nreq (S (nreq s + k)) s)))
    end.
Proof.
  intros total k commit Htotal Hok.
  unfold handleChunkedUpload. fold total. fold k. fold commit.
  run.
  rewrite (uploadChunks_ok r file token total w k 0).
  - fields.
    destruct (axios w (nreq s + k)%nat commit) as [resp|]; fields;
      f_equal; same_run; destruct k; reflexivity.
  - subst k. lia.
  - intros j Hj. cbn. apply Hok, Hj.
Qed.

Lemma sent_chunkEvents (r : State) (file : File.t) (token : string) (total : Z)
    (k n : nat) (i : Z) :
  sent (chunkEvents r file token total k n i) =
  map (fun j => chunkRequest r file token total (i + Z.of_nat j)) (seq 0 k).
Proof.
  revert n i. induction k as [|k IH]; intros n i; [reflexivity|].
  cbn [chunkEvents sent seq map]. rewrite IH, Z.add_0_r. f_equal.
  rewrite <- seq_shift, map_map. apply map_ext. intros j. f_equal. lia.
Qed.

(** The log of [handleUpload] on a selected file, once the token is
    acquired, in terms of the requests that the handler builds. *)
Lemma handleUpload_log
    (w : World) (s : Run) (file : File.t) (token : string) :
  selectedFile (ui s) = Some file ->
  acquireTokenSilent w (ntok s) = Some token ->
  let r := ui s in
  let n := nreq s in
  let s' := (handleUpload w s).2 in
  (File.size file <= 104857600 ->
   let upload := uploadRequest r file token in
   let ok := answered (axios w n upload) in
   log s' =
     (log s ++ [Sent n upload; Settled n ok]
        ++ (if ok then [] else [ConsoleError "Upload error:"]))%list)
  /\
  (104857600 < File.size file ->
   let total := Math_ceil_div (File.size file) CHUNK_SIZE in
   let k := Z.to_nat total in
   let commit := commitRequest r file token total in
   (forall j, (j < k)%nat ->
      axios w (n + j)%nat (chunkRequest r file token total (Z.of_nat j)) <> None) ->
   52428800 * (total - 1) < File.size file <= 52428800 * total /\
   let ok := answered (axios w (n + k)%nat commit) in
   let refresh :=
     if ok then
       [Sent (S (n + k)) (GET_files token (folderQuery (folderOf (currentPath r))))]
     else [ConsoleError "Upload error:"] in
   log s' =
     (log s ++ chunkEvents r file token total k n 0
        ++ [Sent (n + k)%nat commit; Settled (n + k)%nat ok] ++ refresh)%list /\
   sent (log s') =
     (sent (log s)
        ++ map (fun j => chunkRequest r file token total (Z.of_nat j)) (seq 0 k)
        ++ [commit] ++ sent refresh)%list).
Proof.
  intros Hsel Htok r n s'. subst r n s'. split.
  - intros Hsmall.
    unfold handleUpload. run. rewrite Hsel. cbn. rewrite Htok. cbn.
    replace (USE_CHUNKED_THRESHOLD <? File.size file) with false
      by (symmetry; apply Z.ltb_ge; unfold USE_CHUNKED_THRESHOLD; lia).
    cbn.
    destruct (axios w (nreq s) (uploadRequest (ui s) file token)) as [resp|];
      cbn; rewrite <- ?app_assoc; rewrite ?app_nil_r; reflexivity.
  - intros Hlarge total k commit Hok.
    pose proof (ceil_div_bounds (File.size file) CHUNK_SIZE ltac:(reflexivity)) as Hb.
    fold total in Hb. change CHUNK_SIZE with 52428800 in Hb.
    split; [exact Hb|].
    assert (Htotal : 0 <= total) by lia.
    pose proof (handleChunkedUpload_run (ui s) file token w) as Hrun.
    cbv zeta in Hrun. fold total in Hrun. fold k in Hrun. fold commit in Hrun.
    clearbody commit. clearbody k. clearbody total.
    unfold handleUpload. run. rewrite Hsel. cbn. rewrite Htok. cbn.
    replace (USE_CHUNKED_THRESHOLD <? File.size file) with true
      by (symmetry; apply Z.ltb_lt; unfold USE_CHUNKED_THRESHOLD; lia).
    rewrite Hrun by (cbn; assumption).
    cbn.
    destruct (axios w (nreq s + k)%nat commit) as [resp|];
      cbn; split; rewrite <- ?app_assoc; cbn; try reflexivity;
      rewrite !sent_app, sent_chunkEvents; cbn; reflexivity.
Qed.

Lemma chunkEvents_from (r : State) (file : File.t) (token : string) (total : Z)
    (n : nat) (i : Z) (k a : nat) :
  chunkEvents r file token total k (n + a) (i + Z.of_nat a) =
  flat_map (fun j => [Sent (n + j)%nat (chunkRequest r file token total (i + Z.of_nat j));
                      Settled (n + j)%nat true]) (seq a k).
Proof.
  revert a. induction k as [|k IH]; intros a; [reflexivity|].
  cbn [chunkEvents seq flat_map app]. f_equal. f_equal.
  rewrite <- IH. f_equal; lia.
Qed.

Lemma chunkEvents_each (r : State) (file : File.t) (token : string) (total : Z)
    (k n : nat) (i : Z) :
  chunkEvents r file token total k n i =
  flat_map (fun j => [Sent (n + j)%nat (chunkRequest r file token total (i + Z.of_nat j));
                      Settled (n + j)%nat true]) (seq 0 k).
Proof.
  rewrite <- chunkEvents_from. f_equal; lia.
Qed.

(** C1 (amended). [handleUpload] on a selected file, once the access token
    is acquired.  A file of at most 100 MiB is sent in exactly one upload
    request (the file, to the current folder), with no chunk and no
    commit request.  A larger file whose chunk requests all succeed is
    sent in exactly [ceil (size / 50 MiB)] chunk requests, with chunk
    indices 0, 1, 2, ... in this order, chunk [j] being the bytes from
    [j * 50 MiB] on, each request settled before the next is sent,
    followed by exactly one commit request that carries the name of the
    file, the number of chunks, the type of the file
    ([application/octet-stream] when it has none) and the current folder
    (empty at the root). *)
Theorem upload_request_sequence
    (w : World) (s : Run) (file : File.t) (token : string) :
  selectedFile (ui s) = Some file ->
  acquireTokenSilent w (ntok s) = Some token ->
  let folder :=
    if String.eqb (currentPath (ui s)) "/" then "" else currentPath (ui s) in
  let n := nreq s in
  let s' := (handleUpload w s).2 in
  (File.size file <= 104857600 ->
   let upload :=
     POST_files token (if String.eqb folder "" then None else Some folder) file in
   let ok := answered (axios w n upload) in
   log s' =
     (log s ++ [Sent n upload; Settled n ok]
        ++ (if ok then [] else [ConsoleError "Upload error:"]))%list /\
   sent (log s') = (sent (log s) ++ [upload])%list)
  /\
  (104857600 < File.size file ->
   let total := Math_ceil_div (File.size file) 52428800 in
   let k := Z.to_nat total in
   let chunk (j : nat) :=
     POST_chunked token (File.name file) (Z.of_nat j) total folder
       (Z.of_nat j * 52428800)
       (Z.min (Z.of_nat j * 52428800 + 52428800) (File.size file)) in
   let contentType :=
     if String.eqb (File.type file) "" then "application/octet-stream"
     else File.type file in
   let commit := POST_commit token (File.name file) total contentType folder in
   (forall j, (j < k)%nat -> axios w (n + j)%nat (chunk j) <> None) ->
   52428800 * (total - 1) < File.size file <= 52428800 * total /\
   let ok := answered (axios w (n + k)%nat commit) in
   let refresh :=
     if ok then [Sent (S (n + k)) (GET_files token (folderQuery folder))]
     else [ConsoleError "Upload error:"] in
   log s' =
     (log s
        ++ flat_map (fun j => [Sent (n + j)%nat (chunk j); Settled (n + j)%nat true])
             (seq 0 k)
        ++ [Sent (n + k)%nat commit; Settled (n + k)%nat ok] ++ refresh)%list /\
   sent (log s') =
     (sent (log s) ++ map chunk (seq 0 k) ++ [commit] ++ sent refresh)%list).
Proof.
  intros Hsel Htok folder n s'.
  pose proof (handleUpload_log w s file token Hsel Htok) as [Hsmall Hlarge].
  split.
  - intros Hsize upload ok. specialize (Hsmall Hsize). cbv zeta in Hsmall.
    split; [exact Hsmall|].
    subst s'. rewrite Hsmall, !sent_app. cbn [sent].
    destruct (answered _); rewrite ?app_nil_r; reflexivity.
  - intros Hsize total k chunk contentType commit Hok.
    specialize (Hlarge Hsize). cbv zeta in Hlarge.
    destruct (Hlarge Hok) as (Hbounds & Hlog & Hsent).
    split; [exact Hbounds|]. split; [|exact Hsent].
    subst s'. rewrite Hlog, chunkEvents_each. reflexivity.
Qed.

(** C1, as stated, fails when a request is rejected or no token can be
    acquired: of the three chunks of a file of 100 MiB and one byte only
    two are sent when the gateway rejects the second, and no commit
    follows; and a file of 2 KiB is not sent at all when the token
    provider fails. *)
Lemma upload_stops_at_rejected_chunk :
  let rejected :=
    (handleUpload (Sample.world (Sample.failing 1)) (Sample.withFile Sample.bigFile)).2 in
  let signedOut :=
    (handleUpload Scenario.signedOut (Sample.withFile Sample.smallFile)).2 in
  Math_ceil_div (File.size Sample.bigFile) 52428800 = 3 /\
  sent (log rejected) =
    [POST_chunked "T0" "big.bin" 0 3 "" 0 52428800;
     POST_chunked "T0" "big.bin" 1 3 "" 52428800 104857600] /\
  sent (log signedOut) = [].
Proof. vm_compute. repeat split. Qed.

(** C2. A chunked upload whose second chunk request fails, and one whose
    commit request fails, end with the error 'Failed to upload file.' but
    with [uploadProgress] still set: the progress indicator is cleared
    only at the end of a successful [handleChunkedUpload]. *)
Theorem chunk_failure_leaves_progress :
  let chunkFails :=
    (handleUpload (Sample.world (Sample.failing 1)) (Sample.withFile Sample.bigFile)).2 in
  let commitFails :=
    (handleUpload (Sample.world (Sample.failing 3)) (Sample.withFile Sample.bigFile)).2 in
  let succeeds :=
    (handleUpload (Sample.world Sample.gateway) (Sample.withFile Sample.bigFile)).2 in
  (error (ui chunkFails) = Some "Failed to upload file." /\
   loading (ui chunkFails) = false /\
   uploadProgress (ui chunkFails) = Some (Progress.mk 1 3 "big.bin" false)) /\
  (error (ui commitFails) = Some "Failed to upload file." /\
   loading (ui commitFails) = false /\
   uploadProgress (ui commitFails) = Some (Progress.mk 3 3 "big.bin" true)) /\
  (error (ui succeeds) = None /\ uploadProgress (ui succeeds) = None).
Proof. vm_compute. repeat split. Qed.

Lemma uploadChunks_stops (r : State) (file : File.t) (token : string) (total : Z)
    (w : World) (fuel : nat) :
  forall (i : Z) (s : Run) (m : nat),
    Z.of_nat fuel = total - i ->
    (m < fuel)%nat ->
    (forall j, (j < m)%nat ->
       axios w (nreq s + j)%nat
         (chunkRequest r file token total (i + Z.of_nat j)) <> None) ->
    axios w (nreq s + m)%nat
      (chunkRequest r file token total (i + Z.of_nat m)) = None ->
    uploadChunks fuel r file token total i w s =
      (Throw AxiosError,
       with_nreq (nreq s + S m)%nat
         (with_log
            (log s ++ chunkEvents r file token total m (nreq s) i
               ++ [Sent (nreq s + m)%nat
                     (chunkRequest r file token total (i + Z.of_nat m));
                   Settled (nreq s + m)%nat false])
            (with_ui
               (match m with
                | O => ui s
                | S _ =>
                    with_uploadProgress
                      (Some (Progress.mk (i + Z.of_nat m) total (File.name file) false))
                      (ui s)
                end) s))).
Proof.
  induction fuel as [|fuel IH]; intros i s m Hfuel Hm Hok Hfail; [lia|].
  unfold uploadChunks; fold uploadChunks.
  assert (Hlt : (i <? total) = true) by (apply Z.ltb_lt; lia).
  rewrite Hlt.
  destruct m as [|m].
  - rewrite Nat.add_0_r, Z.add_0_r in Hfail.
    run. rewrite Hfail. cbn. f_equal.
    rewrite ?Z.add_0_r, ?Nat.add_0_r. same_run. lia.
  - pose proof (Hok O ltac:(lia)) as H0.
    rewrite Nat.add_0_r, Z.add_0_r in H0.
    destruct (axios w (nreq s) (chunkRequest r file token total i)) as [resp|] eqn:Hax;
      [clear H0|congruence].
    run. rewrite Hax. cbn.
    rewrite (IH (i + 1) _ m).
    + f_equal. same_run.
      * replace (i + Z.of_nat (S m)) with (i + 1 + Z.of_nat m) by lia.
        destruct m; [|reflexivity].
        rewrite Z.add_0_r. reflexivity.
      * rewrite <- !app_assoc. cbn [app].
        replace (S (nreq s) + m)%nat with (nreq s + S m)%nat by lia.
        replace (i + 1 + Z.of_nat m) with (i + Z.of_nat (S m)) by lia.
        reflexivity.
      * lia.
    + lia.
    + lia.
    + intros j Hj. fields.
      replace (S (nreq s) + j)%nat with (nreq s + S j)%nat by lia.
      replace (i + 1 + Z.of_nat j) with (i + Z.of_nat (S j)) by lia.
      apply (Hok (S j)). lia.
    + fields.
      replace (S (nreq s) + m)%nat with (nreq s + S m)%nat by lia.
      replace (i + 1 + Z.of_nat m) with (i + Z.of_nat (S m)) by lia.
      exact Hfail.
Qed.

(** Whichever chunk request is the first to fail, the upload ends with the
    generic error and with the progress of the chunks uploaded so far
    still shown; no further chunk and no commit request is sent. *)
Lemma handleUpload_chunk_failure (w : World) (s : Run) (file : File.t)
    (token : string) (m : nat) :
  selectedFile (ui s) = Some file ->
  acquireTokenSilent w (ntok s) = Some token ->
  USE_CHUNKED_THRESHOLD < File.size file ->
  let total := Math_ceil_div (File.size file) CHUNK_SIZE in
  (m < Z.to_nat total)%nat ->
  (forall j, (j < m)%nat ->
     axios w (nreq s + j)%nat
       (chunkRequest (ui s) file token total (Z.of_nat j)) <> None) ->
  axios w (nreq s + m)%nat
    (chunkRequest (ui s) file token total (Z.of_nat m)) = None ->
  let s' := (handleUpload w s).2 in
  uploadProgress (ui s') =
    Some (Progress.mk (Z.of_nat m) total (File.name file) false) /\
  error (ui s') = Some "Failed to upload file." /\
  loading (ui s') = false /\
  sent (log s') =
    (sent (log s)
       ++ map (fun j => chunkRequest (ui s) file token total (Z.of_nat j))
            (seq 0 (S m)))%list.
Proof.
  intros Hsel Htok Hlarge total Hm Hok Hfail s'. subst s'.
  pose proof (uploadChunks_stops (ui s) file token total w (Z.to_nat total) 0) as Hstop.
  unfold handleUpload. run. rewrite Hsel. cbn. rewrite Htok. cbn.
  replace (USE_CHUNKED_THRESHOLD <? File.size file) with true
    by (symmetry; apply Z.ltb_lt; lia).
  unfold handleChunkedUpload. run. fold total. clearbody total.
  match goal with
  | |- context [uploadChunks _ _ _ _ _ _ w ?x] => rewrite (Hstop x m)
  end; [| lia | exact Hm | exact Hok | exact Hfail].
  cbn. fields.
  split; [destruct m; reflexivity|].
  split; [reflexivity|]. split; [reflexivity|].
  rewrite !sent_app, sent_chunkEvents. cbn [sent].
  rewrite ?app_nil_r, <- ?app_assoc. f_equal.
  transitivity
    (map (fun j => chunkRequest (ui s) file token total (Z.of_nat j))
       (seq 0 (m + 1))).
  - rewrite seq_app, map_app. reflexivity.
  - replace (m + 1)%nat with (S m) by lia. reflexivity.
Qed.

(** ** Item Operations Controller *)

(** C3. Creating the folder [reports] in [/docs] with the fresh token
    [T0]: the create request carries [T0], but the refresh that follows is
    [fetchFiles(currentPath)], so its bearer is the path [/docs] and it
    asks for the root listing; a gateway that checks the bearer rejects
    it and the handler ends with 'Failed to fetch files.'. *)
Theorem createFolder_refresh_request :
  let s' := (handleCreateFolder (Sample.world Sample.gateway) Sample.inDocs).2 in
  sent (log s') =
    [POST_folders_create "T0" "/docs/reports"; GET_files "/docs" None] /\
  sent (log s') <>
    [POST_folders_create "T0" "/docs/reports"; GET_files "T0" (Some "/docs")] /\
  error (ui s') = Some "Failed to fetch files.".
Proof. vm_compute. repeat split. discriminate. Qed.

(** In general: whenever the folder is created, the listing request that
    follows carries the current path where the token belongs and no
    folder filter. *)
Lemma handleCreateFolder_refresh (w : World) (s : Run) (token : string)
    (resp : Resp.t) :
  blank (newFolderName (ui s)) = false ->
  acquireTokenSilent w (ntok s) = Some token ->
  let folderPath :=
    if String.eqb (currentPath (ui s)) "/" then newFolderName (ui s)
    else currentPath (ui s) ++ "/" ++ newFolderName (ui s) in
  axios w (nreq s) (POST_folders_create token folderPath) = Some resp ->
  exists rest,
    sent (log (handleCreateFolder w s).2) =
      (sent (log s)
         ++ [POST_folders_create token folderPath;
             GET_files (currentPath (ui s)) None] ++ rest)%list.
Proof.
  intros Hname Htok folderPath Hcreate.
  unfold handleCreateFolder, fetchFiles, fetchFiles_begin, fetchFiles_resume.
  run. rewrite Hname. cbn. rewrite Htok. cbn. fold folderPath.
  rewrite Hcreate. cbn.
  destruct (axios w (S (nreq s)) (GET_files (currentPath (ui s)) None))
    as [listing|]; cbn.
  - destruct (String.eqb (str_or (Resp.currentPath listing) "/") "/"); cbn.
    + exists []. rewrite !sent_app. cbn. rewrite <- !app_assoc. reflexivity.
    + destruct (axios w (S (S (nreq s))) (GET_files (currentPath (ui s)) None));
        cbn; exists [GET_files (currentPath (ui s)) None];
        rewrite !sent_app; cbn; rewrite <- !app_assoc; reflexivity.
  - exists []. rewrite !sent_app. cbn. rewrite <- !app_assoc. reflexivity.
Qed.

(** ** Folder Tree Cache *)

Lemma cacheHit_false (cache : gmap string (list Folder.t)) (p : string) :
  cacheHit cache p = false -> cache !! p = None.
Proof.
  unfold cacheHit. intros H. apply orb_false_elim in H as [H _].
  apply bool_decide_eq_false in H.
  destruct (cache !! p) eqn:E; [|reflexivity].
  exfalso. apply H. eauto.
Qed.

(** A node whose path has no entry in the cache renders no children. *)
Lemma TreeNode_uncached (depth : nat) (p name : string) (expanded : bool)
    (eps : gset string) (cache : gmap string (list Folder.t)) :
  cache !! p = None ->
  TreeNode depth p name expanded (cacheFolders cache p) eps cache =
  TreeNodeView p name expanded [].
Proof.
  intros H. unfold cacheFolders. rewrite H.
  destruct depth; cbn; [reflexivity|].
  rewrite andb_false_r. reflexivity.
Qed.

(** C4 (amended). When [p] is toggled to expanded on a cache miss and the
    load succeeds, the folders of the response (none when the property is
    absent) are stored under the key [currentPath] that the response
    reports, ['/'] when it reports none: they replace whatever was under
    that key, every other key is left alone, and the key is [p] exactly
    when the response reports [p]. *)
Theorem toggleExpand_stores_listing
    (w : World) (s : Run) (p token : string) (resp : Resp.t) :
  p ∉ expandedPaths (ui s) ->
  cacheHit (treeCache (ui s)) p = false ->
  acquireTokenSilent w (ntok s) = Some token ->
  axios w (nreq s) (GET_files token (folderQuery (folderOf p))) = Some resp ->
  let s' := (toggleExpand p w s).2 in
  let key := str_or (Resp.currentPath resp) "/" in
  treeCache (ui s') = <[key := arr_or (Resp.folders resp)]> (treeCache (ui s)) /\
  treeCache (ui s') !! key = Some (arr_or (Resp.folders resp)) /\
  (forall q, q <> key -> treeCache (ui s') !! q = treeCache (ui s) !! q) /\
  (key = p -> treeCache (ui s') !! p = Some (arr_or (Resp.folders resp))).
Proof.
  intros Hp Hmiss Htok Hresp s' key. subst s'.
  unfold toggleExpand. run.
  rewrite bool_decide_false by assumption. rewrite Hmiss. cbn.
  rewrite Htok. cbn. rewrite Hresp. cbn. fold key.
  split; [reflexivity|]. split; [apply lookup_insert_eq|].
  split.
  - intros q Hq. apply lookup_insert_ne. congruence.
  - intros <-. apply lookup_insert_eq.
Qed.

(** C4, as stated, fails: toggling [docs] open against a gateway whose
    listing carries no [currentPath] succeeds, yet the cache has no entry
    for [docs]; the folders went under ['/']. *)
Lemma toggleExpand_keyed_by_response_path :
  let result := toggleExpand "docs" (Sample.world Sample.pathless) Sample.start in
  result.1 = Normal tt /\
  sent (log result.2) = [GET_files "T0" (Some "docs")] /\
  treeCache (ui result.2) !! "docs" <> Some [Sample.child] /\
  treeCache (ui result.2) !! "docs" = None /\
  treeCache (ui result.2) !! "/" = Some [Sample.child].
Proof. vm_compute. repeat split. discriminate. Qed.

(** C9. Toggling a path that is a key of the tree cache, to expanded or
    to collapsed, acquires no token, sends no request and leaves the
    whole cache, hence its entry for the path, unchanged. *)
Theorem toggleExpand_cached_no_network (w : World) (s : Run) (p : string) :
  is_Some (treeCache (ui s) !! p) ->
  let result := toggleExpand p w s in
  result.1 = Normal tt /\
  log result.2 = log s /\
  nreq result.2 = nreq s /\
  ntok result.2 = ntok s /\
  treeCache (ui result.2) = treeCache (ui s) /\
  treeCache (ui result.2) !! p = treeCache (ui s) !! p.
Proof.
  intros Hcached result. subst result.
  unfold toggleExpand. run.
  destruct (bool_decide (p ∈ expandedPaths (ui s))); cbn.
  - repeat split; reflexivity.
  - unfold cacheHit. rewrite (bool_decide_true _ Hcached). cbn.
    repeat split; reflexivity.
Qed.

(** C10. Toggling a collapsed path whose children are not cached, when
    the listing request fails: the path is added to [expandedPaths] all
    the same, the failure only reaches the console, the error state is
    untouched, the cache still has no entry for the path, and the node,
    now expanded, renders with an empty child list. *)
Theorem toggleExpand_failure_still_expands
    (w : World) (s : Run) (p token : string) :
  p ∉ expandedPaths (ui s) ->
  cacheHit (treeCache (ui s)) p = false ->
  acquireTokenSilent w (ntok s) = Some token ->
  axios w (nreq s) (GET_files token (folderQuery (folderOf p))) = None ->
  let result := toggleExpand p w s in
  let s' := result.2 in
  let request := GET_files token (folderQuery (folderOf p)) in
  result.1 = Normal tt /\
  p ∈ expandedPaths (ui s') /\
  expandedPaths (ui s') = expandedPaths (ui s) ∪ {[p]} /\
  error (ui s') = error (ui s) /\
  log s' =
    (log s ++ [Sent (nreq s) request; Settled (nreq s) false;
               ConsoleWarn "Failed to load tree node:"])%list /\
  treeCache (ui s') !! p = None /\
  forall depth name,
    TreeNode depth p name (bool_decide (p ∈ expandedPaths (ui s')))
      (cacheFolders (treeCache (ui s')) p) (expandedPaths (ui s'))
      (treeCache (ui s')) =
    TreeNodeView p name true [].
Proof.
  intros Hp Hmiss Htok Hfail result s' request. subst result s' request.
  unfold toggleExpand. run.
  rewrite bool_decide_false by assumption. rewrite Hmiss. cbn.
  rewrite Htok. cbn. rewrite Hfail. cbn.
  pose proof (cacheHit_false _ _ Hmiss) as Hnone.
  assert (Hin : p ∈ expandedPaths (ui s) ∪ {[p]}) by set_solver.
  repeat split; try reflexivity; try assumption.
  - rewrite <- !app_assoc. reflexivity.
  - intros depth name. rewrite (bool_decide_true _ Hin).
    apply TreeNode_uncached, Hnone.
Qed.

(** ** Role Resolver *)

Lemma includes_array (items : list json) (id : option string) :
  exists b, includes (JArr items) id = Normal b /\
            (b = true <-> exists i, id = Some i /\ In (JStr i) items).
Proof.
  eexists. split; [reflexivity|].
  rewrite existsb_exists. split.
  - intros [x [Hin Hx]]. destruct x, id; try discriminate.
    apply String.eqb_eq in Hx. subst. eauto.
  - intros [i [-> Hin]]. exists (JStr i). split; [assumption|].
    apply String.eqb_refl.
Qed.

(** The roles that [initializeComponent] sets.  With a token whose payload
    is an object with a groups claim that
    is a sequence, or with no groups claim (then the sequence is empty),
    the roles set by [initializeComponent] are determined by the sequence
    and the three configured identifiers: each flag is true exactly when
    the sequence contains the respective identifier.  With the empty
    sequence all three flags are false, the error is the permission
    message, and [initializeComponent] sends no request. *)
Lemma roles_from_groups
    (w : World) (s : Run) (token : string) (members : list (string * json))
    (items : list json) :
  acquireTokenSilent w (ntok s) = Some token ->
  decodeToken w token = Normal (JObj members) ->
  (member "groups" members = Some (JArr items) \/
   member "groups" members = None /\ items = []) ->
  let s' := (initializeComponent w s).2 in
  let has (id : option string) := exists i, id = Some i /\ In (JStr i) items in
  (isReader (userRoles (ui s')) = true <-> has (READER_GROUP_ID w)) /\
  (isUploader (userRoles (ui s')) = true <-> has (UPLOADER_GROUP_ID w)) /\
  (isAdmin (userRoles (ui s')) = true <-> has (ADMIN_GROUP_ID w)) /\
  (items = [] ->
   userRoles (ui s') = mkRoles false false false /\
   error (ui s') = Some "You do not have permission to access files." /\
   log s' = log s /\
   pending s' = pending s).
Proof.
  intros Htok Hdec Hgroups s' has.
  assert (Hg : decoded_groups (JObj members) = Normal (JArr items)).
  { unfold decoded_groups.
    destruct Hgroups as [-> | [-> ->]]; reflexivity. }
  destruct (includes_array items (READER_GROUP_ID w)) as [r [Hr Hr']].
  destruct (includes_array items (UPLOADER_GROUP_ID w)) as [u [Hu Hu']].
  destruct (includes_array items (ADMIN_GROUP_ID w)) as [a [Ha Ha']].
  assert (Hroles : userRoles (ui s') = mkRoles r u a /\
                   (r || u || a = false ->
                    error (ui s') = Some "You do not have permission to access files." /\
                    log s' = log s /\ pending s' = pending s)).
  { subst s'. unfold initializeComponent. run.
    rewrite Htok. cbn. rewrite Hdec. cbn. rewrite Hg. cbn.
    rewrite Hr, Hu, Ha. cbn.
    destruct (r || u || a); cbn.
    - split; [reflexivity|discriminate].
    - repeat split; reflexivity. }
  destruct Hroles as [Hroles Hnone]. rewrite Hroles. cbn.
  split; [exact Hr'|]. split; [exact Hu'|]. split; [exact Ha'|].
  intros ->.
  assert (r = false /\ u = false /\ a = false) as (-> & -> & ->).
  { unfold includes in Hr, Hu, Ha. cbn in Hr, Hu, Ha.
    repeat split; congruence. }
  split; [reflexivity|]. apply Hnone. reflexivity.
Qed.

(** C5. The roles follow from the groups claim as [roles_from_groups]
    says, and [initializeComponent] itself fetches nothing for a user
    without a role ('Only fetch files if user is in at least the reader
    group'), but the component does not deny the listing.  With a token
    whose groups claim is the empty sequence, mounting sets the three
    flags to false and shows the permission message; the effect that
    preloads the tree at the same mount then requests the root listing
    and puts its folders in the sidebar; and the Go button of the sidebar
    requests the listing, shows its files and folders and clears the
    permission message. *)
Theorem roleless_user_still_lists :
  let w := Scenario.roleless in
  let token := Scenario.noGroupsToken in
  let mounted := (initializeComponent w Sample.start).2 in
  let preloaded := (preloadRoot w mounted).2 in
  let navigated := (navigateToPath "/" w preloaded).2 in
  decodeToken w token = Normal (JObj [("groups", JArr [])]) /\
  userRoles (ui mounted) = mkRoles false false false /\
  error (ui mounted) = Some "You do not have permission to access files." /\
  sent (log mounted) = [] /\
  sent (log preloaded) = [GET_files token None] /\
  treeCache (ui preloaded) !! "/" = Some [Sample.child] /\
  error (ui preloaded) = Some "You do not have permission to access files." /\
  sent (log navigated) = [GET_files token None; GET_files token None] /\
  files (ui navigated) = [Scenario.draft] /\
  folders (ui navigated) = [Sample.child] /\
  error (ui navigated) = None /\
  userRoles (ui navigated) = mkRoles false false false.
Proof. vm_compute. repeat split. Qed.

(** C6 (amended). A token that has no second dot-separated segment, or
    whose second segment is rejected by [atob] after the URL-safe
    substitutions, or decodes to bytes that [decodeURIComponent] rejects,
    or to text that [JSON.parse] rejects, makes [decodeToken] throw, and a
    token whose payload is [null] makes the reading of the groups claim
    throw; [initializeComponent] catches it, leaves the roles as they
    were, sends nothing and shows 'Failed to initialize. Please log in
    again.'.  The number of segments is not checked: decoding looks at
    the second segment only.  Nor is the kind of the payload: one that is
    JSON but not an object (a sequence, a number, a string, a boolean) is
    read as a token without groups, so the three flags are false and the
    permission message is shown. *)
Theorem malformed_token_fails_initialization
    (w : World) (s : Run) (token : string) :
  acquireTokenSilent w (ntok s) = Some token ->
  let result := initializeComponent w s in
  let refused :=
    result.1 = Normal tt /\
    error (ui result.2) = Some "Failed to initialize. Please log in again." /\
    userRoles (ui result.2) = userRoles (ui s) /\
    sent (log result.2) = sent (log s) /\
    pending result.2 = pending s in
  ((split_on "." token !! 1%nat = None \/
    (exists segment,
       split_on "." token !! 1%nat = Some segment /\
       let base64 := replace_char "_" "/" (replace_char "-" "+" segment) in
       (atob w base64 = None \/
        exists binary,
          atob w base64 = Some binary /\
          (decodeURIComponent w (percent_escape binary) = None \/
           exists jsonPayload,
             decodeURIComponent w (percent_escape binary) = Some jsonPayload /\
             JSON_parse w jsonPayload = None)))) ->
   (exists e, decodeToken w token = Throw e) /\ refused) /\
  (decodeToken w token = Normal JNull -> refused) /\
  (forall other,
     split_on "." other !! 1%nat = split_on "." token !! 1%nat ->
     decodeToken w other = decodeToken w token) /\
  (forall payload,
     decodeToken w token = Normal payload ->
     ((exists items, payload = JArr items) \/
      (exists m e, payload = JNum m e) \/
      (exists text, payload = JStr text) \/
      (exists b, payload = JBool b)) ->
     result.1 = Normal tt /\
     userRoles (ui result.2) = mkRoles false false false /\
     error (ui result.2) = Some "You do not have permission to access files." /\
     sent (log result.2) = sent (log s) /\
     pending result.2 = pending s).
Proof.
  intros Htok result refused. subst refused result.
  assert (Hcatch : forall e, decodeToken w token = Throw e ->
            let result := initializeComponent w s in
            result.1 = Normal tt /\
            error (ui result.2) = Some "Failed to initialize. Please log in again." /\
            userRoles (ui result.2) = userRoles (ui s) /\
            sent (log result.2) = sent (log s) /\
            pending result.2 = pending s).
  { intros e He. cbv zeta. unfold initializeComponent. run.
    rewrite Htok. cbn. rewrite He. cbn.
    rewrite sent_app. cbn. rewrite app_nil_r.
    repeat split; reflexivity. }
  split; [|split; [|split]].
  - intros Hbad.
    assert (Hthrow : exists e, decodeToken w token = Throw e).
    { unfold decodeToken.
      destruct Hbad as [-> | (segment & -> & Hseg)]; [eauto|].
      cbv zeta in Hseg.
      destruct Hseg as [-> | (binary & -> & Hbin)]; [eauto|].
      destruct Hbin as [-> | (jsonPayload & -> & ->)]; eauto. }
    split; [exact Hthrow|].
    destruct Hthrow as [e He]. exact (Hcatch e He).
  - intros Hnull. unfold initializeComponent. run.
    rewrite Htok. cbn. rewrite Hnull. unfold decoded_groups. cbn.
    rewrite sent_app. cbn. rewrite app_nil_r.
    repeat split; reflexivity.
  - intros other Hother. unfold decodeToken. rewrite Hother. reflexivity.
  - intros payload Hpayload Hshape.
    unfold initializeComponent. run.
    rewrite Htok. cbn. rewrite Hpayload. unfold decoded_groups, includes.
    destruct Hshape as [(items & ->) | [(m & e & ->) | [(text & ->) | (b & ->)]]];
      cbn; repeat split; reflexivity.
Qed.

(** C6, as stated, fails for a token that does not have three segments
    and for a payload that is not a claims object: the two-segment token
    below decodes, the user gets the reader role and the listing is
    fetched as for a well-formed token; and the tokens whose payloads are
    the number 5 and the empty sequence decode too, and are treated as
    zero roles, with the permission message and not the one that asks to
    log in again. *)
Lemma unchecked_tokens_are_accepted :
  let w := Sample.login Sample.twoSegments in
  let result := initializeComponent w Sample.start in
  let number := (initializeComponent (Sample.login Scenario.numberToken) Sample.start).2 in
  let sequence := (initializeComponent (Sample.login Scenario.arrayToken) Sample.start).2 in
  (length (split_on "." Sample.twoSegments) = 2%nat /\
   decodeToken w Sample.twoSegments =
     Normal (JObj [("groups", JArr [JStr "reader-id"])]) /\
   result.1 = Normal tt /\
   error (ui result.2) = None /\
   error (ui result.2) <> Some "Failed to initialize. Please log in again." /\
   userRoles (ui result.2) = mkRoles true false false /\
   sent (log result.2) = [GET_files Sample.twoSegments None]) /\
  (decodeToken (Sample.login Scenario.numberToken) Scenario.numberToken =
     Normal (JNum 5 0) /\
   userRoles (ui number) = mkRoles false false false /\
   error (ui number) = Some "You do not have permission to access files." /\
   error (ui number) <> Some "Failed to initialize. Please log in again.") /\
  (decodeToken (Sample.login Scenario.arrayToken) Scenario.arrayToken =
     Normal (JArr []) /\
   userRoles (ui sequence) = mkRoles false false false /\
   error (ui sequence) = Some "You do not have permission to access files." /\
   error (ui sequence) <> Some "Failed to initialize. Please log in again.").
Proof. vm_compute. repeat split; discriminate. Qed.

(** ** The existence-polling loop *)

#[local] Arguments fetchFiles_detached : simpl never.

Lemma fetchFiles_detached_run (token folderPath : string) (w : World) (s : Run) :
  fetchFiles_detached token folderPath w s =
    let request := GET_files token (folderQuery folderPath) in
    (Normal tt,
     with_pending (pending s ++ [FetchFilesPending token (nreq s) request])
       (with_nreq (S (nreq s))
          (with_log (log s ++ [Sent (nreq s) request])
             (with_ui (with_error None (with_loading true (ui s))) s)))).
Proof. reflexivity. Qed.

(** One turn of the loop when every answer comes before the next tick:
    the timer fires, the check is sent and settled, and the loop stops or
    goes on with nothing in flight. *)
Lemma runInterval_prompt_turn (w : World) (token startedPath closurePath : string)
    (fuel tick : nat) (s : Run) :
  (forall n, latency w n = O) ->
  intervalActive s = true ->
  runInterval (S fuel) token startedPath closurePath tick [] w s =
    let check := GET_exists token startedPath in
    let n := nreq s in
    let s1 :=
      with_nreq (S n)
        (with_log (log s ++ [TimerFired (Z.of_nat tick * pollIntervalMs); Sent n check])
           (with_attempts (attempts s + 1) s)) in
    match axios w n check with
    | Some resp =>
        let s2 := with_log (log s1 ++ [Settled n true]) s1 in
        if Resp.exists_ resp then
          (Normal true,
           (fetchFiles_detached token (folderOf closurePath) w
              (with_intervalActive false s2)).2)
        else if maxAttempts <=? attempts s + 1 then
          (Normal true,
           with_log (log s2 ++ [ConsoleWarn "Polling timed out for"])
             (with_intervalActive false s2))
        else runInterval fuel token startedPath closurePath (S tick) [] w s2
    | None =>
        let s2 :=
          with_log (log s1 ++ [Settled n false; ConsoleWarn "Exists check failed:"]) s1 in
        if maxAttempts <=? attempts s + 1 then
          (Normal true, with_intervalActive false s2)
        else runInterval fuel token startedPath closurePath (S tick) [] w s2
    end.
Proof.
  intros Hlat Hactive.
  unfold runInterval; fold runInterval.
  unfold poll_begin, poll_resume. run.
  rewrite Hactive. cbn. rewrite Hlat, Nat.add_0_r, Nat.leb_refl. cbn.
  run.
  destruct (axios w (nreq s) (GET_exists token startedPath)) as [resp|]; cbn.
  - destruct (Resp.exists_ resp); cbn.
    + rewrite !fetchFiles_detached_run. cbn.
      f_equal. same_run.
    + destruct (maxAttempts <=? attempts s + 1); cbn.
      * f_equal. same_run.
      * rewrite Hactive. cbn. f_equal. same_run.
  - destruct (maxAttempts <=? attempts s + 1); cbn.
    + f_equal. same_run.
    + rewrite Hactive. cbn. f_equal. same_run.
Qed.

Lemma polling_prompt (w : World) (token startedPath closurePath : string) :
  (forall n, latency w n = O) ->
  forall (gap fuel tick : nat) (s : Run),
    (1 <= gap)%nat ->
    (gap <= fuel)%nat ->
    intervalActive s = true ->
    attempts s = maxAttempts - Z.of_nat gap ->
    let check := GET_exists token startedPath in
    let result := runInterval fuel token startedPath closurePath tick [] w s in
    let s' := result.2 in
    exists made : nat,
      result.1 = Normal true /\
      intervalActive s' = false /\
      attempts s' = attempts s + Z.of_nat made /\
      (1 <= made <= gap)%nat /\
      polls (log s') = (polls (log s) ++ repeat check made)%list /\
      timers (log s') =
        (timers (log s)
           ++ map (fun j => Z.of_nat (tick + j) * pollIntervalMs) (seq 0 made))%list /\
      (forall j, (j < gap)%nat ->
         (forall i, (i < j)%nat -> reports (axios w (nreq s + i)%nat check) = false) ->
         (j < made)%nat) /\
      ((forall i, (i < gap)%nat -> reports (axios w (nreq s + i)%nat check) = false) ->
       made = gap /\ ui s' = ui s /\ pending s' = pending s /\
       sent (log s') = (sent (log s) ++ repeat check gap)%list).
Proof.
  intros Hlat gap. induction gap as [|g IH]; intros fuel tick s Hgap Hfuel Hactive Hatt;
    [lia|].
  destruct fuel as [|fuel]; [lia|].
  cbv zeta. rewrite runInterval_prompt_turn by assumption. cbv zeta.
  set (check := GET_exists token startedPath).
  destruct (axios w (nreq s) check) as [resp|] eqn:Hax.
  - destruct (Resp.exists_ resp) eqn:Hex.
    + (* the blob is there: the timer is cleared and the listing refreshed *)
      assert (Hhit : reports (axios w (nreq s + 0)%nat check) = true)
        by (rewrite Nat.add_0_r, Hax; exact Hex).
      exists 1%nat. rewrite fetchFiles_detached_run. cbn [fst snd]. fields.
      split; [reflexivity|]. split; [reflexivity|]. split; [reflexivity|].
      split; [lia|].
      split; [rewrite !polls_app; cbn; rewrite ?app_nil_r; reflexivity|].
      split; [rewrite !timers_app; cbn; rewrite ?app_nil_r, Nat.add_0_r; reflexivity|].
      split.
      * intros [|j] Hj Hquiet; [lia|].
        rewrite (Hquiet O) in Hhit by lia. discriminate.
      * intros Hquiet. rewrite (Hquiet O) in Hhit by lia. discriminate.
    + (* the blob is not there yet *)
      destruct (Z.leb_spec maxAttempts (attempts s + 1)) as [Hmax|Hmax].
      * assert (g = O) by lia. subst g.
        exists 1%nat. cbn [fst snd]. fields.
        split; [reflexivity|]. split; [reflexivity|]. split; [reflexivity|].
        split; [lia|].
        split; [rewrite !polls_app; cbn; rewrite ?app_nil_r; reflexivity|].
        split; [rewrite !timers_app; cbn; rewrite ?app_nil_r, Nat.add_0_r; reflexivity|].
        split; [intros j Hj _; exact Hj|].
        intros _. split; [reflexivity|]. split; [reflexivity|]. split; [reflexivity|].
        rewrite !sent_app; cbn; rewrite ?app_nil_r; reflexivity.
      * match goal with
        | |- context [runInterval fuel _ _ _ (S tick) [] w ?x] => set (s2 := x)
        end.
        destruct (IH fuel (S tick) s2)
          as (made & Hres & Hact & Hatt' & Hmade & Hpolls & Htimers & Hgo & Hquiet);
          [lia | lia | exact Hactive | subst s2; fields; lia |].
        exists (S made).
        split; [exact Hres|]. split; [exact Hact|].
        split; [rewrite Hatt'; subst s2; fields; lia|].
        split; [lia|].
        split.
        { rewrite Hpolls. subst s2. fields. rewrite !polls_app. cbn.
          rewrite ?app_nil_r, <- ?app_assoc. reflexivity. }
        split.
        { rewrite Htimers. subst s2. fields. rewrite !timers_app. cbn.
          rewrite ?app_nil_r, <- ?app_assoc, Nat.add_0_r. cbn. do 2 f_equal.
          rewrite <- seq_shift, map_map. apply map_ext. intros j.
          f_equal. lia. }
        split.
        { intros [|j] Hj Hq; [lia|]. apply -> Nat.succ_lt_mono.
          apply Hgo; [lia|]. intros i Hi. subst s2. fields.
          replace (S (nreq s) + i)%nat with (nreq s + S i)%nat by lia.
          apply Hq. lia. }
        intros Hq.
        destruct Hquiet as (-> & Hui & Hpend & Hsent).
        { intros i Hi. subst s2. fields.
          replace (S (nreq s) + i)%nat with (nreq s + S i)%nat by lia.
          apply Hq. lia. }
        split; [reflexivity|].
        split; [rewrite Hui; reflexivity|].
        split; [rewrite Hpend; reflexivity|].
        rewrite Hsent. subst s2. fields. rewrite !sent_app. cbn.
        rewrite ?app_nil_r, <- ?app_assoc. reflexivity.
  - (* the check itself failed *)
    destruct (Z.leb_spec maxAttempts (attempts s + 1)) as [Hmax|Hmax].
    * assert (g = O) by lia. subst g.
      exists 1%nat. cbn [fst snd]. fields.
      split; [reflexivity|]. split; [reflexivity|]. split; [reflexivity|].
      split; [lia|].
      split; [rewrite !polls_app; cbn; rewrite ?app_nil_r; reflexivity|].
      split; [rewrite !timers_app; cbn; rewrite ?app_nil_r, Nat.add_0_r; reflexivity|].
      split; [intros j Hj _; exact Hj|].
      intros _. split; [reflexivity|]. split; [reflexivity|]. split; [reflexivity|].
      rewrite !sent_app; cbn; rewrite ?app_nil_r; reflexivity.
    * match goal with
      | |- context [runInterval fuel _ _ _ (S tick) [] w ?x] => set (s2 := x)
      end.
      destruct (IH fuel (S tick) s2)
        as (made & Hres & Hact & Hatt' & Hmade & Hpolls & Htimers & Hgo & Hquiet);
        [lia | lia | exact Hactive | subst s2; fields; lia |].
      exists (S made).
      split; [exact Hres|]. split; [exact Hact|].
      split; [rewrite Hatt'; subst s2; fields; lia|].
      split; [lia|].
      split.
      { rewrite Hpolls. subst s2. fields. rewrite !polls_app. cbn.
        rewrite ?app_nil_r, <- ?app_assoc. reflexivity. }
      split.
      { rewrite Htimers. subst s2. fields. rewrite !timers_app. cbn.
        rewrite ?app_nil_r, <- ?app_assoc, Nat.add_0_r. cbn. do 2 f_equal.
        rewrite <- seq_shift, map_map. apply map_ext. intros j.
        f_equal. lia. }
      split.
      { intros [|j] Hj Hq; [lia|]. apply -> Nat.succ_lt_mono.
        apply Hgo; [lia|]. intros i Hi. subst s2. fields.
        replace (S (nreq s) + i)%nat with (nreq s + S i)%nat by lia.
        apply Hq. lia. }
      intros Hq.
      destruct Hquiet as (-> & Hui & Hpend & Hsent).
      { intros i Hi. subst s2. fields.
        replace (S (nreq s) + i)%nat with (nreq s + S i)%nat by lia.
        apply Hq. lia. }
      split; [reflexivity|].
      split; [rewrite Hui; reflexivity|].
      split; [rewrite Hpend; reflexivity|].
      rewrite Hsent. subst s2. fields. rewrite !sent_app. cbn.
      rewrite ?app_nil_r, <- ?app_assoc. reflexivity.
Qed.

(** A successful single-request upload starts the polling loop: the timer
    is registered with [attempts = 0] and nothing else is sent. *)
Lemma handleUpload_starts_polling
    (w : World) (s : Run) (file : File.t) (token : string) (resp : Resp.t) :
  selectedFile (ui s) = Some file ->
  File.size file <= USE_CHUNKED_THRESHOLD ->
  acquireTokenSilent w (ntok s) = Some token ->
  axios w (nreq s) (uploadRequest (ui s) file token) = Some resp ->
  let s' := (handleUpload w s).2 in
  intervalActive s' = true /\
  attempts s' = 0 /\
  exists startedPath,
    pending s' =
      (pending s ++ [IntervalPending token startedPath (currentPath (ui s))])%list.
Proof.
  intros Hsel Hsmall Htok Hresp s'. subst s'.
  unfold handleUpload. run. rewrite Hsel. cbn. rewrite Htok. cbn.
  replace (USE_CHUNKED_THRESHOLD <? File.size file) with false
    by (symmetry; apply Z.ltb_ge; lia).
  cbn. rewrite Hresp. cbn. eauto.
Qed.

(** When every answer comes in time the bound holds.  A polling loop in
    which every existence check settles
    before the next tick of the timer comes to rest, without throwing,
    after at most 100 checks, sent at 3000 ms, 6000 ms, ... after
    [setInterval]; a check that fails or says that the blob does not
    exist never stops the loop before the 100th attempt; and when none of
    the 100 checks reports the blob, the loop stops after exactly 100
    checks with no listing request sent or left pending and the view
    state untouched. *)
Lemma polling_bounded
    (w : World) (s : Run) (token startedPath closurePath : string) (fuel : nat) :
  (forall n, latency w n = O) ->
  intervalActive s = true ->
  attempts s = 0 ->
  (100 <= fuel)%nat ->
  let check := GET_exists token startedPath in
  let result := runInterval fuel token startedPath closurePath 1 [] w s in
  let s' := result.2 in
  let made := Z.to_nat (attempts s') in
  result.1 = Normal true /\
  intervalActive s' = false /\
  (1 <= made <= 100)%nat /\
  polls (log s') = (polls (log s) ++ repeat check made)%list /\
  timers (log s') =
    (timers (log s) ++ map (fun j => 3000 * (Z.of_nat j + 1)) (seq 0 made))%list /\
  (forall j, (j < 100)%nat ->
     (forall i, (i < j)%nat -> reports (axios w (nreq s + i)%nat check) = false) ->
     (j < made)%nat) /\
  ((forall i, (i < 100)%nat -> reports (axios w (nreq s + i)%nat check) = false) ->
   made = 100%nat /\ ui s' = ui s /\ pending s' = pending s /\
   sent (log s') = (sent (log s) ++ repeat check 100)%list).
Proof.
  intros Hlat Hactive Hatt Hfuel check result s' made.
  destruct (polling_prompt w token startedPath closurePath Hlat 100 fuel 1 s)
    as (made' & Hres & Hact & Hatt' & Hmade & Hpolls & Htimers & Hgo & Hquiet);
    [lia | lia | exact Hactive | rewrite Hatt; reflexivity |].
  assert (Hsame : made = made').
  { subst made s' result. rewrite Hatt', Hatt. lia. }
  rewrite Hsame.
  split; [exact Hres|]. split; [exact Hact|]. split; [exact Hmade|].
  split; [exact Hpolls|].
  split.
  { subst s' result. rewrite Htimers. f_equal. apply map_ext. intros j.
    unfold pollIntervalMs. lia. }
  split; [exact Hgo|]. exact Hquiet.
Qed.

(** C8. The loop that [handleUpload] starts after a successful upload
    is meant to stop at [maxAttempts = 100] checks, but [attempts] is
    compared with it only when the answer to a check has come, while the
    timer goes on firing: with checks that all say that the blob does not
    exist, and the answer to the 100th check arriving only after the next
    tick, the timer fires a 101st time and a 101st check is sent before
    the loop stops. *)
Theorem polling_exceeds_100_attempts :
  let w := Scenario.lateAnswer in
  let check := GET_exists "T0" "notes.txt" in
  let started := (handleUpload w (Sample.withFile Sample.smallFile)).2 in
  let result := drain 200 w started in
  maxAttempts = 100 /\
  sent (log started) = [POST_files "T0" None Sample.smallFile] /\
  pending started = [IntervalPending "T0" "notes.txt" "/"] /\
  (forall n, reports (axios w n check) = false) /\
  result.1 = Normal tt /\
  intervalActive result.2 = false /\
  attempts result.2 = 101 /\
  polls (log result.2) = repeat check 101 /\
  timers (log result.2) = map (fun j => 3000 * (Z.of_nat j + 1)) (seq 0 101) /\
  ~ (length (polls (log result.2)) <= 100)%nat.
Proof.
  split; [reflexivity|]. split; [reflexivity|]. split; [reflexivity|].
  split; [intros n; reflexivity|].
  vm_compute. repeat split. intros H.
  repeat (apply le_S_n in H). inversion H.
Qed.

(** ** The theorems at the sample sessions *)

(** C7 at an offline gateway, while the listing of [docs] is shown. *)
Lemma fetchFiles_failure_keeps_listing_witness :
  let w := Sample.world Sample.offline in
  let result := fetchFiles "T0" "music" w Scenario.listed in
  axios w (nreq Scenario.listed) (GET_files "T0" (folderQuery "music")) = None /\
  files (ui result.2) = [Scenario.draft] /\
  folders (ui result.2) = [Sample.child] /\
  currentPath (ui result.2) = "docs" /\
  error (ui result.2) = Some "Failed to fetch files.".
Proof.
  intros w result.
  assert (Hfail : axios w (nreq Scenario.listed) (GET_files "T0" (folderQuery "music")) = None)
    by reflexivity.
  pose proof (fetchFiles_failure_keeps_listing w Scenario.listed "T0" "music" Hfail)
    as (_ & Hfiles & Hfolders & Hpath & _ & _ & Herror & _).
  split; [exact Hfail|]. split; [exact Hfiles|]. split; [exact Hfolders|].
  split; [exact Hpath|exact Herror].
Defined.

(** C1 (amended) in [/docs], at a file of 2 KiB and at a file of 100 MiB
    and one byte of type [video/mp4], and at the root at a file of that
    size without a type. *)
Lemma upload_request_sequence_witness :
  let w := Sample.world Sample.gateway in
  sent (log (handleUpload w (Scenario.docsWith Sample.smallFile)).2) =
    [POST_files "T0" (Some "/docs") Sample.smallFile] /\
  sent (log (handleUpload w (Scenario.docsWith Scenario.video)).2) =
    [POST_chunked "T0" "clip.mp4" 0 3 "/docs" 0 52428800;
     POST_chunked "T0" "clip.mp4" 1 3 "/docs" 52428800 104857600;
     POST_chunked "T0" "clip.mp4" 2 3 "/docs" 104857600 104857601;
     POST_commit "T0" "clip.mp4" 3 "video/mp4" "/docs";
     GET_files "T0" (Some "/docs")] /\
  sent (log (handleUpload w (Sample.withFile Sample.bigFile)).2) =
    [POST_chunked "T0" "big.bin" 0 3 "" 0 52428800;
     POST_chunked "T0" "big.bin" 1 3 "" 52428800 104857600;
     POST_chunked "T0" "big.bin" 2 3 "" 104857600 104857601;
     POST_commit "T0" "big.bin" 3 "application/octet-stream" "";
     GET_files "T0" None].
Proof.
  intros w. split; [|split].
  - pose proof (upload_request_sequence w (Scenario.docsWith Sample.smallFile)
                  Sample.smallFile "T0" eq_refl eq_refl) as [Hsmall _].
    cbv zeta in Hsmall. destruct Hsmall as [_ Hsent].
    + vm_compute. discriminate.
    + rewrite Hsent. reflexivity.
  - pose proof (upload_request_sequence w (Scenario.docsWith Scenario.video)
                  Scenario.video "T0" eq_refl eq_refl) as [_ Hbig].
    cbv zeta in Hbig. destruct Hbig as (_ & _ & Hsent).
    + reflexivity.
    + intros j _. vm_compute. discriminate.
    + rewrite Hsent. reflexivity.
  - pose proof (upload_request_sequence w (Sample.withFile Sample.bigFile)
                  Sample.bigFile "T0" eq_refl eq_refl) as [_ Hbig].
    cbv zeta in Hbig. destruct Hbig as (_ & _ & Hsent).
    + reflexivity.
    + intros j _. vm_compute. discriminate.
    + rewrite Hsent. reflexivity.
Defined.

(** C4 (amended) on a cache that holds [music] under the root and under
    [music]: at a gateway that reports the path it was asked for, the
    folder it lists is stored under [docs]; at a gateway that reports no
    path, the folder it lists takes the place of [music] under the root
    and the entry of [music] stays. *)
Lemma toggleExpand_stores_listing_witness :
  let named := (toggleExpand "docs" (Sample.world Scenario.stocked) Scenario.cachedRoot).2 in
  let unnamed := (toggleExpand "docs" (Sample.world Sample.pathless) Scenario.cachedRoot).2 in
  treeCache (ui Scenario.cachedRoot) !! "/" = Some [Scenario.song] /\
  treeCache (ui named) !! "docs" = Some [Sample.child] /\
  treeCache (ui named) !! "/" = Some [Scenario.song] /\
  treeCache (ui unnamed) !! "/" = Some [Sample.child] /\
  treeCache (ui unnamed) !! "music" = Some [Scenario.song].
Proof.
  intros named unnamed. subst named unnamed.
  assert (Hp : "docs" ∉ expandedPaths (ui Scenario.cachedRoot))
    by (apply (bool_decide_eq_false_1 _); reflexivity).
  assert (Hmiss : cacheHit (treeCache (ui Scenario.cachedRoot)) "docs" = false)
    by reflexivity.
  pose proof (toggleExpand_stores_listing (Sample.world Scenario.stocked)
                Scenario.cachedRoot "docs" "T0"
                (Resp.mk (Some "docs") (Some [Scenario.draft]) (Some [Sample.child])
                   false None) Hp Hmiss eq_refl eq_refl)
    as (_ & _ & Hothers & Hdocs).
  pose proof (toggleExpand_stores_listing (Sample.world Sample.pathless)
                Scenario.cachedRoot "docs" "T0"
                (Resp.mk None (Some []) (Some [Sample.child]) false None)
                Hp Hmiss eq_refl eq_refl)
    as (_ & Hroot & Hrest & _).
  split; [reflexivity|].
  split; [apply Hdocs; reflexivity|].
  split; [rewrite (Hothers "/"); [reflexivity|discriminate]|].
  split; [exact Hroot|].
  rewrite (Hrest "music"); [reflexivity|discriminate].
Defined.

(** C9 at a cache that already holds the children of [docs]. *)
Lemma toggleExpand_cached_no_network_witness :
  let s := freshRun (with_treeCache {["docs" := [Sample.child]]} initialState) in
  let result := toggleExpand "docs" (Sample.world Sample.gateway) s in
  is_Some (treeCache (ui s) !! "docs") /\
  log result.2 = [] /\
  treeCache (ui result.2) !! "docs" = Some [Sample.child].
Proof.
  intros s result.
  assert (Hcached : is_Some (treeCache (ui s) !! "docs"))
    by (exists [Sample.child]; reflexivity).
  pose proof (toggleExpand_cached_no_network (Sample.world Sample.gateway) s "docs" Hcached)
    as (_ & Hlog & _ & _ & _ & Hentry).
  split; [exact Hcached|]. split; [exact Hlog|].
  exact (eq_trans Hentry eq_refl).
Defined.

(** C10 at an offline gateway. *)
Lemma toggleExpand_failure_still_expands_witness :
  let result := toggleExpand "docs" (Sample.world Sample.offline) Sample.start in
  ("docs" ∈ expandedPaths (ui result.2)) /\
  error (ui result.2) = None /\
  TreeNode 3 "docs" "docs" (bool_decide ("docs" ∈ expandedPaths (ui result.2)))
    (cacheFolders (treeCache (ui result.2)) "docs")
    (expandedPaths (ui result.2)) (treeCache (ui result.2)) =
  TreeNodeView "docs" "docs" true [].
Proof.
  intros result.
  assert (Hp : "docs" ∉ expandedPaths (ui Sample.start))
    by (apply (bool_decide_eq_false_1 _); reflexivity).
  pose proof (toggleExpand_failure_still_expands (Sample.world Sample.offline)
                Sample.start "docs" "T0" Hp eq_refl eq_refl eq_refl)
    as (_ & Hin & _ & Herror & _ & _ & Hview).
  split; [exact Hin|]. split; [exact Herror|]. apply Hview.
Defined.

(** [roles_from_groups] at a token whose groups claim is the reader group. *)
Lemma roles_from_groups_witness :
  let w := Sample.login Sample.readerToken in
  decodeToken w Sample.readerToken =
    Normal (JObj [("groups", JArr [JStr "reader-id"])]) /\
  isReader (userRoles (ui (initializeComponent w Sample.start).2)) = true.
Proof.
  intros w.
  assert (Hdec : decodeToken w Sample.readerToken =
                 Normal (JObj [("groups", JArr [JStr "reader-id"])]))
    by (vm_compute; reflexivity).
  split; [exact Hdec|].
  apply (roles_from_groups w Sample.start Sample.readerToken
           [("groups", JArr [JStr "reader-id"])] [JStr "reader-id"]
           eq_refl Hdec (or_introl eq_refl)).
  exists "reader-id". split; [reflexivity|]. left. reflexivity.
Defined.

(** C6 (amended) at a token without a dot, at one whose second segment
    is not base-64, and at one whose payload is the number 5. *)
Lemma malformed_token_fails_initialization_witness :
  error (ui (initializeComponent (Sample.login "opaque") Sample.start).2) =
    Some "Failed to initialize. Please log in again." /\
  error (ui (initializeComponent (Sample.login "h.%%%.s") Sample.start).2) =
    Some "Failed to initialize. Please log in again." /\
  decodeToken (Sample.login "h.NQ") "a.NQ.b.c" = Normal (JNum 5 0) /\
  error (ui (initializeComponent (Sample.login Scenario.numberToken) Sample.start).2) =
    Some "You do not have permission to access files.".
Proof.
  split; [|split; [|split]].
  - destruct (malformed_token_fails_initialization (Sample.login "opaque")
                Sample.start "opaque" eq_refl) as (Hbad & _).
    destruct Hbad as (_ & _ & Herror & _); [left; reflexivity|exact Herror].
  - destruct (malformed_token_fails_initialization (Sample.login "h.%%%.s")
                Sample.start "h.%%%.s" eq_refl) as (Hbad & _).
    destruct Hbad as (_ & _ & Herror & _); [|exact Herror].
    right. exists "%%%". split; [reflexivity|]. left. reflexivity.
  - destruct (malformed_token_fails_initialization (Sample.login "h.NQ")
                Sample.start "h.NQ" eq_refl) as (_ & _ & Hsegment & _).
    rewrite (Hsegment "a.NQ.b.c" eq_refl). vm_compute. reflexivity.
  - destruct (malformed_token_fails_initialization (Sample.login Scenario.numberToken)
                Sample.start Scenario.numberToken eq_refl) as (_ & _ & _ & Hshape).
    destruct (Hshape (JNum 5 0)) as (_ & _ & Herror & _);
      [vm_compute; reflexivity|right; left; eauto|exact Herror].
Defined.

(** [polling_bounded] at a gateway that answers at once and never reports
    the blob. *)
Lemma polling_bounded_witness :
  let w := Sample.world Sample.gateway in
  let result := runInterval 100 "T0" "notes.txt" "/" 1 [] w Sample.polling in
  (forall n, latency w n = O) /\
  result.1 = Normal true /\
  Z.to_nat (attempts result.2) = 100%nat /\
  sent (log result.2) = repeat (GET_exists "T0" "notes.txt") 100.
Proof.
  intros w result.
  assert (Hlat : forall n, latency w n = O) by (intros n; reflexivity).
  pose proof (polling_bounded w Sample.polling "T0" "notes.txt" "/" 100
                Hlat eq_refl eq_refl (le_n 100))
    as (Hres & _ & _ & _ & _ & _ & Hquiet).
  destruct Hquiet as (Hmade & _ & _ & Hsent); [intros i _; reflexivity|].
  split; [exact Hlat|]. split; [exact Hres|]. split; [exact Hmade|].
  exact Hsent.
Defined.

(** ** The browser built-ins on small inputs *)

Example atob_padding :
  Browser.atob "YWJj" = Some "abc" /\
  Browser.atob "YQ==" = Some "a" /\
  Browser.atob "YQ" = Some "a" /\
  Browser.atob " Y W J j " = Some "abc" /\
  Browser.atob "YQ=" = None /\
  Browser.atob "Y" = None /\
  Browser.atob "YW-j" = None.
Proof. vm_compute. repeat split. Qed.

Example decodeURIComponent_utf8 :
  Browser.decodeURIComponent "%7b%7d" = Some "{}" /\
  Browser.decodeURIComponent "%c3%a9" = Some (Browser.text [195; 169]%N) /\
  Browser.decodeURIComponent "%c3%28" = None /\
  Browser.decodeURIComponent "%c0%80" = None /\
  Browser.decodeURIComponent "%ed%a0%80" = None /\
  Browser.decodeURIComponent "%f4%90%80%80" = None /\
  Browser.decodeURIComponent "%7" = None.
Proof. vm_compute. repeat split. Qed.

Example JSON_parse_values :
  Browser.JSON_parse "[1, -2.50e3, true, null, {}]" =
    Some (JArr [JNum 1 0; JNum (-250) 1; JBool true; JNull; JObj []]) /\
  Browser.JSON_parse "01" = None /\
  Browser.JSON_parse "[1,]" = None /\
  Browser.JSON_parse "{}x" = None /\
  Browser.JSON_parse "" = None.
Proof. vm_compute. repeat split. Qed.

(** A payload that is valid JSON but not an object is not a decoding
    failure: [decoded['groups']] is [undefined] and the user has no role. *)
Example payload_not_an_object :
  let w := Sample.login "h.NQ.s" in
  let s' := (initializeComponent w Sample.start).2 in
  decodeToken w "h.NQ.s" = Normal (JNum 5 0) /\
  userRoles (ui s') = mkRoles false false false /\
  error (ui s') = Some "You do not have permission to access files.".
Proof. vm_compute. repeat split. Qed.

(** The listing started by [initializeComponent] for a user with a role
    completes when its promise settles. *)
Example initializeComponent_then_listing :
  let w := Sample.login Sample.readerToken in
  let started := (initializeComponent w Sample.start).2 in
  let settled := (forEach (fun p => resume p 0) (pending started) w started).2 in
  pending started = [FetchFilesPending Sample.readerToken 0 (GET_files Sample.readerToken None)] /\
  loading (ui started) = true /\
  loading (ui settled) = false /\
  error (ui settled) = None /\
  treeCache (ui settled) !! "/" = Some [].
Proof. vm_compute. repeat split. Qed.


(** * Further properties of the component *)

(** ** Chunk arithmetic *)

(** X1. The chunks of a non-empty file tile it: chunk 0 starts at byte 0,
    every chunk is non-empty and at most 50 MiB long, each chunk but the
    last ends where the next one starts, and the last chunk ends at the
    size of the file. *)
Theorem chunk_slices_tile_the_file
    (r : State) (file : File.t) (token : string) (j : Z) :
  0 < File.size file ->
  let total := Math_ceil_div (File.size file) CHUNK_SIZE in
  0 <= j < total ->
  exists start stop,
    slice (chunkRequest r file token total j) = Some (start, stop) /\
    start = j * 52428800 /\
    start < stop <= start + 52428800 /\
    (j + 1 < total ->
     slice (chunkRequest r file token total (j + 1)) = Some (stop, Z.min (stop + 52428800) (File.size file))) /\
    (j + 1 = total -> stop = File.size file).
Proof.
  intros Hsize total Hj.
  pose proof (ceil_div_bounds (File.size file) CHUNK_SIZE ltac:(reflexivity)) as Hb.
  fold total in Hb. change CHUNK_SIZE with 52428800 in Hb.
  exists (j * 52428800), (Z.min (j * 52428800 + 52428800) (File.size file)).
  split; [reflexivity|]. split; [reflexivity|].
  split; [lia|]. split.
  - intros Hnext. unfold chunkRequest, slice. change CHUNK_SIZE with 52428800.
    f_equal. f_equal; lia.
  - intros Hlast. lia.
Qed.

(** ** Paths *)

Lemma append_cons (c : ascii) (a b : string) :
  String c a ++ b = String c (a ++ b).
Proof. reflexivity. Qed.

Lemma append_nil_l (b : string) : "" ++ b = b.
Proof. reflexivity. Qed.

Lemma append_nil_r (s : string) : s ++ "" = s.
Proof.
  induction s as [|c s IH]; [reflexivity|].
  rewrite append_cons. f_equal. exact IH.
Qed.

Lemma dropLeadingSlashes_split (p : string) :
  exists i, p = slashes i ++ dropLeadingSlashes p.
Proof.
  induction p as [|c p [i IH]]; [exists O; reflexivity|].
  cbn [dropLeadingSlashes]. destruct (Ascii.eqb_spec c "/") as [->|Hc].
  - exists (S i). cbn [slashes]. rewrite append_cons. f_equal. exact IH.
  - exists O. reflexivity.
Qed.

Lemma dropLeadingSlashes_head (p t : string) :
  dropLeadingSlashes p <> String "/" t.
Proof.
  induction p as [|c p IH]; [discriminate|].
  cbn [dropLeadingSlashes]. destruct (Ascii.eqb_spec c "/") as [->|Hc]; [exact IH|].
  intros H. injection H as H _. contradiction.
Qed.

Lemma dropTrailingSlashes_split (s : string) :
  exists j, s = dropTrailingSlashes s ++ slashes j.
Proof.
  induction s as [|c s [j IH]]; [exists O; reflexivity|].
  cbn [dropTrailingSlashes].
  destruct (Ascii.eqb_spec c "/") as [->|Hc]; cbn [andb].
  - destruct (String.eqb_spec (dropTrailingSlashes s) "") as [He|He].
    + exists (S j). cbn [slashes]. rewrite append_nil_l. f_equal.
      rewrite He in IH. exact IH.
    + exists j. rewrite append_cons. f_equal. exact IH.
  - exists j. rewrite append_cons. f_equal. exact IH.
Qed.

Lemma dropTrailingSlashes_last (s t : string) :
  dropTrailingSlashes s <> t ++ "/".
Proof.
  revert t. induction s as [|c s IH]; intros t.
  - destruct t; discriminate.
  - cbn [dropTrailingSlashes].
    destruct (Ascii.eqb_spec c "/") as [->|Hc]; cbn [andb].
    + destruct (String.eqb_spec (dropTrailingSlashes s) "") as [He|He].
      * destruct t; discriminate.
      * destruct t as [|x t].
        -- rewrite append_nil_l. intros H. injection H as H. contradiction.
        -- rewrite append_cons. intros H. injection H as _ H. exact (IH t H).
    + destruct t as [|x t].
      * rewrite append_nil_l. intros H. injection H as H _. contradiction.
      * rewrite append_cons. intros H. injection H as _ H. exact (IH t H).
Qed.

Lemma dropTrailingSlashes_head (s t : string) :
  (forall u, s <> String "/" u) -> dropTrailingSlashes s <> String "/" t.
Proof.
  destruct s as [|c s]; [discriminate|].
  intros Hs. cbn [dropTrailingSlashes].
  destruct (Ascii.eqb_spec c "/") as [->|Hc]; [exfalso; exact (Hs s eq_refl)|].
  cbn [andb]. intros H. injection H as H _. contradiction.
Qed.

Lemma dropTrailingSlashes_fixed (s : string) :
  (forall t, s <> t ++ "/") -> dropTrailingSlashes s = s.
Proof.
  induction s as [|c s IH]; intros Hs; [reflexivity|].
  cbn [dropTrailingSlashes].
  assert (Hs' : forall t, s <> t ++ "/").
  { intros t H. apply (Hs (String c t)). rewrite append_cons. f_equal. exact H. }
  rewrite (IH Hs').
  destruct (Ascii.eqb_spec c "/") as [->|Hc]; cbn [andb]; [|reflexivity].
  destruct (String.eqb_spec s "") as [->|He]; [|reflexivity].
  exfalso. exact (Hs "" eq_refl).
Qed.

Lemma dropLeadingSlashes_fixed (s : string) :
  (forall t, s <> String "/" t) -> dropLeadingSlashes s = s.
Proof.
  destruct s as [|c s]; intros Hs; [reflexivity|].
  cbn [dropLeadingSlashes]. destruct (Ascii.eqb_spec c "/") as [->|Hc]; [|reflexivity].
  exfalso. exact (Hs s eq_refl).
Qed.

(** X2. [normalizePathForClient] removes exactly the slashes at both ends:
    the path typed is the result between a run of leading and a run of
    trailing slashes, the result neither starts nor ends with a slash
    (slashes inside are kept), and normalizing again changes nothing. *)
Theorem normalizePathForClient_strips_both_ends (p : string) :
  let q := normalizePathForClient p in
  (exists i j, p = slashes i ++ q ++ slashes j) /\
  (forall t, q <> "/" ++ t) /\
  (forall t, q <> t ++ "/") /\
  normalizePathForClient q = q.
Proof.
  intros q. subst q. unfold normalizePathForClient.
  destruct (String.eqb_spec p "") as [->|Hp].
  - split; [exists O, O; reflexivity|].
    split; [discriminate|]. split; [intros [|c t]; discriminate|]. reflexivity.
  - set (l := dropLeadingSlashes p). set (q := dropTrailingSlashes l).
    assert (Hhead : forall t, q <> String "/" t).
    { intros t. apply dropTrailingSlashes_head. intros u. apply dropLeadingSlashes_head. }
    assert (Hlast : forall t, q <> t ++ "/") by (intros t; apply dropTrailingSlashes_last).
    split.
    + destruct (dropLeadingSlashes_split p) as [i Hi].
      destruct (dropTrailingSlashes_split l) as [j Hj].
      exists i, j. fold l in Hi. fold q in Hj. rewrite <- Hj. exact Hi.
    + split; [exact Hhead|]. split; [exact Hlast|].
      destruct (String.eqb_spec q "") as [He|He]; [symmetry; exact He|].
      rewrite (dropLeadingSlashes_fixed q Hhead).
      apply dropTrailingSlashes_fixed, Hlast.
Qed.

(** ** Listing *)


(** X4. The refresh of the root entry is isolated from the listing call:
    when the listed path is the root no second request is sent, otherwise
    the root listing is requested with the same token, and when that
    request fails the only traces are a console warning and a cache that
    holds the entry of the listed path but no new root entry. *)
Theorem fetchFiles_root_refresh_isolated
    (w : World) (s : Run) (token folderPath : string) (resp : Resp.t) :
  axios w (nreq s) (GET_files token (folderQuery folderPath)) = Some resp ->
  let cp := str_or (Resp.currentPath resp) "/" in
  let primary := GET_files token (folderQuery folderPath) in
  let s' := (fetchFiles token folderPath w s).2 in
  (cp = "/" ->
   sent (log s') = (sent (log s) ++ [primary])%list /\
   treeCache (ui s') = <["/" := arr_or (Resp.folders resp)]> (treeCache (ui s))) /\
  (cp <> "/" ->
   sent (log s') = (sent (log s) ++ [primary; GET_files token None])%list /\
   (axios w (S (nreq s)) (GET_files token None) = None ->
    treeCache (ui s') = <[cp := arr_or (Resp.folders resp)]> (treeCache (ui s)) /\
    log s' =
      (log s ++ [Sent (nreq s) primary; Settled (nreq s) true;
                 Sent (S (nreq s)) (GET_files token None); Settled (S (nreq s)) false;
                 ConsoleWarn "Failed to refresh root tree:"])%list /\
    error (ui s') = None)).
Proof.
  intros Hresp cp primary s'. subst s' primary.
  unfold fetchFiles, fetchFiles_begin, fetchFiles_resume. run.
  rewrite Hresp. cbn. fold cp.
  destruct (String.eqb_spec cp "/") as [Hroot|Hsub]; cbn.
  - split; [|intros H; contradiction].
    intros _. rewrite Hroot. rewrite !sent_app. cbn. rewrite app_nil_r.
    split; reflexivity.
  - split; [intros H; contradiction|].
    intros _.
    destruct (axios w (S (nreq s)) (GET_files token None)) as [root|]; cbn.
    + split; [|intros H; discriminate].
      rewrite !sent_app. cbn. rewrite <- !app_assoc, ?app_nil_r. reflexivity.
    + split.
      * rewrite !sent_app. cbn. rewrite <- !app_assoc, ?app_nil_r. reflexivity.
      * intros _. rewrite <- !app_assoc. cbn. repeat split; reflexivity.
Qed.

(** ** Folder tree *)

Lemma toggleExpand_expandedPaths (w : World) (s : Run) (p : string) :
  (toggleExpand p w s).1 = Normal tt /\
  expandedPaths (ui (toggleExpand p w s).2) =
    if bool_decide (p ∈ expandedPaths (ui s)) then expandedPaths (ui s) ∖ {[p]}
    else expandedPaths (ui s) ∪ {[p]}.
Proof.
  unfold toggleExpand. run.
  destruct (bool_decide (p ∈ expandedPaths (ui s))); cbn; [split; reflexivity|].
  destruct (cacheHit (treeCache (ui s)) p); cbn; [split; reflexivity|].
  destruct (acquireTokenSilent w (ntok s)); cbn; [|split; reflexivity].
  destruct (axios w (nreq s) _); cbn; split; reflexivity.
Qed.

(** X5. Toggling a node twice restores the set of expanded paths, whatever
    the token provider and the gateway answer in between. *)
Theorem toggleExpand_twice_restores (w : World) (s : Run) (p : string) :
  expandedPaths (ui (toggleExpand p w (toggleExpand p w s).2).2) =
  expandedPaths (ui s).
Proof.
  destruct (toggleExpand_expandedPaths w (toggleExpand p w s).2 p) as [_ ->].
  destruct (toggleExpand_expandedPaths w s p) as [_ ->].
  destruct (decide (p ∈ expandedPaths (ui s))) as [Hin|Hout].
  - rewrite (bool_decide_true _ Hin).
    rewrite bool_decide_false.
    + apply set_eq. intros x.
      rewrite elem_of_union, elem_of_difference, elem_of_singleton.
      destruct (decide (x = p)) as [->|Hx]; tauto.
    + rewrite elem_of_difference, elem_of_singleton. tauto.
  - rewrite (bool_decide_false _ Hout).
    rewrite bool_decide_true.
    + apply set_eq. intros x.
      rewrite elem_of_difference, elem_of_union, elem_of_singleton.
      destruct (decide (x = p)) as [->|Hx]; tauto.
    + rewrite elem_of_union, elem_of_singleton. tauto.
Qed.

(** X6. Collapsing a node never touches the network: when the path is
    expanded, cached or not, toggling it only removes it from the
    expanded set; no token is acquired, nothing is sent or logged and the
    cache is unchanged. *)
Theorem toggleExpand_collapse_is_local (w : World) (s : Run) (p : string) :
  p ∈ expandedPaths (ui s) ->
  (toggleExpand p w s).2 =
    with_ui (with_expandedPaths (expandedPaths (ui s) ∖ {[p]}) (ui s)) s.
Proof.
  intros Hin. unfold toggleExpand. run.
  rewrite (bool_decide_true _ Hin). reflexivity.
Qed.



(** X8. Preloading the root entry of the tree is invisible outside the
    tree cache: in every world it completes without throwing and leaves
    the listing, the error, [loading] and the expanded set as they were;
    when the token or the request fails the cache is unchanged too and the
    failure is only a console warning. *)
Theorem preloadRoot_only_touches_cache (w : World) (s : Run) :
  let result := preloadRoot w s in
  let s' := result.2 in
  result.1 = Normal tt /\
  files (ui s') = files (ui s) /\
  folders (ui s') = folders (ui s) /\
  currentPath (ui s') = currentPath (ui s) /\
  error (ui s') = error (ui s) /\
  loading (ui s') = loading (ui s) /\
  expandedPaths (ui s') = expandedPaths (ui s) /\
  ((forall token, acquireTokenSilent w (ntok s) = Some token ->
      axios w (nreq s) (GET_files token None) = None) ->
   treeCache (ui s') = treeCache (ui s) /\
   exists before, log s' = (before ++ [ConsoleWarn "Failed to preload root tree:"])%list).
Proof.
  intros result s'. subst result s'. unfold preloadRoot. run.
  destruct (acquireTokenSilent w (ntok s)) as [token|] eqn:Htok; cbn.
  - destruct (axios w (nreq s) (GET_files token None)) as [resp|] eqn:Hax; cbn.
    + do 7 (split; [reflexivity|]).
      intros Hfail. specialize (Hfail token eq_refl). congruence.
    + do 7 (split; [reflexivity|]).
      intros _. split; [reflexivity|]. eexists. reflexivity.
  - do 7 (split; [reflexivity|]).
    intros _. split; [reflexivity|]. eexists. reflexivity.
Qed.

(** ** Creating a folder *)

(** X9. When the create request fails nothing is inserted: the handler
    ends with 'Failed to create folder.' and [loading] reset, the listing,
    the tree cache, the expanded set and the dialog (still open, with the
    name typed) are as before, and no listing request follows. *)
Theorem createFolder_failure_inserts_nothing
    (w : World) (s : Run) (token : string) :
  blank (newFolderName (ui s)) = false ->
  acquireTokenSilent w (ntok s) = Some token ->
  let folderPath :=
    if String.eqb (currentPath (ui s)) "/" then newFolderName (ui s)
    else currentPath (ui s) ++ "/" ++ newFolderName (ui s) in
  axios w (nreq s) (POST_folders_create token folderPath) = None ->
  let result := handleCreateFolder w s in
  result.1 = Normal tt /\
  ui result.2 =
    with_loading false (with_error (Some "Failed to create folder.") (ui s)) /\
  sent (log result.2) = (sent (log s) ++ [POST_folders_create token folderPath])%list.
Proof.
  intros Hname Htok folderPath Hcreate result. subst result.
  unfold handleCreateFolder. run. rewrite Hname. cbn. rewrite Htok. cbn.
  fold folderPath. rewrite Hcreate. cbn.
  split; [reflexivity|]. split; [reflexivity|].
  rewrite !sent_app. cbn. rewrite ?app_nil_r. reflexivity.
Qed.

Lemma insert_once (new : Folder.t) (l : list Folder.t) :
  let same (f : Folder.t) := String.eqb (Folder.path f) (Folder.path new) in
  let l' := if existsb same l then l else (l ++ [new])%list in
  In (Folder.path new) (map Folder.path l') /\
  (List.NoDup (map Folder.path l) -> List.NoDup (map Folder.path l')).
Proof.
  intros same l'. subst l'.
  destruct (existsb same l) eqn:Hex.
  - split; [|tauto].
    apply existsb_exists in Hex as (f & Hin & Hf).
    apply String.eqb_eq in Hf. rewrite <- Hf. apply in_map, Hin.
  - split.
    + rewrite map_app. apply in_or_app. right. left. reflexivity.
    + intros Hnd. rewrite map_app. cbn.
      apply NoDup_ListNoDup. apply NoDup_app. split; [apply NoDup_ListNoDup, Hnd|].
      split; [|apply NoDup_singleton].
      intros x Hx Hnew. apply list_elem_of_singleton in Hnew. subst x.
      apply list_elem_of_In in Hx. apply in_map_iff in Hx as (f & Hf & Hin).
      assert (existsb same l = true); [|congruence].
      apply existsb_exists. exists f. split; [exact Hin|].
      apply String.eqb_eq, Hf.
Qed.

Lemma cacheFolders_insert (cache : gmap string (list Folder.t)) (k : string)
    (v : list Folder.t) :
  cacheFolders (<[k := v]> cache) k = v.
Proof. unfold cacheFolders. rewrite lookup_insert_eq. reflexivity. Qed.

(** X10. The optimistic insertion never duplicates: once the folder is
    created, as long as the refresh that follows does not replace the
    listing and the sidebar with the new entry can be rendered, the new
    folder is in the listing and in the cache entry of the current path,
    the current path is expanded, the dialog is closed with its name field
    cleared, and paths that were unique in the listing and in the cache
    entry are still unique. *)
Theorem createFolder_optimistic_entry_is_unique
    (w : World) (s : Run) (token : string) (resp : Resp.t) :
  blank (newFolderName (ui s)) = false ->
  acquireTokenSilent w (ntok s) = Some token ->
  let cp := currentPath (ui s) in
  let folderPath :=
    if String.eqb cp "/" then newFolderName (ui s)
    else cp ++ "/" ++ newFolderName (ui s) in
  axios w (nreq s) (POST_folders_create token folderPath) = Some resp ->
  axios w (S (nreq s)) (GET_files cp None) = None ->
  let s' := (handleCreateFolder w s).2 in
  renders (ui s') ->
  In folderPath (map Folder.path (folders (ui s'))) /\
  In folderPath (map Folder.path (cacheFolders (treeCache (ui s')) cp)) /\
  (List.NoDup (map Folder.path (folders (ui s))) ->
   List.NoDup (map Folder.path (folders (ui s')))) /\
  (List.NoDup (map Folder.path (cacheFolders (treeCache (ui s)) cp)) ->
   List.NoDup (map Folder.path (cacheFolders (treeCache (ui s')) cp))) /\
  (forall q, q <> cp -> treeCache (ui s') !! q = treeCache (ui s) !! q) /\
  cp ∈ expandedPaths (ui s') /\
  newFolderName (ui s') = "" /\
  showCreateFolder (ui s') = false.
Proof.
  intros Hname Htok cp folderPath Hcreate Hrefresh s' _. subst s'.
  unfold handleCreateFolder, fetchFiles, fetchFiles_begin, fetchFiles_resume.
  run. rewrite Hname. cbn. rewrite Htok. cbn. fold cp. fold folderPath.
  rewrite Hcreate. cbn. rewrite Hrefresh. cbn.
  set (new := Folder.mk (newFolderName (ui s)) folderPath (Some "folder") 0).
  pose proof (insert_once new (folders (ui s))) as [Hin Hnd].
  pose proof (insert_once new (cacheFolders (treeCache (ui s)) cp)) as [Hin' Hnd'].
  cbn [Folder.path new] in Hin, Hnd, Hin', Hnd'.
  rewrite !cacheFolders_insert.
  split; [exact Hin|]. split; [exact Hin'|]. split; [exact Hnd|].
  split; [exact Hnd'|].
  split; [intros q Hq; apply lookup_insert_ne; congruence|].
  split; [apply elem_of_union_r, elem_of_singleton; reflexivity|].
  split; reflexivity.
Qed.

(** The guards on names follow [trim]: white space outside ASCII is white
    space too, a zero-width space is not. *)
Example blank_follows_trim :
  blank (" " ++ Scenario.noBreakSpace ++ Scenario.lineSeparator
           ++ Scenario.byteOrderMark) = true /\
  blank Scenario.noBreakSpace = true /\
  blank Scenario.zeroWidthSpace = false /\
  blank " a " = false.
Proof. vm_compute. repeat split. Qed.

Example createFolder_refuses_no_break_space :
  let s := freshRun (with_newFolderName Scenario.noBreakSpace initialState) in
  let s' := (handleCreateFolder (Sample.world Sample.gateway) s).2 in
  sent (log s') = [] /\ error (ui s') = Some "Folder name cannot be empty.".
Proof. vm_compute. repeat split. Qed.

(** A root without cached children is all there is to render. *)
Lemma bare_root_renders (st : State) :
  cacheFolders (treeCache st) "/" = [] -> renders st.
Proof.
  intros Hcache. exists O. intros d _. destruct d as [|d]; [reflexivity|].
  unfold sidebarTree. cbn [TreeNode]. rewrite Hcache. cbn.
  rewrite andb_false_r. reflexivity.
Qed.

(** A state in which the expanded root is its own child in the cache. *)
Lemma self_child_unfolds (st : State) (d : nat) :
  bool_decide ("/" ∈ expandedPaths st) = true ->
  cacheFolders (treeCache st) "/" = [Folder.mk "/" "/" (Some "folder") 0] ->
  sidebarTree (S d) st = TreeNodeView "/" "/" true [sidebarTree d st].
Proof.
  intros Hexpanded Hcache. unfold sidebarTree. cbn [TreeNode].
  rewrite Hexpanded, Hcache. cbn. rewrite Hexpanded, Hcache. reflexivity.
Qed.

Lemma self_child_does_not_render (st : State) :
  bool_decide ("/" ∈ expandedPaths st) = true ->
  cacheFolders (treeCache st) "/" = [Folder.mk "/" "/" (Some "folder") 0] ->
  ~ renders st.
Proof.
  intros Hexpanded Hcache [depth Hdepth].
  assert (Hgrows : forall d, sidebarTree (S d) st <> sidebarTree d st).
  { induction d as [|d IH].
    - rewrite self_child_unfolds by assumption.
      unfold sidebarTree. cbn [TreeNode]. discriminate.
    - rewrite (self_child_unfolds st (S d)), (self_child_unfolds st d) by assumption.
      intros H. injection H as H. apply IH.
      rewrite self_child_unfolds by assumption. exact H. }
  apply (Hgrows depth). apply Hdepth. lia.
Qed.

(** A folder named with a slash at the root becomes its own child in the
    cache, and the sidebar of that state cannot be rendered. *)
Example slash_at_root_does_not_render :
  ~ renders (ui (handleCreateFolder (Sample.world Sample.gateway) Scenario.slashAtRoot).2).
Proof.
  apply self_child_does_not_render; vm_compute; reflexivity.
Qed.

(** ** Polling until the blob is visible *)



(** ** Initialization *)

(** X12. A user whose groups claim contains at least one of the three
    configured identifiers gets the listing: the root listing is requested
    once, with the token that was decoded, no error is shown, and the
    request is left in flight with [loading] set. *)
Theorem any_role_fetches_listing
    (w : World) (s : Run) (token : string) (members : list (string * json))
    (items : list json) (id : string) :
  acquireTokenSilent w (ntok s) = Some token ->
  decodeToken w token = Normal (JObj members) ->
  member "groups" members = Some (JArr items) ->
  In (JStr id) items ->
  (READER_GROUP_ID w = Some id \/ UPLOADER_GROUP_ID w = Some id \/
   ADMIN_GROUP_ID w = Some id) ->
  let s' := (initializeComponent w s).2 in
  sent (log s') = (sent (log s) ++ [GET_files token None])%list /\
  pending s' = (pending s ++ [FetchFilesPending token (nreq s) (GET_files token None)])%list /\
  error (ui s') = None /\
  loading (ui s') = true.
Proof.
  intros Htok Hdec Hgroups Hin Hid s'.
  assert (Hg : decoded_groups (JObj members) = Normal (JArr items)).
  { unfold decoded_groups. rewrite Hgroups. reflexivity. }
  destruct (includes_array items (READER_GROUP_ID w)) as [r [Hr Hr']].
  destruct (includes_array items (UPLOADER_GROUP_ID w)) as [u [Hu Hu']].
  destruct (includes_array items (ADMIN_GROUP_ID w)) as [a [Ha Ha']].
  assert (Hany : r || u || a = true).
  { destruct Hid as [Hid | [Hid | Hid]].
    - replace r with true; [reflexivity|]. symmetry. apply Hr'. eauto.
    - replace u with true; [apply orb_true_iff; left; apply orb_true_r|].
      symmetry. apply Hu'. eauto.
    - replace a with true; [apply orb_true_r|]. symmetry. apply Ha'. eauto. }
  subst s'. unfold initializeComponent. run.
  rewrite Htok. cbn. rewrite Hdec. cbn. rewrite Hg. cbn.
  rewrite Hr, Hu, Ha. cbn. rewrite Hany.
  rewrite fetchFiles_detached_run. cbn. fields.
  rewrite sent_app. repeat split; reflexivity.
Qed.

(** X13. Initialization fails closed: when the token provider fails, when
    the payload is [null], or when the groups claim is a number other
    than zero, [true] or an object (a value without [includes]), the user
    is told to log in again, the roles stay as they were and nothing is
    sent. *)
Theorem initialization_fails_closed (w : World) (s : Run) :
  (acquireTokenSilent w (ntok s) = None \/
   exists token,
     acquireTokenSilent w (ntok s) = Some token /\
     (decodeToken w token = Normal JNull \/
      exists members v,
        decodeToken w token = Normal (JObj members) /\
        member "groups" members = Some v /\
        ((exists m e, v = JNum m e /\ number_is_zero m e = false) \/
         v = JBool true \/ exists ms, v = JObj ms))) ->
  let result := initializeComponent w s in
  result.1 = Normal tt /\
  error (ui result.2) = Some "Failed to initialize. Please log in again." /\
  userRoles (ui result.2) = userRoles (ui s) /\
  sent (log result.2) = sent (log s) /\
  pending result.2 = pending s.
Proof.
  intros Hbad result. subst result. unfold initializeComponent. run.
  destruct Hbad as [Htok | (token & Htok & Hpayload)]; rewrite Htok; cbn.
  - rewrite !sent_app; cbn; rewrite ?app_nil_r; repeat split; reflexivity.
  - destruct Hpayload as [Hdec | (members & v & Hdec & Hgroups & Hv)];
      rewrite Hdec; unfold decoded_groups, includes; cbn.
    + rewrite !sent_app; cbn; rewrite ?app_nil_r; repeat split; reflexivity.
    + rewrite Hgroups.
      destruct Hv as [(m & e & -> & Hz) | [-> | (ms & ->)]]; cbn;
        rewrite ?Hz; cbn;
        rewrite !sent_app; cbn; rewrite ?app_nil_r; repeat split; reflexivity.
Qed.

(** ** Every action *)

Lemma try_catch_total (body : M unit) (handler : exn -> M unit) (w : World) (s : Run) :
  (forall e s0, (handler e w s0).1 = Normal tt) ->
  (try_catch body handler w s).1 = Normal tt.
Proof.
  intros Hh. unfold try_catch.
  destruct (body w s) as [[[]|e] s0]; [reflexivity|apply Hh].
Qed.

Lemma try_finally_total (body fin : M unit) (w : World) (s : Run) :
  (forall s0, (body w s0).1 = Normal tt) ->
  (forall s0, (fin w s0).1 = Normal tt) ->
  (try_finally body fin w s).1 = Normal tt.
Proof.
  intros Hb Hf. unfold try_finally.
  specialize (Hb s). destruct (body w s) as [c s0]. cbn in Hb. subst c.
  specialize (Hf s0). destruct (fin w s0) as [[[]|e] s1]; [reflexivity|discriminate].
Qed.

Lemma perform_result (a : Action) (w : World) (s : Run) :
  (perform a w s).1 = Normal tt.
Proof.
  destruct a; cbn [perform].
  - apply try_catch_total. reflexivity.
  - apply try_catch_total. reflexivity.
  - apply try_catch_total. reflexivity.
  - apply try_catch_total. reflexivity.
  - unfold navigateUp, bind, render. cbn.
    destruct (String.eqb (currentPath (ui s)) "/"); [reflexivity|].
    apply try_catch_total. reflexivity.
  - apply toggleExpand_expandedPaths.
  - unfold handleUpload, bind, render. cbn.
    destruct (selectedFile (ui s)); [|reflexivity].
    apply try_finally_total; [|reflexivity].
    intros s0. apply try_catch_total. reflexivity.
  - unfold handleCreateFolder, bind, render. cbn.
    destruct (blank (newFolderName (ui s))); [reflexivity|].
    apply try_finally_total; [|reflexivity].
    intros s0. apply try_catch_total. reflexivity.
Qed.

(** X14. No handler lets an exception escape: whatever the token provider
    and the gateway do, no action of the component ends by throwing, so
    the promise of a handler is never rejected.  (Whether the render that
    follows an action ends is another matter, see [renders].) *)
Theorem handlers_catch_everything (a : Action) (w : World) (s : Run) (e : exn) :
  (perform a w s).1 <> Throw e.
Proof. rewrite perform_result. discriminate. Qed.

(** X15. No token, no traffic: when the token provider fails, no action
    sends a request. *)
Theorem no_token_no_request (a : Action) (w : World) (s : Run) :
  acquireTokenSilent w (ntok s) = None ->
  sent (log (perform a w s).2) = sent (log s).
Proof.
  intros Htok. destruct a; cbn [perform].
  - unfold initializeComponent. run. rewrite Htok. cbn.
    rewrite ?sent_app; cbn; rewrite ?app_nil_r; reflexivity.
  - unfold preloadRoot. run. rewrite Htok. cbn.
    rewrite ?sent_app; cbn; rewrite ?app_nil_r; reflexivity.
  - unfold navigateToPath. run. rewrite Htok. cbn.
    rewrite ?sent_app; cbn; rewrite ?app_nil_r; reflexivity.
  - unfold handleNavigateFolder. run. rewrite Htok. cbn.
    rewrite ?sent_app; cbn; rewrite ?app_nil_r; reflexivity.
  - unfold navigateUp, handleNavigateFolder. run.
    destruct (String.eqb (currentPath (ui s)) "/"); cbn; [reflexivity|].
    rewrite Htok. cbn. rewrite ?sent_app; cbn; rewrite ?app_nil_r; reflexivity.
  - unfold toggleExpand. run.
    destruct (bool_decide (path ∈ expandedPaths (ui s))); cbn; [reflexivity|].
    destruct (cacheHit (treeCache (ui s)) path); cbn; [reflexivity|].
    rewrite Htok. cbn. rewrite ?sent_app; cbn; rewrite ?app_nil_r; reflexivity.
  - unfold handleUpload. run.
    destruct (selectedFile (ui s)); cbn; [|reflexivity].
    rewrite Htok. cbn. rewrite ?sent_app; cbn; rewrite ?app_nil_r; reflexivity.
  - unfold handleCreateFolder. run.
    destruct (blank (newFolderName (ui s))); cbn; [reflexivity|].
    rewrite Htok. cbn. rewrite ?sent_app; cbn; rewrite ?app_nil_r; reflexivity.
Qed.


(** ** Navigating up *)





(** ** Invariants *)

(** What it takes for a property [I] of the machine state to be kept by
    the handlers: [I] may depend on the tree cache, the roles, the
    requests sent and the pending calls, and [okTok] says which bearers
    it accepts. *)
Section Invariants.

Variable I : World -> Run -> Prop.
Variable okTok : World -> string -> Prop.

Hypothesis I_frame : forall w s upd,
  (forall st, treeCache (upd st) = treeCache st) ->
  (forall st, userRoles (upd st) = userRoles st) ->
  I w s -> I w (with_ui (upd (ui s)) s).
Hypothesis I_cache : forall w s k v,
  I w s -> I w (with_ui (with_treeCache (<[k := v]> (treeCache (ui s))) (ui s)) s).
Hypothesis I_log : forall w s e,
  sent [e] = [] -> I w s -> I w (with_log (log s ++ [e]) s).
Hypothesis I_send : forall w s r,
  okTok w (bearerOf r) -> I w s ->
  I w (with_nreq (S (nreq s)) (with_log (log s ++ [Sent (nreq s) r]) s)).
Hypothesis I_ntok : forall w s, I w s -> I w (with_ntok (S (ntok s)) s).
Hypothesis I_attempts : forall w s a, I w s -> I w (with_attempts a s).
Hypothesis I_intervalActive : forall w s b, I w s -> I w (with_intervalActive b s).
Hypothesis I_defer : forall w s p,
  okTok w (tokenOf p) -> I w s -> I w (with_pending (pending s ++ [p]) s).
Hypothesis I_clear : forall w s, I w s -> I w (with_pending [] s).
Hypothesis I_pending : forall w s p, I w s -> In p (pending s) -> okTok w (tokenOf p).
Hypothesis okTok_acquired : forall w k token,
  acquireTokenSilent w k = Some token -> okTok w token.

Lemma m_ret {A} (w : World) (a : A) : maintains I w (ret a).
Proof. intros s Hs. exact Hs. Qed.

Lemma m_throw {A} (w : World) (e : exn) : maintains I w (@throw A e).
Proof. intros s Hs. exact Hs. Qed.

Lemma m_lift {A} (w : World) (c : completion A) : maintains I w (lift c).
Proof. intros s Hs. exact Hs. Qed.

Lemma m_bind {A B} (w : World) (m : M A) (k : A -> M B) :
  maintains I w m -> (forall a, maintains I w (k a)) -> maintains I w (bind m k).
Proof.
  intros Hm Hk s Hs. unfold bind. specialize (Hm s Hs).
  destruct (m w s) as [[a|e] s1]; cbn in *; [apply Hk, Hm|exact Hm].
Qed.

Lemma m_try_catch {A} (w : World) (body : M A) (handler : exn -> M A) :
  maintains I w body -> (forall e, maintains I w (handler e)) ->
  maintains I w (try_catch body handler).
Proof.
  intros Hb Hh s Hs. unfold try_catch. specialize (Hb s Hs).
  destruct (body w s) as [[a|e] s1]; cbn in *; [exact Hb|apply Hh, Hb].
Qed.

Lemma m_try_finally {A} (w : World) (body : M A) (fin : M unit) :
  maintains I w body -> maintains I w fin -> maintains I w (try_finally body fin).
Proof.
  intros Hb Hf s Hs. unfold try_finally. specialize (Hb s Hs).
  destruct (body w s) as [c s1]. cbn in Hb. specialize (Hf s1 Hb).
  destruct (fin w s1) as [[u|e] s2]; exact Hf.
Qed.

Lemma m_world (w : World) : maintains I w world.
Proof. intros s Hs. exact Hs. Qed.

Lemma m_get (w : World) : maintains I w get.
Proof. intros s Hs. exact Hs. Qed.

Lemma m_render (w : World) : maintains I w render.
Proof. intros s Hs. exact Hs. Qed.

Lemma m_emit (w : World) (e : Event) : sent [e] = [] -> maintains I w (emit e).
Proof. intros He s Hs. apply I_log; assumption. Qed.

Lemma m_defer (w : World) (p : Pending) :
  okTok w (tokenOf p) -> maintains I w (defer p).
Proof. intros Hp s Hs. apply I_defer; assumption. Qed.

Lemma m_setState (w : World) (upd : State -> State) :
  (forall st, treeCache (upd st) = treeCache st) ->
  (forall st, userRoles (upd st) = userRoles st) ->
  maintains I w (setState upd).
Proof. intros H1 H2 s Hs. apply I_frame; assumption. Qed.

Lemma m_cache (w : World) (key : State -> string) (value : State -> list Folder.t) :
  maintains I w
    (setState (fun st => with_treeCache (<[key st := value st]> (treeCache st)) st)).
Proof. intros s Hs. apply I_cache, Hs. Qed.

Lemma m_setAttempts (w : World) (a : Z) : maintains I w (setAttempts a).
Proof. intros s Hs. apply I_attempts, Hs. Qed.

Lemma m_setIntervalActive (w : World) (b : bool) : maintains I w (setIntervalActive b).
Proof. intros s Hs. apply I_intervalActive, Hs. Qed.

Lemma m_axios_send (w : World) (r : Request) :
  okTok w (bearerOf r) -> maintains I w (axios_send r).
Proof. intros Hr s Hs. apply I_send; assumption. Qed.

Lemma m_axios_settle (w : World) (n : nat) (r : Request) :
  maintains I w (axios_settle n r).
Proof.
  intros s Hs. unfold axios_settle.
  destruct (axios w n r); cbn; apply I_log; auto.
Qed.

Lemma m_bind_token {B} (w : World) (k : string -> M B) :
  (forall token, okTok w token -> maintains I w (k token)) ->
  maintains I w (bind getAccessToken k).
Proof.
  intros Hk s Hs. unfold bind, getAccessToken, emit, modify, throw.
  destruct (acquireTokenSilent w (ntok s)) as [token|] eqn:Htok; cbn.
  - apply (Hk token); [exact (okTok_acquired _ _ _ Htok)|]. apply I_ntok, Hs.
  - apply (I_log w (with_ntok (S (ntok s)) s)); [reflexivity|]. apply I_ntok, Hs.
Qed.

(** Takes a handler apart along its control structure. *)
Ltac keep :=
  repeat first
    [ progress cbv zeta
    | apply m_ret | apply m_throw | apply m_lift | apply m_world | apply m_get
    | apply m_render | apply m_setAttempts | apply m_setIntervalActive
    | apply m_axios_settle
    | apply m_emit; reflexivity
    | apply m_setState; intros ?; reflexivity
    | apply m_cache
    | apply m_axios_send; cbn [bearerOf]; assumption
    | apply m_defer; cbn [tokenOf]; assumption
    | match goal with
      | |- maintains _ _ (bind getAccessToken _) => apply m_bind_token; intros ? ?
      | |- maintains _ _ (bind _ _) => apply m_bind; [|intros ?]
      | |- maintains _ _ (try_catch _ _) => apply m_try_catch; [|intros ?]
      | |- maintains _ _ (try_finally _ _) => apply m_try_finally
      | |- maintains _ _ (if ?b then _ else _) => destruct b
      | |- maintains _ _ (match ?x with _ => _ end) => destruct x
      end ].

Lemma m_fetchFiles_begin (w : World) (token folderPath : string) :
  okTok w token -> maintains I w (fetchFiles_begin token folderPath).
Proof.
  intros Htok. unfold fetchFiles_begin, setLoading, setError. keep.
Qed.

Lemma m_fetchFiles_resume (w : World) (token : string) (p : nat * Request) :
  okTok w token -> maintains I w (fetchFiles_resume token p).
Proof.
  intros Htok.
  unfold fetchFiles_resume, setCurrentPath, setFiles, setFolders, updTreeCache,
    updExpandedPaths, setError, setLoading, axios_await.
  keep.
Qed.

Lemma m_fetchFiles (w : World) (token folderPath : string) :
  okTok w token -> maintains I w (fetchFiles token folderPath).
Proof.
  intros Htok. unfold fetchFiles.
  apply m_bind; [apply m_fetchFiles_begin, Htok|].
  intros p. apply m_fetchFiles_resume, Htok.
Qed.

Lemma m_fetchFiles_detached (w : World) (token folderPath : string) :
  okTok w token -> maintains I w (fetchFiles_detached token folderPath).
Proof.
  intros Htok. unfold fetchFiles_detached.
  apply m_bind; [apply m_fetchFiles_begin, Htok|].
  intros p. apply m_defer. exact Htok.
Qed.

Lemma m_initializeComponent (w : World) :
  (forall s v, I w s -> I w (with_ui (with_userRoles v (ui s)) s)) ->
  maintains I w initializeComponent.
Proof.
  intros Hroles. unfold initializeComponent, setError.
  repeat first
    [ apply m_fetchFiles_detached; assumption
    | (intros s Hs; apply Hroles, Hs)
    | progress keep ].
Qed.

Lemma m_preloadRoot (w : World) : maintains I w preloadRoot.
Proof. unfold preloadRoot, axios_await, updTreeCache. keep. Qed.

Lemma m_navigateToPath (w : World) (path : string) :
  maintains I w (navigateToPath path).
Proof.
  unfold navigateToPath, setError.
  repeat first [apply m_fetchFiles; assumption | progress keep].
Qed.

Lemma m_handleNavigateFolder (w : World) (folderPath : string) :
  maintains I w (handleNavigateFolder folderPath).
Proof.
  unfold handleNavigateFolder, setError.
  repeat first [apply m_fetchFiles_detached; assumption | progress keep].
Qed.

Lemma m_navigateUp (w : World) : maintains I w navigateUp.
Proof.
  unfold navigateUp.
  repeat first [apply m_handleNavigateFolder | progress keep].
Qed.

Lemma m_toggleExpand (w : World) (path : string) :
  maintains I w (toggleExpand path).
Proof.
  unfold toggleExpand, setExpandedPaths, axios_await, updTreeCache. keep.
Qed.

Lemma m_uploadChunks (w : World) (r : State) (file : File.t) (token : string)
    (total : Z) (fuel : nat) :
  okTok w token ->
  forall i, maintains I w (uploadChunks fuel r file token total i).
Proof.
  intros Htok. induction fuel as [|fuel IH]; intros i.
  - apply m_ret.
  - unfold uploadChunks; fold uploadChunks.
    unfold axios_await, setUploadProgress, chunkRequest.
    repeat first [apply IH | progress keep].
Qed.

Lemma m_handleUpload (w : World) : maintains I w handleUpload.
Proof.
  unfold handleUpload, handleChunkedUpload, setInterval, axios_await,
    setUploadProgress, setSelectedFile, setError, setLoading,
    commitRequest, uploadRequest.
  repeat first
    [ apply m_uploadChunks; assumption
    | apply m_fetchFiles_detached; assumption
    | progress keep ].
Qed.

Lemma m_handleCreateFolder (w : World) :
  (forall token, okTok w token) -> maintains I w handleCreateFolder.
Proof.
  intros Hany.
  unfold handleCreateFolder, axios_await, updFolders, updTreeCache,
    updExpandedPaths, setNewFolderName, setShowCreateFolder, setError, setLoading.
  repeat first
    [ apply m_fetchFiles; apply Hany
    | apply (m_cache w (fun _ => _) (fun st => _))
    | progress keep ].
Qed.

Lemma m_forEach {A} (w : World) (f : A -> M unit) (l : list A) :
  (forall x, In x l -> maintains I w (f x)) -> maintains I w (forEach f l).
Proof.
  induction l as [|x l IH]; intros Hl; [apply m_ret|].
  cbn [forEach]. apply m_bind.
  - apply Hl. left. reflexivity.
  - intros _. apply IH. intros y Hy. apply Hl. right. exact Hy.
Qed.

Lemma m_poll_begin (w : World) (token startedPath : string) :
  okTok w token -> maintains I w (poll_begin token startedPath).
Proof. intros Htok. unfold poll_begin. keep. Qed.

Lemma m_poll_resume (w : World) (token closurePath : string) (p : nat * Request) :
  okTok w token -> maintains I w (poll_resume token closurePath p).
Proof.
  intros Htok. unfold poll_resume, clearInterval.
  repeat first [apply m_fetchFiles_detached; assumption | progress keep].
Qed.

Lemma m_runInterval (w : World) (token startedPath closurePath : string)
    (fuel : nat) :
  okTok w token ->
  forall tick inflight,
    maintains I w (runInterval fuel token startedPath closurePath tick inflight).
Proof.
  intros Htok. induction fuel as [|fuel IH]; intros tick inflight.
  - apply m_ret.
  - cbn [runInterval].
    repeat first
      [ apply IH
      | apply m_poll_begin; assumption
      | (apply m_forEach; intros ? _; apply m_poll_resume; assumption)
      | progress keep ].
Qed.

Lemma m_resume (w : World) (p : Pending) (fuel : nat) :
  okTok w (tokenOf p) -> maintains I w (resume p fuel).
Proof.
  intros Hp. destruct p; cbn [resume tokenOf] in *.
  - apply m_fetchFiles_resume, Hp.
  - apply m_bind; [apply m_runInterval, Hp|]. intros _. apply m_ret.
Qed.

Lemma m_drain (w : World) (fuel : nat) : maintains I w (drain fuel).
Proof.
  intros s Hs. unfold drain, bind, get, modify. cbn.
  apply m_forEach; [|apply I_clear, Hs].
  intros p Hp. apply m_resume. exact (I_pending w s p Hs Hp).
Qed.

Lemma m_settle (w : World) (fuel : nat) : maintains I w (settle fuel).
Proof.
  unfold settle. apply m_bind; [apply m_drain|]. intros _. apply m_drain.
Qed.

Lemma m_perform (w : World) (a : Action) :
  (isMount a = true ->
   forall s v, I w s -> I w (with_ui (with_userRoles v (ui s)) s)) ->
  (isCreateFolder a = true -> forall token, okTok w token) ->
  maintains I w (perform a).
Proof.
  intros Hmount Hcreate. destruct a; cbn [perform].
  - apply m_initializeComponent, Hmount. reflexivity.
  - apply m_preloadRoot.
  - apply m_navigateToPath.
  - apply m_handleNavigateFolder.
  - apply m_navigateUp.
  - apply m_toggleExpand.
  - apply m_handleUpload.
  - apply m_handleCreateFolder, Hcreate. reflexivity.
Qed.

Lemma m_session (w : World) (fuel : nat) (l : list Action) :
  (forall a, In a l -> isMount a = true ->
   forall s v, I w s -> I w (with_ui (with_userRoles v (ui s)) s)) ->
  (forall a, In a l -> isCreateFolder a = true -> forall token, okTok w token) ->
  forall s, I w s -> I w (session fuel l w s).
Proof.
  induction l as [|a l IH]; intros Hmount Hcreate s Hs; [exact Hs|].
  cbn [session]. apply IH.
  - intros b Hb. apply Hmount. right. exact Hb.
  - intros b Hb. apply Hcreate. right. exact Hb.
  - apply m_settle. apply m_perform; [| |exact Hs].
    + apply Hmount. left. reflexivity.
    + apply Hcreate. left. reflexivity.
Qed.

(** The same for the item handlers. *)

Lemma m_getAccessToken (w : World) (s : Run) :
  I w s ->
  match getAccessToken w s with
  | (Normal token, s') => okTok w token /\ I w s'
  | (Throw _, s') => I w s'
  end.
Proof.
  intros Hs. unfold getAccessToken, bind, emit, modify, throw.
  destruct (acquireTokenSilent w (ntok s)) as [token|] eqn:Htok; cbn.
  - split; [exact (okTok_acquired _ _ _ Htok)|apply I_ntok, Hs].
  - apply (I_log w (with_ntok (S (ntok s)) s)); [reflexivity|]. apply I_ntok, Hs.
Qed.

Lemma h_liftM {A} (d : Items.Desk) (m : M A) :
  maintains I (Items.base d) m -> Items.maintains I okTok d (Items.liftM m).
Proof.
  intros Hm b [Hb Hc]. unfold Items.liftM. specialize (Hm _ Hb).
  destruct (m (Items.base d) (Items.run b)) as [[a|e] r]; cbn in *;
    split; assumption.
Qed.

Lemma h_ret {A} (d : Items.Desk) (a : A) : Items.maintains I okTok d (Items.ret a).
Proof. intros b Hb. exact Hb. Qed.

Lemma h_throw {A} (d : Items.Desk) (f : Items.Failure) :
  Items.maintains I okTok d (@Items.throw A f).
Proof. intros b Hb. exact Hb. Qed.

Lemma h_lift {A} (d : Items.Desk) (c : Items.outcome A) :
  Items.maintains I okTok d (Items.lift c).
Proof. intros b Hb. exact Hb. Qed.

Lemma h_desk (d : Items.Desk) : Items.maintains I okTok d Items.desk.
Proof. intros b Hb. exact Hb. Qed.

Lemma h_dialog (d : Items.Desk) : Items.maintains I okTok d Items.dialog.
Proof. intros b Hb. exact Hb. Qed.

Lemma h_setDialogs (d : Items.Desk) (upd : Items.Dialogs -> Items.Dialogs) :
  Items.maintains I okTok d (Items.setDialogs upd).
Proof. intros b Hb. exact Hb. Qed.

Lemma h_click (d : Items.Desk) (l : Items.Link) :
  Items.maintains I okTok d (Items.click l).
Proof. intros b Hb. exact Hb. Qed.

Lemma h_call (d : Items.Desk) (c : Items.Call) :
  okTok (Items.base d) (Items.bearerOf c) -> Items.maintains I okTok d (Items.call c).
Proof.
  intros Hc b [Hb Hcalls]. unfold Items.call.
  destruct (Items.gateway d (length (Items.calls b)) c); cbn;
    (split; [exact Hb|]); intros c'; cbn; rewrite in_app_iff;
    (intros [Hin|[<-|[]]]; [apply Hcalls, Hin|exact Hc]).
Qed.

Lemma h_bind {A B} (d : Items.Desk) (m : Items.H A) (k : A -> Items.H B) :
  Items.maintains I okTok d m -> (forall a, Items.maintains I okTok d (k a)) ->
  Items.maintains I okTok d (Items.bind m k).
Proof.
  intros Hm Hk b Hb. unfold Items.bind. specialize (Hm b Hb).
  destruct (m d b) as [[a|f] b1]; cbn in *; [apply Hk, Hm|exact Hm].
Qed.

Lemma h_bind_token {B} (d : Items.Desk) (k : string -> Items.H B) :
  (forall token, okTok (Items.base d) token -> Items.maintains I okTok d (k token)) ->
  Items.maintains I okTok d (Items.bind (Items.liftM getAccessToken) k).
Proof.
  intros Hk b [Hb Hcalls]. unfold Items.bind, Items.liftM.
  pose proof (m_getAccessToken (Items.base d) (Items.run b) Hb) as Hget.
  destruct (getAccessToken (Items.base d) (Items.run b)) as [[token|e] r]; cbn.
  - destruct Hget as [Htok Hr]. apply (Hk token Htok). split; assumption.
  - split; assumption.
Qed.

Lemma h_try_catch {A} (d : Items.Desk) (body : Items.H A)
    (handler : Items.Failure -> Items.H A) :
  Items.maintains I okTok d body ->
  (forall f, Items.maintains I okTok d (handler f)) ->
  Items.maintains I okTok d (Items.try_catch body handler).
Proof.
  intros Hb Hh b Hk. unfold Items.try_catch. specialize (Hb b Hk).
  destruct (body d b) as [[a|f] b1]; cbn in *; [exact Hb|apply Hh, Hb].
Qed.

Lemma h_try_finally {A} (d : Items.Desk) (body : Items.H A) (fin : Items.H unit) :
  Items.maintains I okTok d body -> Items.maintains I okTok d fin ->
  Items.maintains I okTok d (Items.try_finally body fin).
Proof.
  intros Hb Hf b Hk. unfold Items.try_finally. specialize (Hb b Hk).
  destruct (body d b) as [c b1]. cbn in Hb. specialize (Hf b1 Hb).
  destruct (fin d b1) as [[u|f] b2]; exact Hf.
Qed.

Ltac ikeep :=
  repeat first
    [ progress cbv zeta
    | apply h_ret | apply h_throw | apply h_lift | apply h_desk | apply h_dialog
    | apply h_setDialogs | apply h_click
    | apply h_call; cbn [Items.bearerOf]; assumption
    | match goal with
      | |- Items.maintains _ _ _ (Items.bind (Items.liftM getAccessToken) _) =>
          apply h_bind_token; intros ? ?
      | |- Items.maintains _ _ _ (Items.liftM (fetchFiles_detached _ _)) =>
          apply h_liftM, m_fetchFiles_detached; assumption
      | |- Items.maintains _ _ _ (Items.liftM _) =>
          apply h_liftM; unfold setLoading, setError; keep
      | |- Items.maintains _ _ _ (Items.bind _ _) => apply h_bind; [|intros ?]
      | |- Items.maintains _ _ _ (Items.try_catch _ _) => apply h_try_catch; [|intros ?]
      | |- Items.maintains _ _ _ (Items.try_finally _ _) => apply h_try_finally
      | |- Items.maintains _ _ _ (if ?c then _ else _) => destruct c
      end ].

Lemma h_handleDownload (d : Items.Desk) (filename : string) :
  Items.maintains I okTok d (Items.handleDownload filename).
Proof. unfold Items.handleDownload. ikeep. Qed.

Lemma h_handleDelete (d : Items.Desk) (filename : string) :
  Items.maintains I okTok d (Items.handleDelete filename).
Proof. unfold Items.handleDelete. ikeep. Qed.

Lemma h_handleDeleteFolder (d : Items.Desk) (folderPath : string) :
  Items.maintains I okTok d (Items.handleDeleteFolder folderPath).
Proof. unfold Items.handleDeleteFolder. ikeep. Qed.

Lemma h_handleRenameItem (d : Items.Desk) :
  Items.maintains I okTok d Items.handleRenameItem.
Proof.
  unfold Items.handleRenameItem, Items.setShowRenameDialog,
    Items.setRenameTarget, Items.setRenameName.
  ikeep.
Qed.

Lemma h_handleMoveFile (d : Items.Desk) :
  Items.maintains I okTok d Items.handleMoveFile.
Proof.
  unfold Items.handleMoveFile, Items.setShowMoveDialog,
    Items.setMoveTarget, Items.setMoveDestination.
  ikeep.
Qed.

Lemma h_perform (d : Items.Desk) (g : Items.Gesture) :
  (Items.usesMount g = true ->
   forall s v, I (Items.base d) s ->
               I (Items.base d) (with_ui (with_userRoles v (ui s)) s)) ->
  (Items.usesCreateFolder g = true -> forall token, okTok (Items.base d) token) ->
  Items.maintains I okTok d (Items.perform g).
Proof.
  intros Hmount Hcreate. destruct g; cbn [Items.perform].
  - apply h_liftM, m_perform; assumption.
  - apply h_handleDownload.
  - apply h_handleDelete.
  - apply h_handleDeleteFolder.
  - unfold Items.onRenameClick, Items.setShowRenameDialog,
      Items.setRenameTarget, Items.setRenameName. ikeep.
  - apply h_setDialogs.
  - apply h_handleRenameItem.
  - unfold Items.onRenameCancel, Items.setShowRenameDialog,
      Items.setRenameTarget, Items.setRenameName. ikeep.
  - unfold Items.onMoveClick, Items.setShowMoveDialog,
      Items.setMoveTarget, Items.setMoveDestination. ikeep.
  - apply h_setDialogs.
  - apply h_handleMoveFile.
  - unfold Items.onMoveCancel, Items.setShowMoveDialog,
      Items.setMoveTarget, Items.setMoveDestination. ikeep.
Qed.

Lemma h_session (d : Items.Desk) (fuel : nat) (l : list Items.Gesture) :
  (forall g, In g l -> Items.usesMount g = true ->
   forall s v, I (Items.base d) s ->
               I (Items.base d) (with_ui (with_userRoles v (ui s)) s)) ->
  (forall g, In g l -> Items.usesCreateFolder g = true ->
   forall token, okTok (Items.base d) token) ->
  forall b, Items.kept I okTok d b -> Items.kept I okTok d (Items.session fuel l d b).
Proof.
  induction l as [|g l IH]; intros Hmount Hcreate b Hb; [exact Hb|].
  cbn [Items.session]. apply IH.
  - intros g' Hg'. apply Hmount. right. exact Hg'.
  - intros g' Hg'. apply Hcreate. right. exact Hg'.
  - apply h_liftM; [apply m_settle|]. apply h_perform; [| |exact Hb].
    + apply Hmount. left. reflexivity.
    + apply Hcreate. left. reflexivity.
Qed.

End Invariants.



(** X19. Apart from folder creation, every request goes out with a bearer
    that the token provider handed out: in a session without folder
    creation that starts with such requests only, every request sent,
    also by a listing call or a polling timer that runs later, carries
    such a token. *)
Theorem requests_carry_issued_tokens (w : World) (fuel : nat) (l : list Action)
    (s : Run) :
  Forall (fun a => isCreateFolder a = false) l ->
  (forall r, In r (sent (log s)) -> handedOut w (bearerOf r)) ->
  (forall p, In p (pending s) -> handedOut w (tokenOf p)) ->
  forall r, In r (sent (log (session fuel l w s))) -> handedOut w (bearerOf r).
Proof.
  intros Hl Hsent Hpend.
  apply (m_session
           (fun w s => (forall r, In r (sent (log s)) -> handedOut w (bearerOf r)) /\
                       (forall p, In p (pending s) -> handedOut w (tokenOf p)))
           handedOut); try (intros; assumption).
  - intros w0 s0 e He [H1 H2]. split; [|exact H2].
    intros r. cbn. rewrite sent_app, He, app_nil_r. apply H1.
  - intros w0 s0 r Hr [H1 H2]. split; [|exact H2].
    intros r'. cbn. rewrite sent_app. cbn. rewrite in_app_iff.
    intros [Hin|[<-|[]]]; [apply H1, Hin|exact Hr].
  - intros w0 s0 p Hp [H1 H2]. split; [exact H1|].
    intros q. cbn. rewrite in_app_iff.
    intros [Hin|[<-|[]]]; [apply H2, Hin|exact Hp].
  - intros w0 s0 [H1 H2]. split; [exact H1|]. intros p [].
  - intros w0 s0 p [_ H2]. apply H2.
  - intros w0 k token Hk. exists k. exact Hk.
  - intros a Ha Hc. rewrite Forall_forall in Hl. rewrite (Hl a) in Hc.
    + discriminate.
    + apply list_elem_of_In. exact Ha.
  - split; assumption.
Qed.

(** ** Item operations *)

Lemma Bench_eta (b : Items.Bench) :
  Items.mkBench (Items.run b) (Items.dialogs b) (Items.calls b) (Items.clicks b) = b.
Proof. destruct b; reflexivity. Qed.

Lemma Run_eta (s : Run) :
  mkRun (ui s) (log s) (nreq s) (ntok s) (pending s) (attempts s) (intervalActive s) = s.
Proof. destruct s; reflexivity. Qed.

(** Unfolds the monad of the item handlers. *)
Ltac irun :=
  unfold Items.liftM, Items.lift, Items.desk, Items.dialog,
    Items.setShowRenameDialog, Items.setRenameTarget, Items.setRenameName,
    Items.setShowMoveDialog, Items.setMoveTarget, Items.setMoveDestination,
    Items.setDialogs, Items.call, Items.click,
    Items.ret, Items.throw, Items.try_catch, Items.try_finally, Items.bind;
  cbn.

(** X20. A confirmed deletion that the gateway accepts sends one
    [DELETE] for the file and then asks for the listing of the current
    folder again, with the same token; the error is cleared, [loading] is
    reset while that listing is still in flight, and the file stays in the
    list until it arrives. *)
Theorem delete_then_refresh (d : Items.Desk) (b : Items.Bench)
    (filename token : string) (data_token : option string) :
  Items.window_confirm d ("Delete " ++ filename ++ "?") = true ->
  acquireTokenSilent (Items.base d) (ntok (Items.run b)) = Some token ->
  Items.gateway d (length (Items.calls b)) (Items.DELETE_files token filename)
    = Items.Resolved data_token ->
  let s := Items.run b in
  let b' := (Items.handleDelete filename d b).2 in
  let refresh := GET_files token (folderQuery (folderOf (currentPath (ui s)))) in
  Items.calls b' = (Items.calls b ++ [Items.DELETE_files token filename])%list /\
  sent (log (Items.run b')) = (sent (log s) ++ [refresh])%list /\
  pending (Items.run b') = (pending s ++ [FetchFilesPending token (nreq s) refresh])%list /\
  error (ui (Items.run b')) = None /\
  loading (ui (Items.run b')) = false /\
  files (ui (Items.run b')) = files (ui s).
Proof.
  intros Hyes Htok Hgw s b' refresh. subst s b' refresh.
  unfold Items.handleDelete. irun. rewrite Hyes. cbn.
  run. rewrite Htok. cbn. rewrite Hgw. cbn.
  rewrite fetchFiles_detached_run. cbn.
  rewrite sent_app. cbn. repeat split; reflexivity.
Qed.

(** X21. When the user declines the confirmation, deleting a file or a
    folder does nothing at all: no token is asked for, nothing is sent and
    no state changes. *)
Theorem declined_deletion_changes_nothing (d : Items.Desk) (b : Items.Bench)
    (filename folderPath : string) :
  (Items.window_confirm d ("Delete " ++ filename ++ "?") = false ->
   (Items.handleDelete filename d b).2 = b) /\
  (Items.window_confirm d "Delete empty folder? (Folder must not contain any files)"
     = false ->
   (Items.handleDeleteFolder folderPath d b).2 = b).
Proof.
  split; intros Hno.
  - unfold Items.handleDelete. irun. rewrite Hno. cbn.
    unfold Items.with_run. rewrite Bench_eta. reflexivity.
  - unfold Items.handleDeleteFolder. irun. rewrite Hno. cbn.
    unfold Items.with_run. rewrite Bench_eta. reflexivity.
Qed.

(** X22. When the gateway refuses to delete a folder, the message it gives
    is shown as it is; without a message, or with an empty one, the
    generic text is shown.  The listing is not asked for again and
    [loading] is reset. *)
Theorem deleteFolder_shows_gateway_message (d : Items.Desk) (b : Items.Bench)
    (folderPath token : string) (data_error : option string) :
  Items.window_confirm d "Delete empty folder? (Folder must not contain any files)"
    = true ->
  acquireTokenSilent (Items.base d) (ntok (Items.run b)) = Some token ->
  Items.gateway d (length (Items.calls b)) (Items.DELETE_folders token folderPath)
    = Items.Rejected data_error ->
  let s := Items.run b in
  let b' := (Items.handleDeleteFolder folderPath d b).2 in
  (forall message, data_error = Some message -> message <> "" ->
     error (ui (Items.run b')) = Some message) /\
  (data_error = None \/ data_error = Some "" ->
     error (ui (Items.run b')) = Some "Failed to delete folder.") /\
  loading (ui (Items.run b')) = false /\
  sent (log (Items.run b')) = sent (log s) /\
  pending (Items.run b') = pending s.
Proof.
  intros Hyes Htok Hgw s b'. subst s b'.
  unfold Items.handleDeleteFolder. irun. rewrite Hyes. cbn.
  run. rewrite Htok. cbn. rewrite Hgw. cbn.
  rewrite sent_app. cbn. rewrite app_nil_r.
  repeat split; try reflexivity.
  - intros message -> Hm. unfold str_or.
    rewrite (proj2 (String.eqb_neq _ _) Hm). reflexivity.
  - intros [->| ->]; reflexivity.
Qed.

(** X23. Renaming to a blank name and moving to a blank destination stop
    before anything else happens: the only change is the error shown. *)
Theorem blank_input_is_refused (d : Items.Desk) (b : Items.Bench) :
  let refused message :=
    Items.with_run
      (with_ui (with_error (Some message) (ui (Items.run b))) (Items.run b)) b in
  (blank (Items.renameName (Items.dialogs b)) = true ->
   (Items.handleRenameItem d b).2 = refused "Name cannot be empty.") /\
  (blank (Items.moveDestination (Items.dialogs b)) = true ->
   (Items.handleMoveFile d b).2 = refused "Destination folder cannot be empty.").
Proof.
  intros refused. subst refused. split; intros Hblank.
  - unfold Items.handleRenameItem. irun. rewrite Hblank. reflexivity.
  - unfold Items.handleMoveFile. irun. rewrite Hblank. reflexivity.
Qed.

(** X24. Clicking rename on a row, typing a name and confirming sends one
    rename call whose [oldPath] is the [fullPath] of the row, or its name
    when it has none: for a folder row that is the bare name of the
    folder, not its path.  When the gateway accepts, the dialog is closed
    and emptied, the error is cleared and the listing of the current
    folder is asked for again. *)
Theorem rename_sends_row_path (d : Items.Desk) (b : Items.Bench)
    (row : Items.Target) (value token : string) (data_token : option string) :
  blank value = false ->
  acquireTokenSilent (Items.base d) (ntok (Items.run b)) = Some token ->
  let oldPath := str_or (Items.fullPath row) (Items.name row) in
  Items.gateway d (length (Items.calls b)) (Items.POST_rename token oldPath value)
    = Items.Resolved data_token ->
  let s := Items.run b in
  let b1 := (Items.onRenameClick row d b).2 in
  let b2 := (Items.setRenameName value d b1).2 in
  let b' := (Items.handleRenameItem d b2).2 in
  let refresh := GET_files token (folderQuery (folderOf (currentPath (ui s)))) in
  Items.calls b' = (Items.calls b ++ [Items.POST_rename token oldPath value])%list /\
  (forall folder, row = Items.ofFolder folder -> oldPath = Folder.name folder) /\
  Items.showRenameDialog (Items.dialogs b') = false /\
  Items.renameTarget (Items.dialogs b') = None /\
  Items.renameName (Items.dialogs b') = "" /\
  sent (log (Items.run b')) = (sent (log s) ++ [refresh])%list /\
  error (ui (Items.run b')) = None.
Proof.
  intros Hvalue Htok oldPath Hgw s b1 b2 b' refresh.
  subst s b1 b2 b' refresh oldPath.
  unfold Items.handleRenameItem, Items.onRenameClick. irun. rewrite Hvalue. cbn.
  run. rewrite Htok. cbn. rewrite Hgw. cbn.
  rewrite fetchFiles_detached_run. cbn.
  rewrite sent_app. cbn. repeat split; try reflexivity.
  intros folder ->. reflexivity.
Qed.

(** X25. A rename that the gateway rejects leaves the dialog as it was,
    the name typed included, shows the error and does not ask for the
    listing again. *)
Theorem rename_failure_keeps_dialog (d : Items.Desk) (b : Items.Bench)
    (row : Items.Target) (token : string) (data_error : option string) :
  blank (Items.renameName (Items.dialogs b)) = false ->
  Items.renameTarget (Items.dialogs b) = Some row ->
  acquireTokenSilent (Items.base d) (ntok (Items.run b)) = Some token ->
  Items.gateway d (length (Items.calls b))
    (Items.POST_rename token (str_or (Items.fullPath row) (Items.name row))
       (Items.renameName (Items.dialogs b)))
    = Items.Rejected data_error ->
  let s := Items.run b in
  let b' := (Items.handleRenameItem d b).2 in
  Items.dialogs b' = Items.dialogs b /\
  error (ui (Items.run b')) = Some "Failed to rename item." /\
  loading (ui (Items.run b')) = false /\
  sent (log (Items.run b')) = sent (log s) /\
  pending (Items.run b') = pending s.
Proof.
  intros Hname Hrow Htok Hgw s b'. subst s b'.
  unfold Items.handleRenameItem. irun. rewrite Hname. cbn.
  run. rewrite Htok. cbn. rewrite Hrow. cbn. rewrite Hgw. cbn.
  rewrite sent_app. cbn. rewrite app_nil_r. repeat split; reflexivity.
Qed.

(** X26. The destination of a move is the folder typed without the
    slashes around it, a slash, and the name of the file: a destination
    typed as slashes only gives a path that starts with a slash. *)
Theorem move_sends_normalized_destination (d : Items.Desk) (b : Items.Bench)
    (row : Items.Target) (token : string) :
  blank (Items.moveDestination (Items.dialogs b)) = false ->
  Items.moveTarget (Items.dialogs b) = Some row ->
  Items.name row <> "" ->
  acquireTokenSilent (Items.base d) (ntok (Items.run b)) = Some token ->
  let destination := Items.moveDestination (Items.dialogs b) in
  let b' := (Items.handleMoveFile d b).2 in
  exists core i j,
    destination = slashes i ++ core ++ slashes j /\
    (forall t, core <> "/" ++ t) /\
    (forall t, core <> t ++ "/") /\
    Items.calls b' =
      (Items.calls b ++
       [Items.POST_move token (str_or (Items.fullPath row) (Items.name row))
          (core ++ "/" ++ Items.name row)])%list.
Proof.
  intros Hdest Hrow Hname Htok destination b'. subst b'.
  exists (normalizePathForClient destination).
  assert (Hsplit : exists i j,
             destination = slashes i ++ normalizePathForClient destination ++ slashes j).
  { unfold normalizePathForClient.
    destruct (String.eqb_spec destination "") as [->|_]; [exists O, O; reflexivity|].
    destruct (dropLeadingSlashes_split destination) as [i Hi].
    destruct (dropTrailingSlashes_split (dropLeadingSlashes destination)) as [j Hj].
    exists i, j. rewrite <- Hj. exact Hi. }
  destruct Hsplit as (i & j & Hsplit). exists i, j.
  split; [exact Hsplit|]. split; [|split].
  - intros t. unfold normalizePathForClient.
    destruct (String.eqb_spec destination "") as [_|_]; [discriminate|].
    apply dropTrailingSlashes_head. intros u. apply dropLeadingSlashes_head.
  - intros t. unfold normalizePathForClient.
    destruct (String.eqb_spec destination "") as [_|_]; [destruct t; discriminate|].
    apply dropTrailingSlashes_last.
  - subst destination. unfold Items.handleMoveFile. irun. rewrite Hdest. cbn.
    run. rewrite Htok. cbn. rewrite Hrow. cbn.
    rewrite (proj2 (String.eqb_neq _ _) Hname). cbn.
    destruct (Items.gateway d _ _); reflexivity.
Qed.

(** X27. A download asks for a download token for the file (a name with a
    slash as it is, a bare name under the current folder) and clicks the
    anchor only when the gateway answers with a token that is not empty;
    in every other case nothing is clicked and the error is shown.  It
    never asks for the listing, and [loading] is reset. *)
Theorem download_clicks_only_with_token (d : Items.Desk) (b : Items.Bench)
    (filename bearer : string) :
  acquireTokenSilent (Items.base d) (ntok (Items.run b)) = Some bearer ->
  let s := Items.run b in
  let b' := (Items.handleDownload filename d b).2 in
  exists path,
    (contains "/" filename = true \/ currentPath (ui s) = "/" -> path = filename) /\
    (contains "/" filename = false -> currentPath (ui s) <> "/" ->
     path = currentPath (ui s) ++ "/" ++ filename) /\
    Items.calls b' = (Items.calls b ++ [Items.POST_download_token bearer path])%list /\
    sent (log (Items.run b')) = sent (log s) /\
    loading (ui (Items.run b')) = false /\
    match Items.gateway d (length (Items.calls b))
            (Items.POST_download_token bearer path) with
    | Items.Resolved (Some dt) =>
        if String.eqb dt "" then
          Items.clicks b' = Items.clicks b /\
          error (ui (Items.run b')) = Some "Failed to download file."
        else
          Items.clicks b' =
            (Items.clicks b ++
             [Items.mkLink path dt (str_or (Some (Items.lastSegment path)) filename)])%list /\
          error (ui (Items.run b')) = None
    | _ =>
        Items.clicks b' = Items.clicks b /\
        error (ui (Items.run b')) = Some "Failed to download file."
    end.
Proof.
  intros Htok s b'. subst s b'.
  unfold Items.handleDownload. irun. run. rewrite Htok. cbn.
  match goal with
  | |- context [Items.POST_download_token bearer ?p] => exists p
  end.
  split; [|split].
  - intros [->| ->]; [reflexivity|]. cbn. destruct (contains "/" filename); reflexivity.
  - intros -> Hcp. rewrite (proj2 (String.eqb_neq _ _) Hcp). reflexivity.
  - destruct (Items.gateway d _ _) as [[dt|]|data_error]; cbn.
    + destruct (String.eqb dt "") eqn:Hdt; cbn; rewrite ?Hdt; cbn;
        rewrite ?sent_app; cbn; rewrite ?app_nil_r;
        repeat split; reflexivity.
    + rewrite sent_app. cbn. rewrite app_nil_r. repeat split; reflexivity.
    + rewrite sent_app. cbn. rewrite app_nil_r. repeat split; reflexivity.
Qed.

(** X28. The invariants of the sessions hold with the item operations
    in: whatever the user does, downloads, deletions, renames and moves
    included, a cached folder stays cached; without a mount the roles
    stay; and without folder creation every request and every call of
    the item handlers carries a bearer that the token provider handed
    out. *)
Theorem item_session_invariants (d : Items.Desk) (fuel : nat)
    (l : list Items.Gesture) (b : Items.Bench) :
  let w := Items.base d in
  let s := Items.run b in
  let b' := Items.session fuel l d b in
  let s' := Items.run b' in
  (forall path, is_Some (treeCache (ui s) !! path) ->
                is_Some (treeCache (ui s') !! path)) /\
  (Forall (fun g => Items.usesMount g = false) l ->
   userRoles (ui s') = userRoles (ui s)) /\
  (Forall (fun g => Items.usesCreateFolder g = false) l ->
   (forall r, In r (sent (log s)) -> handedOut w (bearerOf r)) ->
   (forall p, In p (pending s) -> handedOut w (tokenOf p)) ->
   (forall c, In c (Items.calls b) -> handedOut w (Items.bearerOf c)) ->
   (forall r, In r (sent (log s')) -> handedOut w (bearerOf r)) /\
   (forall c, In c (Items.calls b') -> handedOut w (Items.bearerOf c))).
Proof.
  intros w s b' s'. subst w s b' s'. split; [|split].
  - intros path Hpath.
    apply (h_session (fun _ s => is_Some (treeCache (ui s) !! path))
             (fun _ _ => True)); try (intros; assumption);
      try (intros; exact Logic.I).
    + intros _ s0 upd Hc _ Hs. cbn. rewrite Hc. exact Hs.
    + intros _ s0 k v Hs. cbn. apply lookup_insert_is_Some'. right. exact Hs.
    + split; [exact Hpath|]. intros; exact Logic.I.
  - intros Hl.
    apply (h_session
             (fun _ s' => userRoles (ui s') = userRoles (ui (Items.run b)))
             (fun _ _ => True)); try (intros; assumption);
      try (intros; exact Logic.I).
    + intros _ s0 upd _ Hr Hs. cbn. rewrite Hr. exact Hs.
    + intros g Hg Hm. rewrite Forall_forall in Hl. rewrite (Hl g) in Hm.
      * discriminate.
      * apply list_elem_of_In. exact Hg.
    + split; [reflexivity|]. intros; exact Logic.I.
  - intros Hl Hsent Hpend Hcalls.
    assert (Hkept :
      Items.kept
        (fun w s => (forall r, In r (sent (log s)) -> handedOut w (bearerOf r)) /\
                    (forall p, In p (pending s) -> handedOut w (tokenOf p)))
        handedOut d (Items.session fuel l d b)).
    { apply h_session; try (intros; assumption).
      - intros w0 s0 e He [H1 H2]. split; [|exact H2].
        intros r. cbn. rewrite sent_app, He, app_nil_r. apply H1.
      - intros w0 s0 r Hr [H1 H2]. split; [|exact H2].
        intros r'. cbn. rewrite sent_app. cbn. rewrite in_app_iff.
        intros [Hin|[<-|[]]]; [apply H1, Hin|exact Hr].
      - intros w0 s0 p Hp [H1 H2]. split; [exact H1|].
        intros q. cbn. rewrite in_app_iff.
        intros [Hin|[<-|[]]]; [apply H2, Hin|exact Hp].
      - intros w0 s0 [H1 H2]. split; [exact H1|]. intros p [].
      - intros w0 s0 p [_ H2]. apply H2.
      - intros w0 k token Hk. exists k. exact Hk.
      - intros g Hg Hc. rewrite Forall_forall in Hl. rewrite (Hl g) in Hc.
        + discriminate.
        + apply list_elem_of_In. exact Hg.
      - split; [split; assumption|exact Hcalls]. }
    destruct Hkept as [[H1 _] H2]. split; assumption.
Qed.

(** ** The payload pipeline of [decodeToken] *)

Lemma hex_digit_value (k : N) :
  (k < 16)%N -> Browser.hex_value (N_of_ascii (hex_digit k)) = Some k.
Proof.
  intros Hk.
  assert (Hcases : In k (map N.of_nat (seq 0 16))).
  { apply in_map_iff. exists (N.to_nat k). split; [apply N2Nat.id|].
    apply in_seq. lia. }
  cbn in Hcases.
  repeat (destruct Hcases as [<-|Hcases]; [reflexivity|]). destruct Hcases.
Qed.

Lemma escaped_octet_percent_escape (c : ascii) (rest : list N) :
  Browser.escaped_octet
    (37 :: N_of_ascii (hex_digit (N_of_ascii c / 16))
        :: N_of_ascii (hex_digit (N_of_ascii c mod 16)) :: rest)%N
  = Some (N_of_ascii c, rest).
Proof.
  pose proof (N_ascii_bounded c) as Hc.
  unfold Browser.escaped_octet. cbn [N.eqb Pos.eqb].
  rewrite !hex_digit_value.
  - rewrite <- (N.div_mod' (N_of_ascii c) 16). reflexivity.
  - apply N.mod_lt. discriminate.
  - apply N.Div0.div_lt_upper_bound. exact Hc.
Qed.

Lemma decode_escapes_percent_escape (s : string) :
  (forall c, In c (list_ascii_of_string s) -> (N_of_ascii c < 128)%N) ->
  forall fuel, (String.length s <= fuel)%nat ->
  Browser.decode_escapes fuel (Browser.codes (percent_escape s))
  = Some (Browser.codes s).
Proof.
  induction s as [|c s IH]; intros Hs fuel Hfuel.
  - destruct fuel; reflexivity.
  - destruct fuel as [|fuel]; [cbn in Hfuel; lia|].
    assert (Hc : (N_of_ascii c < 128)%N) by (apply Hs; left; reflexivity).
    assert (Hs' : forall c', In c' (list_ascii_of_string s) -> (N_of_ascii c' < 128)%N)
      by (intros c' Hc'; apply Hs; right; exact Hc').
    specialize (IH Hs' fuel ltac:(cbn in Hfuel; lia)).
    change (Browser.codes (percent_escape (String c s)))
      with (37 :: N_of_ascii (hex_digit (N_of_ascii c / 16))
               :: N_of_ascii (hex_digit (N_of_ascii c mod 16))
               :: Browser.codes (percent_escape s))%N.
    cbn [Browser.decode_escapes N.eqb Pos.eqb].
    rewrite escaped_octet_percent_escape.
    rewrite (proj2 (N.ltb_lt _ _) Hc). rewrite IH. reflexivity.
Qed.

Lemma text_codes (s : string) : Browser.text (Browser.codes s) = s.
Proof.
  unfold Browser.text, Browser.codes. rewrite map_map.
  induction s as [|c s IH]; [reflexivity|].
  cbn. rewrite ascii_N_embedding. f_equal. exact IH.
Qed.

Lemma percent_escape_length (s : string) :
  length (Browser.codes (percent_escape s)) = (3 * String.length s)%nat.
Proof.
  induction s as [|c s IH]; [reflexivity|].
  change (Browser.codes (percent_escape (String c s)))
    with (37 :: N_of_ascii (hex_digit (N_of_ascii c / 16))
             :: N_of_ascii (hex_digit (N_of_ascii c mod 16))
             :: Browser.codes (percent_escape s))%N.
  cbn [length]. rewrite IH. cbn [String.length]. lia.
Qed.

Lemma percent_escape_round_trip (binary : string) :
  (forall c, In c (list_ascii_of_string binary) -> (N_of_ascii c < 128)%N) ->
  Browser.decodeURIComponent (percent_escape binary) = Some binary.
Proof.
  intros Hascii. unfold Browser.decodeURIComponent.
  rewrite (decode_escapes_percent_escape binary Hascii).
  - rewrite text_codes. reflexivity.
  - rewrite percent_escape_length. lia.
Qed.

(** X29. On a payload of ASCII characters the escaping of [decodeToken]
    and the browser's [decodeURIComponent] undo each other: the token
    decodes to what [JSON.parse] makes of the text that [atob] gave, and
    fails with a [SyntaxError] when that is not JSON. *)
Theorem decodeToken_parses_ascii_payload (w : World)
    (token base64Url binary : string) :
  decodeURIComponent w = Browser.decodeURIComponent ->
  split_on "." token !! 1%nat = Some base64Url ->
  atob w (replace_char "_" "/" (replace_char "-" "+" base64Url)) = Some binary ->
  (forall c, In c (list_ascii_of_string binary) -> (N_of_ascii c < 128)%N) ->
  decodeToken w token =
    match JSON_parse w binary with
    | Some decoded => Normal decoded
    | None => Throw SyntaxError
    end.
Proof.
  intros Hdecode Hsegment Hatob Hascii. unfold decodeToken.
  rewrite Hsegment, Hatob, Hdecode, (percent_escape_round_trip binary Hascii).
  reflexivity.
Qed.

(** ** Instances *)

(** X1 at the second chunk of a file of 100 MiB and one byte. *)
Lemma chunk_slices_tile_the_file_witness :
  exists start stop,
    slice (chunkRequest initialState Sample.bigFile "T0" 3 1) = Some (start, stop) /\
    start = 52428800 /\ stop = 104857600.
Proof.
  destruct (chunk_slices_tile_the_file initialState Sample.bigFile "T0" 1)
    as (start & stop & Hslice & Hstart & _ & Hnext & _).
  - reflexivity.
  - vm_compute. split; [discriminate|reflexivity].
  - exists start, stop. split; [exact Hslice|]. split; [exact Hstart|].
    vm_compute in Hslice. congruence.
Defined.


(** X4 at the listing of [docs]: the root is asked for as well. *)
Lemma fetchFiles_root_refresh_isolated_witness :
  sent (log (fetchFiles "T0" "docs" (Sample.world Sample.gateway) Sample.start).2) =
    [GET_files "T0" (Some "docs"); GET_files "T0" None].
Proof.
  destruct (fetchFiles_root_refresh_isolated (Sample.world Sample.gateway)
              Sample.start "T0" "docs" (Sample.listing (Some "docs") []) eq_refl)
    as [_ Hother].
  destruct Hother as [Hsent _]; [discriminate|]. exact Hsent.
Defined.

(** X6 at the root, which is expanded at first. *)
Lemma toggleExpand_collapse_is_local_witness :
  (toggleExpand "/" (Sample.world Sample.offline) Sample.start).2 =
    with_ui (with_expandedPaths (expandedPaths (ui Sample.start) ∖ {["/"]})
               (ui Sample.start)) Sample.start.
Proof.
  apply (toggleExpand_collapse_is_local (Sample.world Sample.offline) Sample.start "/").
  apply (bool_decide_eq_true_1 _). reflexivity.
Defined.


(** X9 at a gateway that rejects the creation request. *)
Lemma createFolder_failure_inserts_nothing_witness :
  let result := handleCreateFolder (Sample.world (Sample.failing 0)) Sample.inDocs in
  ui result.2 =
    with_loading false (with_error (Some "Failed to create folder.") (ui Sample.inDocs)) /\
  sent (log result.2) = [POST_folders_create "T0" "/docs/reports"].
Proof.
  intros result.
  destruct (createFolder_failure_inserts_nothing (Sample.world (Sample.failing 0))
              Sample.inDocs "T0" eq_refl eq_refl eq_refl) as (_ & Hui & Hsent).
  split; [exact Hui|exact Hsent].
Defined.

(** X10 at the creation of [reports] in [/docs]. *)
Lemma createFolder_optimistic_entry_is_unique_witness :
  let s' := (handleCreateFolder (Sample.world Sample.gateway) Sample.inDocs).2 in
  In "/docs/reports" (map Folder.path (folders (ui s'))) /\
  List.NoDup (map Folder.path (folders (ui s'))).
Proof.
  intros s'.
  destruct (createFolder_optimistic_entry_is_unique (Sample.world Sample.gateway)
              Sample.inDocs "T0" Sample.done eq_refl eq_refl eq_refl eq_refl)
    as (Hin & _ & Hnodup & _).
  - apply bare_root_renders. vm_compute. reflexivity.
  - split; [exact Hin|]. apply Hnodup. constructor.
Defined.


(** X12 at a token whose groups claim holds the reader group. *)
Lemma any_role_fetches_listing_witness :
  let s' := (initializeComponent (Sample.login Sample.readerToken) Sample.start).2 in
  sent (log s') = [GET_files Sample.readerToken None] /\ error (ui s') = None.
Proof.
  intros s'.
  destruct (any_role_fetches_listing (Sample.login Sample.readerToken) Sample.start
              Sample.readerToken [("groups", JArr [JStr "reader-id"])]
              [JStr "reader-id"] "reader-id") as (Hsent & _ & Herror & _).
  - reflexivity.
  - vm_compute. reflexivity.
  - reflexivity.
  - left. reflexivity.
  - left. reflexivity.
  - split; [exact Hsent|exact Herror].
Defined.

(** X13 when no token can be acquired. *)
Lemma initialization_fails_closed_witness :
  let result := initializeComponent Scenario.signedOut Sample.start in
  error (ui result.2) = Some "Failed to initialize. Please log in again." /\
  sent (log result.2) = [].
Proof.
  intros result.
  destruct (initialization_fails_closed Scenario.signedOut Sample.start)
    as (_ & Herror & _ & Hsent & _).
  - left. reflexivity.
  - split; [exact Herror|exact Hsent].
Defined.

(** X15 at an upload when no token can be acquired. *)
Lemma no_token_no_request_witness :
  sent (log (perform Upload Scenario.signedOut (Sample.withFile Sample.bigFile)).2) = [].
Proof.
  apply (no_token_no_request Upload Scenario.signedOut (Sample.withFile Sample.bigFile)).
  reflexivity.
Defined.




(** X19 at a session that mounts, opens a folder and uploads. *)
Lemma requests_carry_issued_tokens_witness :
  Forall (fun r => handedOut (Sample.world Sample.gateway) (bearerOf r))
    (sent (log (session 3 [Mount; OpenFolder "docs"; Upload]
                  (Sample.world Sample.gateway)
                  (Sample.withFile Sample.smallFile)))).
Proof.
  apply Forall_forall. intros r Hr. apply list_elem_of_In in Hr. revert r Hr.
  apply (requests_carry_issued_tokens (Sample.world Sample.gateway) 3
           [Mount; OpenFolder "docs"; Upload] (Sample.withFile Sample.smallFile)).
  - repeat constructor.
  - intros r [].
  - intros p [].
Defined.

(** X20 at the deletion of a file of [/docs]. *)
Lemma delete_then_refresh_witness :
  let b' := (Items.handleDelete "docs/a.txt"
               (Scenario.desk true Scenario.accepting) Scenario.inDocs).2 in
  Items.calls b' = [Items.DELETE_files "T0" "docs/a.txt"] /\
  sent (log (Items.run b')) = [GET_files "T0" (Some "/docs")] /\
  loading (ui (Items.run b')) = false.
Proof.
  intros b'.
  destruct (delete_then_refresh (Scenario.desk true Scenario.accepting)
              Scenario.inDocs "docs/a.txt" "T0" None eq_refl eq_refl eq_refl)
    as (Hcalls & Hsent & _ & _ & Hloading & _).
  split; [exact Hcalls|]. split; [exact Hsent|exact Hloading].
Defined.

(** X22 at a folder that the gateway finds not empty. *)
Lemma deleteFolder_shows_gateway_message_witness :
  error (ui (Items.run
     (Items.handleDeleteFolder "docs/2024"
        (Scenario.desk true (Scenario.refusing (Some "Folder is not empty")))
        Scenario.inDocs).2)) = Some "Folder is not empty".
Proof.
  destruct (deleteFolder_shows_gateway_message
              (Scenario.desk true (Scenario.refusing (Some "Folder is not empty")))
              Scenario.inDocs "docs/2024" "T0" (Some "Folder is not empty")
              eq_refl eq_refl eq_refl) as (Hmessage & _).
  apply (Hmessage "Folder is not empty"); [reflexivity|discriminate].
Defined.

(** X24 at the folder [docs/2024]: the call names it [2024]. *)
Lemma rename_sends_row_path_witness :
  let d := Scenario.desk true Scenario.accepting in
  let b1 := (Items.onRenameClick (Items.ofFolder Sample.child) d Scenario.inDocs).2 in
  let b2 := (Items.setRenameName "2025" d b1).2 in
  let b' := (Items.handleRenameItem d b2).2 in
  Items.calls b' = [Items.POST_rename "T0" "2024" "2025"] /\
  Items.showRenameDialog (Items.dialogs b') = false.
Proof.
  intros d b1 b2 b'.
  destruct (rename_sends_row_path d Scenario.inDocs (Items.ofFolder Sample.child)
              "2025" "T0" None eq_refl eq_refl eq_refl)
    as (Hcalls & _ & Hshow & _).
  split; [exact Hcalls|exact Hshow].
Defined.

(** X25 at a rename that the gateway rejects. *)
Lemma rename_failure_keeps_dialog_witness :
  let b' := (Items.handleRenameItem (Scenario.desk true (Scenario.refusing None))
               Scenario.renaming).2 in
  Items.renameName (Items.dialogs b') = "b.txt" /\
  error (ui (Items.run b')) = Some "Failed to rename item.".
Proof.
  intros b'.
  destruct (rename_failure_keeps_dialog (Scenario.desk true (Scenario.refusing None))
              Scenario.renaming Scenario.report "T0" None
              eq_refl eq_refl eq_refl eq_refl) as (Hdialogs & Herror & _).
  split; [|exact Herror]. unfold b'. rewrite Hdialogs. reflexivity.
Defined.

(** X26 at the destination [/archive/]. *)
Lemma move_sends_normalized_destination_witness :
  exists core i j,
    "/archive/" = slashes i ++ core ++ slashes j /\
    (forall t, core <> "/" ++ t) /\
    (forall t, core <> t ++ "/") /\
    Items.calls (Items.handleMoveFile (Scenario.desk true Scenario.accepting)
                   Scenario.moving).2 =
      [Items.POST_move "T0" "docs/a.txt" (core ++ "/" ++ "a.txt")].
Proof.
  apply (move_sends_normalized_destination (Scenario.desk true Scenario.accepting)
           Scenario.moving Scenario.report "T0");
    [reflexivity|reflexivity|discriminate|reflexivity].
Defined.

(** X27 at a file of [/docs] and a gateway that grants a download token. *)
Lemma download_clicks_only_with_token_witness :
  let b' := (Items.handleDownload "a.txt" (Scenario.desk true Scenario.granting)
               Scenario.inDocs).2 in
  exists path,
    path = "/docs/a.txt" /\
    Items.calls b' = [Items.POST_download_token "T0" path] /\
    Items.clicks b' = [Items.mkLink path "dt-1" "a.txt"].
Proof.
  intros b'.
  destruct (download_clicks_only_with_token (Scenario.desk true Scenario.granting)
              Scenario.inDocs "a.txt" "T0" eq_refl)
    as (path & _ & Hpath & Hcalls & _ & _ & Hclicks).
  assert (Hp : path = "/docs/a.txt") by (apply Hpath; [reflexivity|discriminate]).
  subst path. exists "/docs/a.txt". split; [reflexivity|].
  split; [exact Hcalls|]. destruct Hclicks as [Hclicks _]. exact Hclicks.
Defined.

(** X29 at [Sample.readerToken]. *)
Lemma decodeToken_parses_ascii_payload_witness :
  decodeToken (Sample.login Sample.readerToken) Sample.readerToken =
    Normal (JObj [("groups", JArr [JStr "reader-id"])]).
Proof.
  rewrite (decodeToken_parses_ascii_payload (Sample.login Sample.readerToken)
             Sample.readerToken "eyJncm91cHMiOlsicmVhZGVyLWlkIl19" Scenario.payload).
  - vm_compute. reflexivity.
  - reflexivity.
  - reflexivity.
  - vm_compute. reflexivity.
  - intros c Hc. vm_compute in Hc.
    repeat (destruct Hc as [<-|Hc]; [reflexivity|]). destruct Hc.
Defined.
